(** * Scheduling and waitlist reconciliation of the barbershop backend

    A shallow embedding of [utils/scheduleUtils.js] (slot grid, availability
    checker, availability query), of the waitlist reconciler
    [updateWaitlistForDate] of the appointments routes and of
    [sendWaitlistNotificationSMS] of the SMS service, followed by the
    properties of the specification that concern them. *)

From Stdlib Require Import ZArith List String Ascii Bool Lia.
From Stdlib Require Import DecimalString Sorted Permutation.
From stdpp Require Import gmap strings list fin_maps.
Import ListNotations.

Local Open Scope string_scope.
Local Open Scope Z_scope.

(* ================================================================== *)
(** ** JavaScript values used by the scheduling code *)
(* ================================================================== *)

Module JS.

(** The numbers the scheduling code computes with are minutes and hours
    obtained from [Number] on the fields of a time slot: integers, or NaN
    when a field is not numeric.  Integers are exact (binary64 is exact
    below 2^53). *)
Inductive num : Type :=
| Int (z : Z)
| NaN.

Definition add (a b : num) : num :=
  match a, b with
  | Int x, Int y => Int (x + y)
  | _, _ => NaN
  end.

Definition mul (a b : num) : num :=
  match a, b with
  | Int x, Int y => Int (x * y)
  | _, _ => NaN
  end.

(** Every comparison with NaN is false. *)
Definition lt (a b : num) : bool :=
  match a, b with
  | Int x, Int y => x <? y
  | _, _ => false
  end.

Definition le (a b : num) : bool :=
  match a, b with
  | Int x, Int y => x <=? y
  | _, _ => false
  end.

Definition gt (a b : num) : bool := lt b a.
Definition ge (a b : num) : bool := le b a.

(** [s.split(sep)] for a one-character separator: the pieces between the
    occurrences of [sep]; always at least one piece. *)
Fixpoint split (sep : ascii) (s : string) : list string :=
  match s with
  | EmptyString => [EmptyString]
  | String c rest =>
      if Ascii.eqb c sep then EmptyString :: split sep rest
      else match split sep rest with
           | [] => [String c EmptyString]
           | piece :: pieces => String c piece :: pieces
           end
  end.

Definition digit (c : ascii) : option Z :=
  let n := Z.of_nat (nat_of_ascii c) in
  if (48 <=? n) && (n <=? 57) then Some (n - 48) else None.

(** Value of a string of decimal digits, most significant first. *)
Fixpoint digits (acc : Z) (s : string) : option Z :=
  match s with
  | EmptyString => Some acc
  | String c rest =>
      match digit c with
      | Some d => digits (10 * acc + d) rest
      | None => None
      end
  end.

Definition unsignedDigits (s : string) : num :=
  match s with
  | EmptyString => NaN
  | _ => match digits 0 s with Some z => Int z | None => NaN end
  end.

(** [Number(s)] on the strings the scheduling code meets: the empty
    string is 0, an optionally signed string of decimal digits is that
    integer, a string that is not numeric is NaN.  Fractions, exponents,
    radix prefixes, [Infinity] and surrounding white space are outside
    this fragment and fall under NaN here. *)
Definition Number (s : string) : num :=
  match s with
  | EmptyString => Int 0
  | String "+"%char rest => unsignedDigits rest
  | String "-"%char rest =>
      match unsignedDigits rest with
      | Int z => Int (- z)
      | NaN => NaN
      end
  | _ => unsignedDigits s
  end.

(** [n.toString()] for an integer. *)
Definition toString (z : Z) : string :=
  NilZero.string_of_int (Z.to_int z).

Fixpoint repeatChar (n : nat) (c : ascii) : string :=
  match n with
  | O => EmptyString
  | S n' => String c (repeatChar n' c)
  end.

(** [s.padStart(len, c)] for a one-character filler. *)
Definition padStart (len : nat) (c : ascii) (s : string) : string :=
  repeatChar (len - String.length s) c ++ s.

(** [arr.includes(x)] on an array of strings. *)
Definition includes (arr : list string) (x : string) : bool :=
  existsb (String.eqb x) arr.

(** Reading [arr[i]] into arithmetic: a missing element is [undefined],
    which every arithmetic operation and comparison turns into NaN. *)
Definition at_ (arr : list num) (i : nat) : num := nth i arr NaN.

(** [a === b] on numbers: NaN is not equal to anything, itself included. *)
Definition strictEq (a b : num) : bool :=
  match a, b with
  | Int x, Int y => x =? y
  | _, _ => false
  end.

(** [date.getDay()] for a Date of time value [t], milliseconds since the
    epoch, NaN for an Invalid Date; the local time zone of the process is
    taken as UTC.  0 is Sunday; 1 January 1970 was a Thursday. *)
Definition getDay (t : num) : num :=
  match t with
  | Int ms => Int (Z.modulo (ms / 86400000 + 4) 7)
  | NaN => NaN
  end.

End JS.

Declare Scope js_scope.
Delimit Scope js_scope with js.
Infix "+" := JS.add : js_scope.
Infix "*" := JS.mul : js_scope.
Infix "<?" := JS.lt : js_scope.
Infix "<=?" := JS.le : js_scope.
Infix ">?" := JS.gt : js_scope.
Infix ">=?" := JS.ge : js_scope.
Coercion JS.Int : Z >-> JS.num.

(* ================================================================== *)
(** ** utils/scheduleUtils.js *)
(* ================================================================== *)

Module scheduleUtils.

Record BusinessHours : Type := { start : Z; end_ : Z }.

Definition BUSINESS_HOURS : BusinessHours := {| start := 9; end_ := 18 |}.

Definition TIME_SLOT_INTERVAL : Z := 30.

(** The element of [existingAppointments]: a time slot and the duration
    of the booked service, in minutes. *)
Record FormattedAppointment : Type :=
  { timeSlot : string; serviceDuration : Z }.

(** [totalSlots]: the quotient is exact for the configured constants
    (lemma [totalSlots_exact]), so the integer quotient is the
    JavaScript one. *)
Definition totalSlots : Z :=
  ((BUSINESS_HOURS.(end_) - BUSINESS_HOURS.(start)) * 60) / TIME_SLOT_INTERVAL.

(** The body of the loop of [generateTimeSlots] at index [i]. *)
Definition slotAt (i : Z) : string :=
  let minutes := i * TIME_SLOT_INTERVAL in
  let hour := minutes / 60 + BUSINESS_HOURS.(start) in
  let minute := Z.rem minutes 60 in
  JS.padStart 2 "0" (JS.toString hour) ++ ":" ++
  JS.padStart 2 "0" (JS.toString minute).

(** [for (let i = 0; i < totalSlots; i++) slots.push(...)], with [n] the
    iterations that remain. *)
Fixpoint pushSlots (n : nat) (i : Z) (slots : list string) : list string :=
  match n with
  | O => slots
  | S n' => pushSlots n' (i + 1) (slots ++ [slotAt i])
  end.

Definition generateTimeSlots (_ : unit) : list string :=
  pushSlots (Z.to_nat totalSlots) 0 [].

(** [timeSlot.split(':').map(Number)] destructured into two numbers. *)
Definition hoursMinutes (timeSlot : string) : JS.num * JS.num :=
  let parts := map JS.Number (JS.split ":" timeSlot) in
  (JS.at_ parts 0, JS.at_ parts 1).

(** The overlap test of the loop body. *)
Definition overlaps (slotStartMinutes slotEndMinutes
                     appStartMinutes appEndMinutes : JS.num) : bool :=
  ((slotStartMinutes >=? appStartMinutes)%js && (slotStartMinutes <? appEndMinutes)%js)
  || ((slotEndMinutes >? appStartMinutes)%js && (slotEndMinutes <=? appEndMinutes)%js)
  || ((slotStartMinutes <=? appStartMinutes)%js && (slotEndMinutes >=? appEndMinutes)%js).

(** [for (const appointment of existingAppointments)]: false at the first
    overlapping appointment, true when the list is exhausted. *)
Fixpoint noConflict (slotStartMinutes slotEndMinutes : JS.num)
         (existingAppointments : list FormattedAppointment) : bool :=
  match existingAppointments with
  | [] => true
  | appointment :: rest =>
      let '(appHours, appMinutes) := hoursMinutes appointment.(timeSlot) in
      let appStartMinutes := (appHours * 60 + appMinutes)%js in
      let appEndMinutes := (appStartMinutes + appointment.(serviceDuration))%js in
      if overlaps slotStartMinutes slotEndMinutes appStartMinutes appEndMinutes
      then false
      else noConflict slotStartMinutes slotEndMinutes rest
  end.

Definition isTimeSlotAvailable (timeSlot : string)
           (existingAppointments : list FormattedAppointment)
           (serviceDuration : Z) : bool :=
  let '(hours, minutes) := hoursMinutes timeSlot in
  let slotStartMinutes := (hours * 60 + minutes)%js in
  let slotEndMinutes := (slotStartMinutes + serviceDuration)%js in
  if (hours <? BUSINESS_HOURS.(start))%js
     || (slotEndMinutes >? BUSINESS_HOURS.(end_) * 60)%js
  then false
  else noConflict slotStartMinutes slotEndMinutes existingAppointments.

(** [for (const slot of allSlots) if (...) availableSlots.push(slot)]. *)
Fixpoint pushAvailable (allSlots : list string)
         (existingAppointments : list FormattedAppointment)
         (serviceDuration : Z) (availableSlots : list string) : list string :=
  match allSlots with
  | [] => availableSlots
  | slot :: rest =>
      if isTimeSlotAvailable slot existingAppointments serviceDuration
      then pushAvailable rest existingAppointments serviceDuration
                         (availableSlots ++ [slot])
      else pushAvailable rest existingAppointments serviceDuration availableSlots
  end.

(** The date is a parameter of the source function; dates are
    milliseconds since the epoch. *)
Definition getAvailableTimeSlots (date : Z)
           (existingAppointments : list FormattedAppointment)
           (serviceDuration : Z) : list string :=
  let allSlots := generateTimeSlots tt in
  pushAvailable allSlots existingAppointments serviceDuration [].

(** The date is a Date, given by its time value. *)
Definition isBusinessDay (date : JS.num) : bool :=
  let day := JS.getDay date in
  if JS.strictEq day 0 || JS.strictEq day 6 then false
  else true.

End scheduleUtils.

Import scheduleUtils.

Local Open Scope list_scope.

(* ================================================================== *)
(** ** The stored documents *)
(* ================================================================== *)

(** Documents are stored in collections keyed by [_id] (a finite map: the
    store keeps [_id] unique in a collection); references are [_id]
    values. *)

Module User.
(** Modelled from the spec: the User model (models/User.js) is not among
    the sources and the specification names a user only as a reference; the
    record holds what the reconciler and the SMS service read of a user,
    [user.phone] (absent or a string) and the two notification
    preferences. *)
Record Preferences : Type :=
  { emailNotifications : bool; smsNotifications : bool }.
Record t : Type :=
  { phone : option string; preferences : Preferences }.
End User.

Module Service.
(** models/Service.js: the fields the scheduling code reads. *)
Record t : Type := { name : string; duration : Z }.
End Service.

Module Appointment.
Inductive Status : Type :=
| pending | confirmed | cancelled | completed | no_show.

Record t : Type :=
  { userId : Z;
    serviceId : Z;
    date : Z;
    timeSlot : string;
    status : Status }.

(** [status: { $nin: ['cancelled', 'no-show'] }] *)
Definition active (s : Status) : bool :=
  match s with
  | cancelled | no_show => false
  | _ => true
  end.
End Appointment.

Module Waitlist.
Inductive Status : Type :=
| waiting | notified | booked | expired.

Definition isWaiting (s : Status) : bool :=
  match s with
  | waiting => true
  | _ => false
  end.

Record t : Type :=
  { userId : Z;
    serviceId : Z;
    date : Z;
    preferredTimeSlots : list string;
    status : Status;
    notifiedAt : option Z;
    createdAt : Z;
    updatedAt : Z }.

(** The paths the reconciler modifies before it saves. *)
Definition setNotified (now : Z) (e : t) : t :=
  {| userId := e.(userId); serviceId := e.(serviceId); date := e.(date);
     preferredTimeSlots := e.(preferredTimeSlots);
     status := notified; notifiedAt := Some now;
     createdAt := e.(createdAt); updatedAt := e.(updatedAt) |}.

(** [WaitlistSchema.pre('save')]: [this.updatedAt = Date.now()]. *)
Definition preSave (now : Z) (e : t) : t :=
  {| userId := e.(userId); serviceId := e.(serviceId); date := e.(date);
     preferredTimeSlots := e.(preferredTimeSlots);
     status := e.(status); notifiedAt := e.(notifiedAt);
     createdAt := e.(createdAt); updatedAt := now |}.
End Waitlist.

Record Db : Type :=
  { waitlists : gmap Z Waitlist.t;
    appointments : gmap Z Appointment.t;
    services : gmap Z Service.t;
    users : gmap Z User.t }.

Definition setWaitlists (wl : gmap Z Waitlist.t) (d : Db) : Db :=
  {| waitlists := wl; appointments := d.(appointments);
     services := d.(services); users := d.(users) |}.

(* ================================================================== *)
(** ** Effects: the store, the clock, the console and the SMS provider *)
(* ================================================================== *)

(** What [client.messages.create] is called with: the recipient and the
    parts of the message body that vary. *)
Record SmsRequest : Type :=
  { to : string; serviceName : string; onDate : Z; availableSlot : string }.

(** The provider either rejects the call (the promise rejects) or answers
    with a message carrying a [sid]. *)
Inductive TwilioResult : Type :=
| Rejected
| Message (sid : string).

Inductive Event : Type :=
| WaitlistSaved (id : Z)            (* an [entry.save()] reached the store *)
| SmsRequested (req : SmsRequest)   (* [client.messages.create] was called *)
| ConsoleError (prefix : string).   (* [console.error(prefix, err)] *)

Record World : Type :=
  { db : Db;
    ticks : nat;            (* calls of [Date.now()] so far *)
    events : list Event }.  (* oldest first *)

Inductive Error : Type :=
| TypeError            (* a property read on [null] *)
| DocumentNotFound     (* [save()] of a document that is no longer stored *)
| RequestFailed.       (* the provider rejected the call *)

Inductive Result (A : Type) : Type :=
| Ok (a : A)
| Throw (err : Error).
Arguments Ok {A} a.
Arguments Throw {A} err.

(** A computation reads and writes the world and returns or throws; what
    was written before a throw stays written. *)
Definition M (A : Type) : Type := World -> Result A * World.

Definition ret {A} (a : A) : M A := fun w => (Ok a, w).

Definition bind {A B} (c : M A) (k : A -> M B) : M B :=
  fun w => match c w with
           | (Ok a, w') => k a w'
           | (Throw err, w') => (Throw err, w')
           end.

Definition throw {A} (err : Error) : M A := fun w => (Throw err, w).

Definition tryCatch {A} (body : M A) (handler : Error -> M A) : M A :=
  fun w => match body w with
           | (Ok a, w') => (Ok a, w')
           | (Throw err, w') => handler err w'
           end.

Notation "x <- c ;; k" := (bind c (fun x => k))
  (at level 100, c at next level, right associativity).
Notation "c ;;; k" := (bind c (fun _ => k))
  (at level 100, right associativity).

Definition getDb : M Db := fun w => (Ok w.(db), w).

Definition putDb (d : Db) : M unit :=
  fun w => (Ok tt, {| db := d; ticks := w.(ticks); events := w.(events) |}).

Definition emit (ev : Event) : M unit :=
  fun w => (Ok tt, {| db := w.(db); ticks := w.(ticks);
                      events := w.(events) ++ [ev] |}).

(** [for (const x of xs) body(x)]: a throw leaves the loop. *)
Fixpoint forOf {A} (xs : list A) (body : A -> M unit) : M unit :=
  match xs with
  | [] => ret tt
  | x :: rest => body x ;;; forOf rest body
  end.

(** [xs.map(f)] with a callback that may throw. *)
Fixpoint mapM {A B} (f : A -> M B) (xs : list A) : M (list B) :=
  match xs with
  | [] => ret []
  | x :: rest => y <- f x ;; ys <- mapM f rest ;; ret (y :: ys)
  end.

(** A property read on a populated reference: [null] when the referenced
    document is gone. *)
Definition deref {A} (o : option A) : M A :=
  match o with
  | Some a => ret a
  | None => throw TypeError
  end.

(* ================================================================== *)
(** ** Queries of the reconciler *)
(* ================================================================== *)

Definition msPerDay : Z := 86400000.

(** [new Date(date).setHours(0, 0, 0, 0)] and [setHours(23, 59, 59, 999)],
    with the local time zone of the process taken as UTC. *)
Definition startOfDay (date : Z) : Z := date - date `mod` msPerDay.
Definition endOfDay (date : Z) : Z := startOfDay date + (msPerDay - 1).

(** [date: { $gte: startOfDay, $lte: endOfDay }] *)
Definition sameDay (date d : Z) : bool :=
  (startOfDay date <=? d) && (d <=? endOfDay date).

(** [.sort({ createdAt: 1 })]: ascending creation time, equal times in the
    order of the store. *)
Fixpoint insertByCreatedAt (x : Z * Waitlist.t) (l : list (Z * Waitlist.t))
  : list (Z * Waitlist.t) :=
  match l with
  | [] => [x]
  | y :: l' =>
      if Waitlist.createdAt (snd x) <=? Waitlist.createdAt (snd y)
      then x :: y :: l'
      else y :: insertByCreatedAt x l'
  end.

Definition sortByCreatedAt (l : list (Z * Waitlist.t)) : list (Z * Waitlist.t) :=
  foldr insertByCreatedAt [] l.

(** The filter of [Waitlist.find({ date: ..., status: 'waiting' })]. *)
Definition waitingOn (date : Z) (e : Waitlist.t) : bool :=
  sameDay date e.(Waitlist.date) && Waitlist.isWaiting e.(Waitlist.status).

(** A waitlist entry as the query returns it: the document and, in place
    of its two references, the referenced documents ([null] when gone). *)
Record PopulatedEntry : Type :=
  { entryId : Z;
    doc : Waitlist.t;
    userDoc : option User.t;
    serviceDoc : option Service.t }.

Definition populateEntry (d : Db) (x : Z * Waitlist.t) : PopulatedEntry :=
  {| entryId := fst x;
     doc := snd x;
     userDoc := d.(users) !! Waitlist.userId (snd x);
     serviceDoc := d.(services) !! Waitlist.serviceId (snd x) |}.

Definition findWaitlist (d : Db) (date : Z) : list PopulatedEntry :=
  map (populateEntry d)
      (sortByCreatedAt
         (List.filter (fun x => waitingOn date (snd x))
                      (map_to_list d.(waitlists)))).

(** The filter of [Appointment.find({ date: ..., status: { $nin: ... } })]. *)
Definition bookedOn (date : Z) (a : Appointment.t) : bool :=
  sameDay date a.(Appointment.date) && Appointment.active a.(Appointment.status).

(** An appointment with its service populated. *)
Definition findAppointments (d : Db) (date : Z)
  : list (Appointment.t * option Service.t) :=
  map (fun x => (snd x, d.(services) !! Appointment.serviceId (snd x)))
      (List.filter (fun x => bookedOn date (snd x))
                   (map_to_list d.(appointments))).

(** The callback of [existingAppointments.map(...)]. *)
Definition formatAppointment (x : Appointment.t * option Service.t)
  : M FormattedAppointment :=
  service <- deref (snd x) ;;
  ret {| timeSlot := Appointment.timeSlot (fst x);
         serviceDuration := Service.duration service |}.

(** The choice of the slot to announce: the first available slot, replaced
    by the first preferred slot that is available. *)
Fixpoint firstPreferred (availableSlots preferredTimeSlots : list string)
         (selectedSlot : string) : string :=
  match preferredTimeSlots with
  | [] => selectedSlot
  | preferredSlot :: rest =>
      if JS.includes availableSlots preferredSlot then preferredSlot
      else firstPreferred availableSlots rest selectedSlot
  end.

Definition selectSlot (first : string) (availableSlots preferredTimeSlots : list string)
  : string :=
  let selectedSlot := first in
  if (0 <? length preferredTimeSlots)%nat
  then firstPreferred availableSlots preferredTimeSlots selectedSlot
  else selectedSlot.

(** [!user.phone]: absent or empty. *)
Definition truthy (s : option string) : option string :=
  match s with
  | Some EmptyString | None => None
  | Some p => Some p
  end.

Section Reconciler.

(** [clock n] is what the [n]-th call of [Date.now()] returns. *)
Variable clock : nat -> Z.

(** The answer of the SMS provider to a request, given what happened
    before. *)
Variable twilio : list Event -> SmsRequest -> TwilioResult.

Definition DateNow : M Z :=
  fun w => (Ok (clock w.(ticks)),
            {| db := w.(db); ticks := S w.(ticks); events := w.(events) |}).

(** [console.error(prefix, error)] *)
Definition consoleError (prefix : string) : M unit :=
  emit (ConsoleError prefix).

(** [await client.messages.create({ body, from, to })] *)
Definition messagesCreate (req : SmsRequest) : M string :=
  fun w =>
    let w' := {| db := w.(db); ticks := w.(ticks);
                 events := w.(events) ++ [SmsRequested req] |} in
    match twilio w.(events) req with
    | Rejected => (Throw RequestFailed, w')
    | Message sid => (Ok sid, w')
    end.

(** utils/smsService.js.  The request to the provider is made during the
    call; the caller does not await the outcome, whose only effect is the
    console line of a failed send, recorded here right after the request. *)
Definition sendWaitlistNotificationSMS (user : User.t) (service : Service.t)
           (date : Z) (availableSlot : string) : M bool :=
  tryCatch
    (match truthy user.(User.phone) with
     | None => ret false
     | Some phone =>
         sid <- messagesCreate {| to := phone;
                                  serviceName := service.(Service.name);
                                  onDate := date;
                                  availableSlot := availableSlot |} ;;
         ret (if sid is EmptyString then false else true)
     end)
    (fun error =>
       consoleError "Error sending waitlist notification SMS:" ;;;
       ret false).

(** [entry.status = 'notified'; entry.notifiedAt = Date.now();
    await entry.save()]: the save runs the hook and sets the modified
    paths on the stored document. *)
Definition notifyAndSave (id : Z) : M unit :=
  notifiedAt <- DateNow ;;
  updatedAt <- DateNow ;;
  d <- getDb ;;
  match d.(waitlists) !! id with
  | None => throw DocumentNotFound
  | Some stored =>
      putDb (setWaitlists
               (<[id := Waitlist.preSave updatedAt
                          (Waitlist.setNotified notifiedAt stored)]>
                  d.(waitlists)) d) ;;;
      emit (WaitlistSaved id)
  end.

(** The body of the loop over the waiting entries. *)
Definition processEntry (date : Z)
           (formattedAppointments : list FormattedAppointment)
           (entry : PopulatedEntry) : M unit :=
  service <- deref entry.(serviceDoc) ;;
  let availableSlots :=
    getAvailableTimeSlots date formattedAppointments
                          service.(Service.duration) in
  match availableSlots with
  | [] => ret tt
  | first :: _ =>
      let selectedSlot :=
        selectSlot first availableSlots
                   entry.(doc).(Waitlist.preferredTimeSlots) in
      notifyAndSave entry.(entryId) ;;;
      user <- deref entry.(userDoc) ;;
      (if user.(User.preferences).(User.emailNotifications)
       then ret tt   (* the email branch is empty in the source *)
       else ret tt) ;;;
      if user.(User.preferences).(User.smsNotifications)
      then
        (* the returned promise is dropped *)
        sendWaitlistNotificationSMS user service date selectedSlot ;;; ret tt
      else ret tt
  end.

(** The [try] block of [updateWaitlistForDate]. *)
Definition waitlistPass (date : Z) : M unit :=
  d <- getDb ;;
  let waitlistEntries := findWaitlist d date in
  if (length waitlistEntries =? 0)%nat then ret tt
  else
    let existingAppointments := findAppointments d date in
    formattedAppointments <- mapM formatAppointment existingAppointments ;;
    forOf waitlistEntries (processEntry date formattedAppointments).

Definition updateWaitlistForDate (date : Z) : M unit :=
  tryCatch (waitlistPass date)
           (fun err => consoleError "Error updating waitlist:").

End Reconciler.

(* ================================================================== *)
(** ** Vocabulary of the properties *)
(* ================================================================== *)

(** The start of a slot in minutes since midnight, as the checker
    computes it. *)
Definition slotStart (slot : string) : JS.num :=
  let '(hours, minutes) := hoursMinutes slot in (hours * 60 + minutes)%js.

(** The closing-time half of the business-hours guard: whether a slot
    that lasts [dur] minutes ends by the closing minute. *)
Definition closesInTime (dur : Z) (slot : string) : bool :=
  negb (slotStart slot + dur >? BUSINESS_HOURS.(end_) * 60)%js.

(** Ascending creation time, the order of the waitlist query. *)
Definition earlierOrSame (x y : Z * Waitlist.t) : Prop :=
  Waitlist.createdAt (snd x) <= Waitlist.createdAt (snd y).

(** The documents the waitlist query selects, before sorting. *)
Definition waitingEntries (d : Db) (date : Z) : list (Z * Waitlist.t) :=
  List.filter (fun x => waitingOn date (snd x)) (map_to_list d.(waitlists)).

(** What a save leaves of a stored entry: the three modified paths. *)
Definition touched (e e' : Waitlist.t) : Prop :=
  exists notifiedAt updatedAt : Z,
    e' = Waitlist.preSave updatedAt (Waitlist.setNotified notifiedAt e).

(** The request the SMS sender builds for a recipient. *)
Definition smsRequestFor (phone : string) (service : Service.t) (date : Z)
           (slot : string) : SmsRequest :=
  {| to := phone; serviceName := service.(Service.name);
     onDate := date; availableSlot := slot |}.

Section ReconcilerEffects.

Variable clock : nat -> Z.
Variable twilio : list Event -> SmsRequest -> TwilioResult.

(** What [sendWaitlistNotificationSMS] adds to the events, given the
    events so far. *)
Definition smsTrace (past : list Event) (user : User.t) (service : Service.t)
           (date : Z) (slot : string) : list Event :=
  match truthy user.(User.phone) with
  | None => []
  | Some phone =>
      SmsRequested (smsRequestFor phone service date slot)
      :: match twilio past (smsRequestFor phone service date slot) with
         | Rejected => [ConsoleError "Error sending waitlist notification SMS:"]
         | Message _ => []
         end
  end.

(** What [sendWaitlistNotificationSMS] returns. *)
Definition smsSent (past : list Event) (user : User.t) (service : Service.t)
           (date : Z) (slot : string) : bool :=
  match truthy user.(User.phone) with
  | None => false
  | Some phone =>
      match twilio past (smsRequestFor phone service date slot) with
      | Rejected => false
      | Message sid => if sid is EmptyString then false else true
      end
  end.

(** The world after [entry.save()] of the entry stored as [stored]. *)
Definition savedWorld (id : Z) (stored : Waitlist.t) (w : World) : World :=
  {| db := setWaitlists
             (<[id := Waitlist.preSave (clock (S w.(ticks)))
                        (Waitlist.setNotified (clock w.(ticks)) stored)]>
                w.(db).(waitlists))
             w.(db);
     ticks := S (S w.(ticks));
     events := w.(events) ++ [WaitlistSaved id] |}.

(** The events of a notified entry after its save. *)
Definition afterSave (past : list Event) (user : User.t) (service : Service.t)
           (date : Z) (slot : string) : list Event :=
  if user.(User.preferences).(User.smsNotifications)
  then smsTrace past user service date slot
  else [].

End ReconcilerEffects.

(** The entry [id] is stored as notified. *)
Definition notifiedIn (w : World) (id : Z) : Prop :=
  exists e, w.(db).(waitlists) !! id = Some e
            /\ Waitlist.status e = Waitlist.notified.

(** From [w] to [w'] nothing changed but waitlist entries among [ids],
    each by the paths of a save. *)
Definition waitlistFrame (ids : list Z) (w w' : World) : Prop :=
  w'.(db).(appointments) = w.(db).(appointments)
  /\ w'.(db).(services) = w.(db).(services)
  /\ w'.(db).(users) = w.(db).(users)
  /\ forall id,
       w'.(db).(waitlists) !! id = w.(db).(waitlists) !! id
       \/ (In id ids
           /\ exists e e', w.(db).(waitlists) !! id = Some e
                           /\ w'.(db).(waitlists) !! id = Some e'
                           /\ touched e e').

(** From [w] to [w'] the events grew by [evs]; the saves among them are of
    entries among [ids], notified in [w']. *)
Definition savesOf (ids : list Z) (evs : list Event) (w w' : World) : Prop :=
  w'.(events) = w.(events) ++ evs
  /\ forall id, In (WaitlistSaved id) evs -> In id ids /\ notifiedIn w' id.

(** An entry that needs nothing: its service is there and has no open
    slot. *)
Definition nothingOpen (date : Z) (fmt : list FormattedAppointment)
           (entry : PopulatedEntry) : Prop :=
  exists service, entry.(serviceDoc) = Some service
                  /\ getAvailableTimeSlots date fmt service.(Service.duration) = [].

(** Two worlds with the same store and the same clock position; their
    events may differ. *)
Definition sameStore (w1 w2 : World) : Prop :=
  w1.(db) = w2.(db) /\ w1.(ticks) = w2.(ticks).

(* ================================================================== *)
(** ** A sample day *)
(* ================================================================== *)

Module Sample.

(** Monday 5 January 2026, 00:00 UTC, and ten o'clock that day. *)
Definition monday : Z := 1767571200000.
Definition day : Z := monday + 10 * 3600000.

Definition haircut : Service.t :=
  {| Service.name := "Haircut"; Service.duration := 30 |}.
Definition colouring : Service.t :=
  {| Service.name := "Colouring"; Service.duration := 60 |}.
Definition treatment : Service.t :=
  {| Service.name := "Treatment"; Service.duration := 450 |}.

Definition serviceDocs : gmap Z Service.t :=
  <[1 := haircut]> (<[2 := colouring]> (<[3 := treatment]> ∅)).

Definition alice : User.t :=
  {| User.phone := Some "+15550001";
     User.preferences := {| User.emailNotifications := true;
                            User.smsNotifications := true |} |}.
Definition bob : User.t :=
  {| User.phone := Some "+15550002";
     User.preferences := {| User.emailNotifications := false;
                            User.smsNotifications := true |} |}.

Definition userDocs : gmap Z User.t := <[1 := alice]> (<[2 := bob]> ∅).

Definition booking (service : Z) (slot : string) : Appointment.t :=
  {| Appointment.userId := 1; Appointment.serviceId := service;
     Appointment.date := monday; Appointment.timeSlot := slot;
     Appointment.status := Appointment.confirmed |}.

(** 09:00-10:00 and 10:30-18:00 are taken: 10:00-10:30 is the one gap. *)
Definition oneGap : gmap Z Appointment.t :=
  <[1 := booking 2 "09:00"]> (<[2 := booking 3 "10:30"]> ∅).

(** Only 10:00-10:30 is taken. *)
Definition tenTaken : gmap Z Appointment.t := <[1 := booking 1 "10:00"]> ∅.

Definition waitingEntry (user : Z) (created : Z) (preferred : list string)
  : Waitlist.t :=
  {| Waitlist.userId := user; Waitlist.serviceId := 1;
     Waitlist.date := monday;
     Waitlist.preferredTimeSlots := preferred;
     Waitlist.status := Waitlist.waiting; Waitlist.notifiedAt := None;
     Waitlist.createdAt := created; Waitlist.updatedAt := created |}.

Definition first : Waitlist.t := waitingEntry 1 (monday - 7200000) [].
Definition second : Waitlist.t := waitingEntry 2 (monday - 3600000) [].

(** The first entry again, of a user who has been deleted since. *)
Definition orphan : Waitlist.t := waitingEntry 7 (monday - 7200000) [].

Definition choosy : Waitlist.t :=
  waitingEntry 1 (monday - 7200000) ["10:00"; "10:30"].

Definition world (entries : gmap Z Waitlist.t) (booked : gmap Z Appointment.t)
  : World :=
  {| db := {| waitlists := entries; appointments := booked;
              services := serviceDocs; users := userDocs |};
     ticks := 0;
     events := [] |}.

(** Two waiting entries and one free slot. *)
Definition oneSlot : World :=
  world (<[1 := first]> (<[2 := second]> ∅)) oneGap.

(** The same with the earlier entry's user gone. *)
Definition oneSlotOrphan : World :=
  world (<[1 := orphan]> (<[2 := second]> ∅)) oneGap.

(** Nobody waits. *)
Definition nobody : World := world ∅ oneGap.

(** An entry that was booked last week, next to a waiting one. *)
Definition settled : Waitlist.t :=
  {| Waitlist.userId := 2; Waitlist.serviceId := 1;
     Waitlist.date := monday;
     Waitlist.preferredTimeSlots := ["10:00"];
     Waitlist.status := Waitlist.booked;
     Waitlist.notifiedAt := Some (monday - 86400000);
     Waitlist.createdAt := monday - 172800000;
     Waitlist.updatedAt := monday - 86400000 |}.

(** The first entry again, for a service that has been deleted since. *)
Definition unserved : Waitlist.t :=
  {| Waitlist.userId := 1; Waitlist.serviceId := 9;
     Waitlist.date := monday;
     Waitlist.preferredTimeSlots := [];
     Waitlist.status := Waitlist.waiting; Waitlist.notifiedAt := None;
     Waitlist.createdAt := monday - 7200000;
     Waitlist.updatedAt := monday - 7200000 |}.

Definition oneSlotUnserved : World :=
  world (<[1 := unserved]> (<[2 := second]> ∅)) oneGap.

Definition mixed : World :=
  world (<[1 := first]> (<[4 := settled]> ∅)) oneGap.

(** One entry with preferences on a day with 10:00 taken. *)
Definition preferences : World := world (<[3 := choosy]> ∅) tenTaken.

Definition clock (n : nat) : Z := day + 1000 * Z.of_nat n.

Definition delivers (_ : list Event) (_ : SmsRequest) : TwilioResult :=
  Message "SM0001".
Definition rejects (_ : list Event) (_ : SmsRequest) : TwilioResult :=
  Rejected.

Definition oneGapFormatted : list FormattedAppointment :=
  [{| timeSlot := "10:30"; serviceDuration := 450 |};
   {| timeSlot := "09:00"; serviceDuration := 60 |}].

End Sample.

(* ================================================================== *)
(** ** Vocabulary of the further properties *)
(* ================================================================== *)

(** The start minute of a time slot whose two fields are integers. *)
Definition minutesOf (slot : string) : option Z :=
  match hoursMinutes slot with
  | (JS.Int h, JS.Int m) => Some (h * 60 + m)
  | _ => None
  end.



(** A time slot without a colon: [split(':')] gives one field and the
    minutes are [undefined]. *)
Definition noMinuteField (slot : string) : Prop :=
  JS.split ":" slot = [slot].

(** Every reference a pass over [date] reads resolves: the service of
    every active appointment of the day, the user and the service of every
    waiting entry. *)
Definition referencesResolve (d : Db) (date : Z) : Prop :=
  (forall x, In x (findAppointments d date) -> is_Some (snd x))
  /\ forall entry, In entry (findWaitlist d date) ->
                   is_Some entry.(userDoc) /\ is_Some entry.(serviceDoc).

(** The entries saved, in the order of the events. *)
Definition savedIds (evs : list Event) : list Z :=
  flat_map (fun ev => match ev with WaitlistSaved id => [id] | _ => [] end) evs.

(** The requests made to the SMS provider, in the order of the events. *)
Definition smsRequests (evs : list Event) : list SmsRequest :=
  flat_map (fun ev => match ev with SmsRequested req => [req] | _ => [] end) evs.

(** The request [req] announces to the user of [entry] a slot that the
    query offers for the service of [entry]. *)
Definition announces (date : Z) (fmt : list FormattedAppointment)
           (entry : PopulatedEntry) (req : SmsRequest) : Prop :=
  exists service user,
    entry.(serviceDoc) = Some service
    /\ entry.(userDoc) = Some user
    /\ user.(User.preferences).(User.smsNotifications) = true
    /\ truthy user.(User.phone) = Some req.(to)
    /\ req.(serviceName) = service.(Service.name)
    /\ req.(onDate) = date
    /\ In req.(availableSlot)
          (getAvailableTimeSlots date fmt service.(Service.duration)).

(** Ascending creation time on populated entries. *)
Definition createdInOrder (a b : PopulatedEntry) : Prop :=
  Waitlist.createdAt a.(doc) <= Waitlist.createdAt b.(doc).

(** What a run of the loop over [entries] did, read off the events [evs]
    it added and the clock. *)
Definition handled (date : Z) (fmt : list FormattedAppointment)
           (entries saved : list PopulatedEntry) (evs : list Event)
           (w w' : World) : Prop :=
  w'.(events) = w.(events) ++ evs
  /\ sublist saved entries
  /\ savedIds evs = map entryId saved
  /\ w'.(ticks) = (w.(ticks) + 2 * length saved)%nat
  /\ (length (smsRequests evs) <= length saved)%nat
  /\ forall req, In req (smsRequests evs) ->
                 exists entry, In entry saved /\ announces date fmt entry req.

(** The loop indices of [generateTimeSlots]. *)
Definition gridIndices : list Z :=
  [0; 1; 2; 3; 4; 5; 6; 7; 8; 9; 10; 11; 12; 13; 14; 15; 16; 17].

(* ================================================================== *)
(** ** routes/appointments.js *)
(* ================================================================== *)

(** The handlers of the appointment routes, as they run once the [auth]
    middleware has set [req.user].  A request is handled alone, from the
    first statement of its handler to its answer.  The fields of a body or
    of a query are absent or strings, and a validated field is sent where
    the handler reads it.  The confirmation mail and SMS are handed over
    without waiting; what becomes of them is not part of the run. *)

Module Routes.

(** The fields of an appointment that the scheduling code never reads,
    kept beside the document under the same [_id]. *)
Record AppointmentRest : Type :=
  { notes : option string;
    reminderSent : bool;
    createdAt : Z;
    updatedAt : Z }.

(** A field of a request that names a document: absent, the empty string,
    a string that does not cast to an ObjectId, or the id it casts to. *)
Inductive IdField : Type :=
| Absent
| EmptyId
| BadId
| AnId (id : Z).

(** [!!id], and what [.not().isEmpty()] lets through. *)
Definition given (f : IdField) : bool :=
  match f with
  | Absent | EmptyId => false
  | BadId | AnId _ => true
  end.

(** [req.user], the payload of the token (utils/jwtGenerator.js); the id
    is that of a user document. *)
Record ReqUser : Type := { id : Z; role : string }.

Inductive Body : Type :=
| Errors (messages : list string)      (* [{ errors: errors.array() }] *)
| Message (message : string)           (* [{ message }] *)
| Text (text : string)                 (* [res.send(text)] *)
| AppointmentJson (id : Z) (a : Appointment.t)
| WaitlistJson (id : Z) (e : Waitlist.t)
| Slots (availableSlots : list string).

Record Response : Type := { status : Z; body : Body }.

(** What the handlers hand to the mail and SMS services without waiting
    for the outcome: the recipient and the appointment the message is
    about. *)
Inductive Outgoing : Type :=
| ConfirmationMail (userId appointmentId : Z)
| ConfirmationSms (phone : string) (appointmentId : Z).

(** The state a handler runs in: the world of the reconciler and, beside
    it, what only the routes read or write. *)
Record Server : Type :=
  { world : World;
    appointmentRest : gmap Z AppointmentRest;
    loyaltyPointsEarned : gmap Z Z;   (* of a service, by its [_id] *)
    loyaltyPoints : gmap Z Z;         (* of a user, by its [_id] *)
    minted : nat;                     (* ObjectIds generated so far *)
    outbox : list Outgoing }.         (* oldest first *)

Definition setWorld (w : World) (s : Server) : Server :=
  {| world := w; appointmentRest := s.(appointmentRest);
     loyaltyPointsEarned := s.(loyaltyPointsEarned);
     loyaltyPoints := s.(loyaltyPoints); minted := s.(minted);
     outbox := s.(outbox) |}.

Definition setAppointments (apps : gmap Z Appointment.t) (d : Db) : Db :=
  {| waitlists := d.(waitlists); appointments := apps;
     services := d.(services); users := d.(users) |}.

(** What a handler can throw: an error of the scheduling code, a string
    that does not cast to an ObjectId ([err.kind === 'ObjectId']), or a
    document that fails the validation of its schema. *)
Inductive RouteError : Type :=
| Thrown (err : Error)
| CastError
| ValidationError.

Inductive Outcome (A : Type) : Type :=
| Next (a : A)
| Responded (r : Response)        (* [return res.status(..).json(..)] *)
| Raised (err : RouteError).
Arguments Next {A} a.
Arguments Responded {A} r.
Arguments Raised {A} err.

(** The body of a handler: it goes on, answers, or throws. *)
Definition Route (A : Type) : Type := Server -> Outcome A * Server.

Definition retR {A} (a : A) : Route A := fun s => (Next a, s).

Definition bindR {A B} (c : Route A) (k : A -> Route B) : Route B :=
  fun s => match c s with
           | (Next a, s') => k a s'
           | (Responded r, s') => (Responded r, s')
           | (Raised err, s') => (Raised err, s')
           end.

Notation "x <~ c ;; k" := (bindR c (fun x => k))
  (at level 100, c at next level, right associativity).
Notation "c ;;~ k" := (bindR c (fun _ => k))
  (at level 100, right associativity).

Definition respond {A} (status : Z) (body : Body) : Route A :=
  fun s => (Responded {| status := status; body := body |}, s).

Definition raise {A} (err : RouteError) : Route A := fun s => (Raised err, s).

(** A computation of the scheduling code, run on the world of the server. *)
Definition liftW {A} (c : M A) : Route A :=
  fun s => match c s.(world) with
           | (Ok a, w') => (Next a, setWorld w' s)
           | (Throw err, w') => (Raised (Thrown err), setWorld w' s)
           end.

(** A handler answers every request. *)
Definition Handler : Type := Server -> Response * Server.

Definition answer (status : Z) (body : Body) : Handler :=
  fun s => ({| status := status; body := body |}, s).

(** [try { body } catch (err) { handler }] around a body that ends with an
    answer. *)
Definition handle (body : Route Empty_set) (handler : RouteError -> Handler)
  : Handler :=
  fun s => match body s with
           | (Next e, _) => match e with end
           | (Responded r, s') => (r, s')
           | (Raised err, s') => handler err s'
           end.

(** A property read on [undefined] or [null]. *)
Definition derefR {A} (o : option A) : Route A :=
  match o with
  | Some a => retR a
  | None => raise (Thrown TypeError)
  end.

(** [Model.findById(id)]: [null] for [undefined], a cast error for a
    string that is no ObjectId; the document comes with its [_id]. *)
Definition findById {A} (collection : Db -> gmap Z A) (id : IdField)
  : Route (option (Z * A)) :=
  match id with
  | Absent => retR None
  | EmptyId | BadId => raise CastError
  | AnId id =>
      fun s => (Next (option_map (pair id) (collection s.(world).(db) !! id)), s)
  end.

(** The cast of a reference when a document is validated. *)
Definition validId (id : IdField) : Route Z :=
  match id with
  | AnId id => retR id
  | _ => raise ValidationError
  end.

(** One [check(field, message)] of express-validator. *)
Definition checkField (ok : bool) (message : string) : list string :=
  if ok then [] else [message].

Definition nonEmpty (field : option string) : bool :=
  match truthy field with
  | Some _ => true
  | None => false
  end.

(** The values [check('status').isIn([...])] lets through. *)
Definition statusOf (field : option string) : option Appointment.Status :=
  match field with
  | Some "pending" => Some Appointment.pending
  | Some "confirmed" => Some Appointment.confirmed
  | Some "cancelled" => Some Appointment.cancelled
  | Some "completed" => Some Appointment.completed
  | Some "no-show" => Some Appointment.no_show
  | _ => None
  end.

Definition validStatus (field : option string) : bool :=
  match statusOf field with
  | Some _ => true
  | None => false
  end.

Definition isCancelled (st : Appointment.Status) : bool :=
  match st with
  | Appointment.cancelled => true
  | _ => false
  end.

Definition setStatus (st : Appointment.Status) (a : Appointment.t)
  : Appointment.t :=
  {| Appointment.userId := a.(Appointment.userId);
     Appointment.serviceId := a.(Appointment.serviceId);
     Appointment.date := a.(Appointment.date);
     Appointment.timeSlot := a.(Appointment.timeSlot);
     Appointment.status := st |}.

Definition setDateAndSlot (date : Z) (slot : string) (a : Appointment.t)
  : Appointment.t :=
  {| Appointment.userId := a.(Appointment.userId);
     Appointment.serviceId := a.(Appointment.serviceId);
     Appointment.date := date;
     Appointment.timeSlot := slot;
     Appointment.status := a.(Appointment.status) |}.

Definition setNotes (n : option string) (r : AppointmentRest)
  : AppointmentRest :=
  {| notes := n; reminderSent := r.(reminderSent);
     createdAt := r.(createdAt); updatedAt := r.(updatedAt) |}.

Definition setUpdatedAt (now : Z) (r : AppointmentRest) : AppointmentRest :=
  {| notes := r.(notes); reminderSent := r.(reminderSent);
     createdAt := r.(createdAt); updatedAt := now |}.

(** The body of [POST /]. *)
Module CreateBody.
Record t : Type :=
  { serviceId : IdField;
    date : option string;
    timeSlot : option string;
    notes : option string;
    userId : IdField }.
End CreateBody.

(** The body of [PUT /:id]. *)
Module UpdateBody.
Record t : Type :=
  { status : option string;
    notes : option string }.
End UpdateBody.

(** The body of [PUT /:id/reschedule]. *)
Module RescheduleBody.
Record t : Type :=
  { date : option string;
    timeSlot : option string }.
End RescheduleBody.

(** The query of [GET /available]. *)
Module AvailableQuery.
Record t : Type :=
  { date : option string;
    serviceId : IdField }.
End AvailableQuery.

(** The body of [POST /waitlist]. *)
Module WaitlistBody.
Record t : Type :=
  { date : option string;
    serviceId : IdField;
    preferredTimeSlots : option (list string) }.
End WaitlistBody.

(** [Appointment.find({ _id: { $ne: id }, date: ..., status: ... })] with
    [serviceId] populated. *)
Definition findOtherAppointments (d : Db) (id date : Z)
  : list (Appointment.t * option Service.t) :=
  map (fun x => (snd x, d.(services) !! Appointment.serviceId (snd x)))
      (List.filter (fun x => negb (fst x =? id) && bookedOn date (snd x))
                   (map_to_list d.(appointments))).

(** The filter of [Waitlist.findOne({ userId, serviceId, date: ...,
    status: 'waiting' })]. *)
Definition waitingFor (user service date : Z) (e : Waitlist.t) : bool :=
  (e.(Waitlist.userId) =? user) && (e.(Waitlist.serviceId) =? service)
  && waitingOn date e.

(** [appointment.userId.toString() !== req.user.id
     && req.user.role !== 'admin'] *)
Definition notAuthorized (user : ReqUser) (a : Appointment.t) : bool :=
  negb (a.(Appointment.userId) =? user.(id))
  && negb (String.eqb user.(role) "admin").

Section Handlers.

Variable clock : nat -> Z.
Variable twilio : list Event -> SmsRequest -> TwilioResult.

(** [new Date(s).getTime()] for a string: NaN when [s] is no date. *)
Variable DateParse : string -> JS.num.

(** [String.prototype.trim], which the schema applies to [notes]. *)
Variable trim : string -> string.

(** [err.message] *)
Variable errorMessage : RouteError -> string.

(** [mintedId n] is the [n]-th ObjectId the driver generates. *)
Variable mintedId : nat -> Z.

(** [new Date(field)]: an absent field gives an invalid date. *)
Definition newDate (field : option string) : JS.num :=
  match field with
  | Some s => DateParse s
  | None => JS.NaN
  end.

(** [Date.now()] and [new Date()] read the same clock. *)
Definition readClock : Route Z := liftW (DateNow clock).

Definition newObjectId : Route Z :=
  fun s => (Next (mintedId s.(minted)),
            {| world := s.(world); appointmentRest := s.(appointmentRest);
               loyaltyPointsEarned := s.(loyaltyPointsEarned);
               loyaltyPoints := s.(loyaltyPoints); minted := S s.(minted);
               outbox := s.(outbox) |}).

Definition getDbR : Route Db := liftW getDb.

Definition send (message : Outgoing) : Route unit :=
  fun s => (Next tt,
            {| world := s.(world); appointmentRest := s.(appointmentRest);
               loyaltyPointsEarned := s.(loyaltyPointsEarned);
               loyaltyPoints := s.(loyaltyPoints); minted := s.(minted);
               outbox := s.(outbox) ++ [message] |}).

(** The write of an appointment: the document, and beside it the other
    fields as [rest] makes them. *)
Definition writeAppointment (id : Z) (a : Appointment.t)
           (rest : gmap Z AppointmentRest -> gmap Z AppointmentRest)
  : Route unit :=
  fun s =>
    let w := s.(world) in
    (Next tt,
     {| world := {| db := setAppointments (<[id := a]> w.(db).(appointments))
                                          w.(db);
                    ticks := w.(ticks); events := w.(events) |};
        appointmentRest := rest s.(appointmentRest);
        loyaltyPointsEarned := s.(loyaltyPointsEarned);
        loyaltyPoints := s.(loyaltyPoints); minted := s.(minted);
        outbox := s.(outbox) |}).

(** [appointment.updatedAt = Date.now(); await appointment.save()] on a
    stored appointment; the hook of the schema sets [updatedAt] once
    more. *)
Definition touchAndSave (id : Z) (a : Appointment.t)
           (edit : AppointmentRest -> AppointmentRest) : Route unit :=
  updatedAt <~ readClock ;;
  hook <~ readClock ;;
  writeAppointment id a (alter (fun r => setUpdatedAt hook (edit r)) id).

(** [User.findByIdAndUpdate(id, { $inc: { loyaltyPoints: n } })] *)
Definition incLoyaltyPoints (user n : Z) : Route unit :=
  fun s =>
    (Next tt,
     match s.(world).(db).(users) !! user with
     | None => s
     | Some _ =>
         {| world := s.(world); appointmentRest := s.(appointmentRest);
            loyaltyPointsEarned := s.(loyaltyPointsEarned);
            loyaltyPoints :=
              <[user := default 0 (s.(loyaltyPoints) !! user) + n]>
                s.(loyaltyPoints);
            minted := s.(minted); outbox := s.(outbox) |}
     end).

(** [service.loyaltyPointsEarned] *)
Definition earnedBy (service : Z) : Route Z :=
  fun s => (Next (default 0 (s.(loyaltyPointsEarned) !! service)), s).

(** The two sends after a booking; neither is awaited. *)
Definition confirm (userId : Z) (user : User.t) (appointmentId : Z)
  : Route unit :=
  (if user.(User.preferences).(User.emailNotifications)
   then send (ConfirmationMail userId appointmentId)
   else retR tt) ;;~
  if user.(User.preferences).(User.smsNotifications)
  then match truthy user.(User.phone) with
       | Some phone => send (ConfirmationSms phone appointmentId)
       | None => retR tt
       end
  else retR tt.

(** [console.error(err.message)] *)
Definition logError (err : RouteError) (s : Server) : Server :=
  setWorld (snd (consoleError (errorMessage err) s.(world))) s.

(** [catch (err) { ...; res.status(500).send('Server error') }] *)
Definition serverError (err : RouteError) : Handler :=
  fun s => answer 500 (Text "Server error") (logError err s).

(** The same with [if (err.kind === 'ObjectId') return
    res.status(404)...] before the last line. *)
Definition notFoundOrServerError (err : RouteError) : Handler :=
  fun s =>
    match err with
    | CastError => answer 404 (Message "Appointment not found") (logError err s)
    | _ => answer 500 (Text "Server error") (logError err s)
    end.

(** [GET /available] *)
Definition getAvailable (query : AvailableQuery.t) : Handler :=
  handle
    (if negb (nonEmpty query.(AvailableQuery.date))
        || negb (given query.(AvailableQuery.serviceId))
     then respond 400 (Message "Date and service ID are required")
     else
       match newDate query.(AvailableQuery.date) with
       | JS.NaN => respond 400 (Message "Invalid date format")
       | JS.Int requestedDate =>
           today <~ readClock ;;
           if requestedDate <? startOfDay today
           then respond 400 (Message "Cannot book appointments in the past")
           else if negb (isBusinessDay (JS.Int requestedDate))
           then respond 400 (Message "Selected date is not a business day")
           else
             service <~ findById services query.(AvailableQuery.serviceId) ;;
             match service with
             | None => respond 404 (Message "Service not found")
             | Some (_, service) =>
                 d <~ getDbR ;;
                 formattedAppointments <~
                   liftW (mapM formatAppointment
                               (findAppointments d requestedDate)) ;;
                 respond 200
                   (Slots (getAvailableTimeSlots requestedDate
                             formattedAppointments
                             service.(Service.duration)))
             end
       end)
    serverError.

(** [POST /] *)
Definition createAppointment (user : ReqUser) (body : CreateBody.t)
  : Handler :=
  let errors :=
    checkField (given body.(CreateBody.serviceId)) "Service ID is required"
    ++ checkField (nonEmpty body.(CreateBody.date)) "Date is required"
    ++ checkField (nonEmpty body.(CreateBody.timeSlot)) "Time slot is required" in
  match errors with
  | _ :: _ => answer 400 (Errors errors)
  | [] =>
    handle
      (let forOther :=
         String.eqb user.(role) "admin" && given body.(CreateBody.userId) in
       let bookingUserId :=
         if forOther then body.(CreateBody.userId) else AnId user.(id) in
       service <~ findById services body.(CreateBody.serviceId) ;;
       match service with
       | None => respond 404 (Message "Service not found")
       | Some (serviceId, service) =>
           (if forOther
            then
              other <~ findById users body.(CreateBody.userId) ;;
              match other with
              | None => respond 404 (Message "User not found")
              | Some _ => retR tt
              end
            else retR tt) ;;~
           match newDate body.(CreateBody.date) with
           | JS.NaN => respond 400 (Message "Invalid date format")
           | JS.Int requestedDate =>
               today <~ readClock ;;
               if requestedDate <? startOfDay today
               then respond 400 (Message "Cannot book appointments in the past")
               else
                 d <~ getDbR ;;
                 formattedAppointments <~
                   liftW (mapM formatAppointment
                               (findAppointments d requestedDate)) ;;
                 timeSlot <~ derefR body.(CreateBody.timeSlot) ;;
                 if negb (isTimeSlotAvailable timeSlot formattedAppointments
                                              service.(Service.duration))
                 then respond 400
                        (Message "The selected time slot is no longer available")
                 else
                   (* [new Appointment({...})]: the [_id] and the defaults *)
                   appointmentId <~ newObjectId ;;
                   created <~ readClock ;;
                   updated <~ readClock ;;
                   (* [save()]: validation, then the hook *)
                   bookingUser <~ validId bookingUserId ;;
                   hook <~ readClock ;;
                   let appointment :=
                     {| Appointment.userId := bookingUser;
                        Appointment.serviceId := serviceId;
                        Appointment.date := requestedDate;
                        Appointment.timeSlot := timeSlot;
                        Appointment.status := Appointment.confirmed |} in
                   writeAppointment appointmentId appointment
                     (insert appointmentId
                        {| notes := option_map trim body.(CreateBody.notes);
                           reminderSent := false;
                           createdAt := created;
                           updatedAt := hook |}) ;;~
                   earned <~ earnedBy serviceId ;;
                   (if 0 <? earned
                    then incLoyaltyPoints bookingUser earned
                    else retR tt) ;;~
                   booker <~ findById users (AnId bookingUser) ;;
                   booker <~ derefR booker ;;
                   confirm bookingUser (snd booker) appointmentId ;;~
                   liftW (updateWaitlistForDate clock twilio requestedDate) ;;~
                   respond 200 (AppointmentJson appointmentId appointment)
           end
       end)
      serverError
  end.

(** [PUT /:id] *)
Definition updateAppointment (user : ReqUser) (id : IdField)
           (body : UpdateBody.t) : Handler :=
  let errors :=
    checkField (validStatus body.(UpdateBody.status)) "Status is required" in
  match errors with
  | _ :: _ => answer 400 (Errors errors)
  | [] =>
    handle
      (found <~ findById appointments id ;;
       match found with
       | None => respond 404 (Message "Appointment not found")
       | Some (id, appointment) =>
           if notAuthorized user appointment
           then respond 403 (Message "Not authorized")
           else
             status <~ match statusOf body.(UpdateBody.status) with
                       | Some st => retR st
                       | None => raise ValidationError
                       end ;;
             let appointment := setStatus status appointment in
             touchAndSave id appointment
               (fun r => match truthy body.(UpdateBody.notes) with
                         | Some n => setNotes (Some (trim n)) r
                         | None => r
                         end) ;;~
             (if isCancelled status
              then liftW (updateWaitlistForDate clock twilio
                            appointment.(Appointment.date))
              else retR tt) ;;~
             respond 200 (AppointmentJson id appointment)
       end)
      notFoundOrServerError
  end.

(** [PUT /:id/reschedule] *)
Definition rescheduleAppointment (user : ReqUser) (id : IdField)
           (body : RescheduleBody.t) : Handler :=
  let errors :=
    checkField (nonEmpty body.(RescheduleBody.date)) "Date is required"
    ++ checkField (nonEmpty body.(RescheduleBody.timeSlot)) "Time slot is required" in
  match errors with
  | _ :: _ => answer 400 (Errors errors)
  | [] =>
    handle
      (found <~ findById appointments id ;;
       match found with
       | None => respond 404 (Message "Appointment not found")
       | Some (id, appointment) =>
           populated <~ getDbR ;;
           let service :=
             populated.(services) !! appointment.(Appointment.serviceId) in
           if notAuthorized user appointment
           then respond 403 (Message "Not authorized")
           else
             match newDate body.(RescheduleBody.date) with
             | JS.NaN => respond 400 (Message "Invalid date format")
             | JS.Int requestedDate =>
                 today <~ readClock ;;
                 if requestedDate <? startOfDay today
                 then respond 400
                        (Message "Cannot book appointments in the past")
                 else
                   d <~ getDbR ;;
                   formattedAppointments <~
                     liftW (mapM formatAppointment
                                 (findOtherAppointments d id requestedDate)) ;;
                   service <~ derefR service ;;
                   timeSlot <~ derefR body.(RescheduleBody.timeSlot) ;;
                   if negb (isTimeSlotAvailable timeSlot formattedAppointments
                                                service.(Service.duration))
                   then respond 400
                          (Message "The selected time slot is no longer available")
                   else
                     let oldDate := appointment.(Appointment.date) in
                     let appointment :=
                       setDateAndSlot requestedDate timeSlot appointment in
                     touchAndSave id appointment (fun r => r) ;;~
                     owner <~ findById users
                                (AnId appointment.(Appointment.userId)) ;;
                     owner <~ derefR owner ;;
                     confirm appointment.(Appointment.userId) (snd owner) id ;;~
                     liftW (updateWaitlistForDate clock twilio oldDate) ;;~
                     liftW (updateWaitlistForDate clock twilio requestedDate) ;;~
                     respond 200 (AppointmentJson id appointment)
             end
       end)
      notFoundOrServerError
  end.

(** [DELETE /:id] *)
Definition cancelAppointment (user : ReqUser) (id : IdField) : Handler :=
  handle
    (found <~ findById appointments id ;;
     match found with
     | None => respond 404 (Message "Appointment not found")
     | Some (id, appointment) =>
         if notAuthorized user appointment
         then respond 403 (Message "Not authorized")
         else
           current <~ readClock ;;
           if appointment.(Appointment.date) <? current
           then respond 400 (Message "Cannot cancel past appointments")
           else
             let appointment := setStatus Appointment.cancelled appointment in
             touchAndSave id appointment (fun r => r) ;;~
             liftW (updateWaitlistForDate clock twilio
                      appointment.(Appointment.date)) ;;~
             respond 200 (Message "Appointment cancelled")
     end)
    notFoundOrServerError.

(** The write of a new waitlist entry. *)
Definition writeWaitlist (id : Z) (e : Waitlist.t) : Route unit :=
  liftW (d <- getDb ;;
         putDb (setWaitlists (<[id := e]> d.(waitlists)) d) ;;;
         emit (WaitlistSaved id)).

(** [POST /waitlist] *)
Definition joinWaitlist (user : ReqUser) (body : WaitlistBody.t) : Handler :=
  let errors :=
    checkField (nonEmpty body.(WaitlistBody.date)) "Date is required"
    ++ checkField (given body.(WaitlistBody.serviceId)) "Service ID is required" in
  match errors with
  | _ :: _ => answer 400 (Errors errors)
  | [] =>
    handle
      (match newDate body.(WaitlistBody.date) with
       | JS.NaN => respond 400 (Message "Invalid date format")
       | JS.Int requestedDate =>
           today <~ readClock ;;
           if requestedDate <? startOfDay today
           then respond 400 (Message "Cannot join waitlist for past dates")
           else
             service <~ findById services body.(WaitlistBody.serviceId) ;;
             match service with
             | None => respond 404 (Message "Service not found")
             | Some (serviceId, _) =>
                 d <~ getDbR ;;
                 let existingWaitlist :=
                   List.find (fun x => waitingFor user.(id) serviceId
                                                  requestedDate (snd x))
                             (map_to_list d.(waitlists)) in
                 match existingWaitlist with
                 | Some _ =>
                     respond 400
                       (Message "You are already on the waitlist for this date and service")
                 | None =>
                     waitlistId <~ newObjectId ;;
                     created <~ readClock ;;
                     updated <~ readClock ;;
                     hook <~ readClock ;;
                     let waitlist :=
                       {| Waitlist.userId := user.(id);
                          Waitlist.serviceId := serviceId;
                          Waitlist.date := requestedDate;
                          Waitlist.preferredTimeSlots :=
                            default [] body.(WaitlistBody.preferredTimeSlots);
                          Waitlist.status := Waitlist.waiting;
                          Waitlist.notifiedAt := None;
                          Waitlist.createdAt := created;
                          Waitlist.updatedAt := hook |} in
                     writeWaitlist waitlistId waitlist ;;~
                     respond 200 (WaitlistJson waitlistId waitlist)
                 end
             end
       end)
      serverError
  end.

End Handlers.


(** *** The router *)

Inductive Method : Type := GET | POST | PUT | DELETE.

(** A segment of a route path: literal, or a parameter [:name]. *)
Inductive Segment : Type :=
| Lit (s : string)
| Param (name : string).

Inductive Name : Type :=
| ListAll | ListMine | GetOne | GetAvailable | Create | Update
| Reschedule | Cancel | GetWaitlist | JoinWaitlist.

(** The routes in the order in which the file registers them. *)
Definition table : list (Method * list Segment * Name) :=
  [ (GET, [], ListAll);
    (GET, [Lit "user"], ListMine);
    (GET, [Param "id"], GetOne);
    (GET, [Lit "available"], GetAvailable);
    (POST, [], Create);
    (PUT, [Param "id"], Update);
    (PUT, [Param "id"; Lit "reschedule"], Reschedule);
    (DELETE, [Param "id"], Cancel);
    (GET, [Lit "waitlist"], GetWaitlist);
    (POST, [Lit "waitlist"], JoinWaitlist) ].

Definition sameMethod (m m' : Method) : bool :=
  match m, m' with
  | GET, GET | POST, POST | PUT, PUT | DELETE, DELETE => true
  | _, _ => false
  end.

(** The router compares literal segments without regard to the case of
    ASCII letters. *)
Definition lowerChar (c : ascii) : ascii :=
  let n := nat_of_ascii c in
  if ((65 <=? n) && (n <=? 90))%nat then ascii_of_nat (n + 32) else c.

Fixpoint lower (s : string) : string :=
  match s with
  | EmptyString => EmptyString
  | String c rest => String (lowerChar c) (lower rest)
  end.

Definition matchesSegment (p : Segment) (segment : string) : bool :=
  match p with
  | Lit l => String.eqb (lower l) (lower segment)
  | Param _ => negb (String.eqb segment "")
  end.

(** A route matches a path, given by its segments, when they match one by
    one. *)
Fixpoint matchesPath (pattern : list Segment) (path : list string) : bool :=
  match pattern, path with
  | [], [] => true
  | p :: pattern', segment :: path' =>
      matchesSegment p segment && matchesPath pattern' path'
  | _, _ => false
  end.

(** The route that handles a request: the first registered one that
    matches. *)
Definition dispatch (m : Method) (path : list string) : option Name :=
  option_map snd
    (List.find (fun r => sameMethod (fst (fst r)) m
                         && matchesPath (snd (fst r)) path)
               table).

(** *** Vocabulary of the properties of the routes *)

(** The minutes of the day an appointment occupies, when its time slot has
    two integer fields and its service is stored. *)
Definition intervalOf (d : Db) (a : Appointment.t) : option (Z * Z) :=
  match minutesOf a.(Appointment.timeSlot),
        d.(services) !! a.(Appointment.serviceId) with
  | Some start, Some service => Some (start, start + service.(Service.duration))
  | _, _ => None
  end.

(** No two active appointments of the same day occupy a common minute. *)
Definition noDoubleBooking (d : Db) : Prop :=
  forall i j a b sa ea sb eb,
    i <> j ->
    d.(appointments) !! i = Some a ->
    d.(appointments) !! j = Some b ->
    Appointment.active a.(Appointment.status) = true ->
    Appointment.active b.(Appointment.status) = true ->
    sameDay a.(Appointment.date) b.(Appointment.date) = true ->
    intervalOf d a = Some (sa, ea) ->
    intervalOf d b = Some (sb, eb) ->
    ea <= sb \/ eb <= sa.


(** The documents, the loyalty points and the messages handed over are the
    same; the clock and the console may have moved on. *)
Definition storeUnchanged (s s' : Server) : Prop :=
  s'.(world).(db) = s.(world).(db)
  /\ s'.(appointmentRest) = s.(appointmentRest)
  /\ s'.(loyaltyPointsEarned) = s.(loyaltyPointsEarned)
  /\ s'.(loyaltyPoints) = s.(loyaltyPoints)
  /\ s'.(outbox) = s.(outbox).

(** A client error. *)
Definition rejected (r : Response) : Prop :=
  r.(status) = 400 \/ r.(status) = 403 \/ r.(status) = 404.

(** Nobody waits twice for the same service on the same day. *)
Definition noDuplicateWaiting (d : Db) : Prop :=
  forall i j e1 e2,
    i <> j ->
    d.(waitlists) !! i = Some e1 ->
    d.(waitlists) !! j = Some e2 ->
    Waitlist.isWaiting e1.(Waitlist.status) = true ->
    Waitlist.isWaiting e2.(Waitlist.status) = true ->
    e1.(Waitlist.userId) = e2.(Waitlist.userId) ->
    e1.(Waitlist.serviceId) = e2.(Waitlist.serviceId) ->
    sameDay e1.(Waitlist.date) e2.(Waitlist.date) = false.

End Routes.

(* ================================================================== *)
(** ** A sample server *)
(* ================================================================== *)

Module RouteSample.

Import Routes.

(** Tuesday 6 January 2026, 00:00 UTC. *)
Definition tuesday : Z := Sample.monday + msPerDay.

Definition parse (s : string) : JS.num :=
  if String.eqb s "2026-01-06" then JS.Int tuesday
  else if String.eqb s "2026-01-05" then JS.Int Sample.monday
  else JS.NaN.

Definition noTrim (s : string) : string := s.

Definition message (err : RouteError) : string :=
  match err with
  | Thrown _ => "Cannot read properties of null"
  | CastError => "Cast to ObjectId failed"
  | ValidationError => "Validation failed"
  end.

Definition mint (n : nat) : Z := 100 + Z.of_nat n.

Definition alice : ReqUser := {| id := 1; role := "user" |}.
Definition bob : ReqUser := {| id := 2; role := "user" |}.

(** A user whose document has been deleted and whose token is still
    valid. *)
Definition ghost : ReqUser := {| id := 7; role := "user" |}.

Definition booked (service : Z) (date : Z) (slot : string)
           (st : Appointment.Status) : Appointment.t :=
  {| Appointment.userId := 1; Appointment.serviceId := service;
     Appointment.date := date; Appointment.timeSlot := slot;
     Appointment.status := st |}.

(** Alice's haircut on Tuesday at ten. *)
Definition cut : Appointment.t := booked 1 tuesday "10:00" Appointment.confirmed.

Definition server (entries : gmap Z Waitlist.t) (apps : gmap Z Appointment.t)
  : Server :=
  {| world := {| db := {| waitlists := entries; appointments := apps;
                          services := Sample.serviceDocs;
                          users := Sample.userDocs |};
                 ticks := 0; events := [] |};
     appointmentRest := ∅;
     loyaltyPointsEarned := <[1 := 10]> ∅;
     loyaltyPoints := ∅;
     minted := 0;
     outbox := [] |}.

Definition oneBooking : Server := server ∅ (<[1 := cut]> ∅).

(** Bob waits for a haircut on Tuesday. *)
Definition bobWaits : Waitlist.t :=
  {| Waitlist.userId := 2; Waitlist.serviceId := 1;
     Waitlist.date := tuesday;
     Waitlist.preferredTimeSlots := [];
     Waitlist.status := Waitlist.waiting; Waitlist.notifiedAt := None;
     Waitlist.createdAt := Sample.monday; Waitlist.updatedAt := Sample.monday |}.

(** The same day with Bob on the waitlist. *)
Definition quietDay : Server := server (<[5 := bobWaits]> ∅) (<[1 := cut]> ∅).

(** A full Tuesday: 09:00-16:30 taken by a treatment, 16:30-17:30 by a
    colouring and 17:30-18:00 by Alice's haircut; Bob waits. *)
Definition fullTuesday : gmap Z Appointment.t :=
  <[1 := booked 1 tuesday "17:30" Appointment.confirmed]>
    (<[2 := booked 3 tuesday "09:00" Appointment.confirmed]>
       (<[3 := booked 2 tuesday "16:30" Appointment.confirmed]> ∅)).

Definition fullDay : Server := server (<[5 := bobWaits]> ∅) fullTuesday.

(** A cancelled haircut at ten and a colouring from half past nine. *)
Definition overlapping : Server :=
  server ∅ (<[1 := booked 1 tuesday "10:00" Appointment.cancelled]>
              (<[2 := booked 2 tuesday "09:30" Appointment.confirmed]> ∅)).

(** A haircut of Monday at nine, an hour before the clock starts. *)
Definition past : Server :=
  server ∅ (<[1 := booked 1 Sample.monday "09:00" Appointment.confirmed]> ∅).

Definition cancelIt : UpdateBody.t :=
  {| UpdateBody.status := Some "cancelled"; UpdateBody.notes := None |}.

Definition confirmIt : UpdateBody.t :=
  {| UpdateBody.status := Some "confirmed"; UpdateBody.notes := None |}.

Definition haircutOnTuesday (slot : string) : CreateBody.t :=
  {| CreateBody.serviceId := AnId 1;
     CreateBody.date := Some "2026-01-06";
     CreateBody.timeSlot := Some slot;
     CreateBody.notes := None;
     CreateBody.userId := Absent |}.

Definition haircutsOnTuesday : AvailableQuery.t :=
  {| AvailableQuery.date := Some "2026-01-06";
     AvailableQuery.serviceId := AnId 1 |}.

End RouteSample.

(* ================================================================== *)
(** ** The slot grid *)
(* ================================================================== *)

Lemma totalSlots_exact :
  ((BUSINESS_HOURS.(end_) - BUSINESS_HOURS.(start)) * 60) `mod` TIME_SLOT_INTERVAL = 0.
Proof. reflexivity. Qed.

Lemma pushSlots_length (n : nat) (i : Z) (slots : list string) :
  length (pushSlots n i slots) = (length slots + n)%nat.
Proof.
  revert i slots. induction n as [|n IH]; intros i slots; simpl.
  - lia.
  - rewrite IH, length_app. simpl. lia.
Qed.

Lemma pushSlots_app (n : nat) (i : Z) (slots : list string) :
  pushSlots n i slots = slots ++ pushSlots n i [].
Proof.
  revert i slots. induction n as [|n IH]; intros i slots; simpl.
  - now rewrite app_nil_r.
  - rewrite (IH (i + 1) (slots ++ [slotAt i])), (IH (i + 1) [slotAt i]).
    now rewrite <- app_assoc.
Qed.

(** The loop pushes [slotAt i], [slotAt (i + 1)], ... in this order. *)
Lemma pushSlots_lookup (n : nat) (i : Z) (k : nat) :
  (k < n)%nat -> pushSlots n i [] !! k = Some (slotAt (i + Z.of_nat k)).
Proof.
  revert i k. induction n as [|n IH]; intros i k Hk; [lia|].
  simpl. rewrite pushSlots_app. destruct k as [|k]; simpl.
  - f_equal. f_equal. lia.
  - rewrite IH by lia. f_equal. f_equal. lia.
Qed.

Lemma generateTimeSlots_value :
  generateTimeSlots tt =
  ["09:00"; "09:30"; "10:00"; "10:30"; "11:00"; "11:30"; "12:00"; "12:30";
   "13:00"; "13:30"; "14:00"; "14:30"; "15:00"; "15:30"; "16:00"; "16:30";
   "17:00"; "17:30"].
Proof. vm_compute. reflexivity. Qed.

(** C4. [generateTimeSlots] returns (end - start) * 60 / interval = 18
    slots; the slot of index [k] is the loop body at [k], a zero-padded
    five-character "HH:MM" that starts [k] intervals after the opening
    hour, so the slots ascend in constant increments over the half-open
    range from opening to closing; the first is "09:00" and the last
    "17:30". *)
Theorem generateTimeSlots_grid :
  let slots := generateTimeSlots tt in
  Z.of_nat (length slots)
  = (BUSINESS_HOURS.(end_) - BUSINESS_HOURS.(start)) * 60 / TIME_SLOT_INTERVAL
  /\ length slots = 18%nat
  /\ (forall k : nat, (k < 18)%nat ->
        exists slot, slots !! k = Some slot
          /\ slot = slotAt (Z.of_nat k)
          /\ String.length slot = 5%nat
          /\ slotStart slot
             = JS.Int (BUSINESS_HOURS.(start) * 60 + Z.of_nat k * TIME_SLOT_INTERVAL)
          /\ BUSINESS_HOURS.(start) * 60
             <= BUSINESS_HOURS.(start) * 60 + Z.of_nat k * TIME_SLOT_INTERVAL
             < BUSINESS_HOURS.(end_) * 60)
  /\ head slots = Some "09:00"
  /\ last slots = Some "17:30".
Proof.
  cbv zeta. split; [|split; [|split; [|split]]].
  - unfold generateTimeSlots. rewrite pushSlots_length.
    rewrite Nat.add_0_l, Z2Nat.id; [reflexivity|]. now vm_compute.
  - unfold generateTimeSlots. rewrite pushSlots_length. reflexivity.
  - intros k Hk. exists (slotAt (Z.of_nat k)).
    split; [|split; [reflexivity|]].
    + unfold generateTimeSlots.
      rewrite pushSlots_lookup by (vm_compute; lia).
      reflexivity.
    + do 18 (destruct k as [|k]; [vm_compute; repeat split; congruence|]).
      lia.
  - rewrite generateTimeSlots_value. reflexivity.
  - rewrite generateTimeSlots_value. reflexivity.
Qed.

Lemma generateTimeSlots_grid_witness :
  exists slot, generateTimeSlots tt !! 17%nat = Some slot
    /\ slot = slotAt (Z.of_nat 17)
    /\ String.length slot = 5%nat
    /\ slotStart slot
       = JS.Int (BUSINESS_HOURS.(start) * 60 + Z.of_nat 17 * TIME_SLOT_INTERVAL)
    /\ BUSINESS_HOURS.(start) * 60
       <= BUSINESS_HOURS.(start) * 60 + Z.of_nat 17 * TIME_SLOT_INTERVAL
       < BUSINESS_HOURS.(end_) * 60.
Proof.
  pose proof generateTimeSlots_grid as Hgrid. cbv zeta in Hgrid.
  destruct Hgrid as (_ & _ & Hk & _).
  apply (Hk 17%nat). lia.
Defined.

(* ================================================================== *)
(** ** The availability checker *)
(* ================================================================== *)









(* ================================================================== *)
(** ** The availability query *)
(* ================================================================== *)

Lemma pushAvailable_filter (allSlots : list string)
      (apps : list FormattedAppointment) (dur : Z) (availableSlots : list string) :
  pushAvailable allSlots apps dur availableSlots
  = availableSlots
      ++ List.filter (fun slot => isTimeSlotAvailable slot apps dur) allSlots.
Proof.
  revert availableSlots.
  induction allSlots as [|slot rest IH]; intros availableSlots; simpl.
  - now rewrite app_nil_r.
  - destruct (isTimeSlotAvailable slot apps dur); rewrite IH.
    + now rewrite <- app_assoc.
    + reflexivity.
Qed.

Lemma getAvailableTimeSlots_filter (date : Z)
      (apps : list FormattedAppointment) (dur : Z) :
  getAvailableTimeSlots date apps dur
  = List.filter (fun slot => isTimeSlotAvailable slot apps dur)
                (generateTimeSlots tt).
Proof. unfold getAvailableTimeSlots. now rewrite pushAvailable_filter. Qed.

Lemma filter_sublist {A} (f : A -> bool) (l : list A) :
  sublist (List.filter f l) l.
Proof.
  induction l as [|x l IH]; simpl.
  - constructor.
  - destruct (f x); now constructor.
Qed.

Lemma filter_all {A} (f : A -> bool) (l : list A) :
  Forall (fun x => f x = true) l -> List.filter f l = l.
Proof.
  induction 1 as [|x l Hx _ IH]; simpl; [reflexivity|].
  now rewrite Hx, IH.
Qed.

Lemma grid_slot_without_bookings (dur : Z) :
  Forall (fun slot => isTimeSlotAvailable slot [] dur = closesInTime dur slot)
         (generateTimeSlots tt).
Proof.
  rewrite generateTimeSlots_value. repeat constructor.
Qed.

Lemma grid_slot_closes_in_time (dur : Z) :
  dur <= TIME_SLOT_INTERVAL ->
  Forall (fun slot => closesInTime dur slot = true) (generateTimeSlots tt).
Proof.
  intros Hdur. change TIME_SLOT_INTERVAL with 30 in Hdur.
  rewrite generateTimeSlots_value.
  repeat constructor;
    (unfold closesInTime; apply negb_true_iff;
     match goal with
     | |- (?a + ?d >? ?b)%js = false =>
         let a' := eval vm_compute in a in
         let b' := eval vm_compute in b in
         change ((a' + d >? b')%js = false)
     end;
     cbn [JS.add JS.gt JS.lt]; apply Z.ltb_ge; lia).
Qed.

(** C5, as stated, fails for a service longer than the slot interval: with
    no bookings at all, a 60-minute service cannot start at "17:30". *)
Lemma empty_bookings_not_full_grid :
  getAvailableTimeSlots 0 [] 60 <> generateTimeSlots tt.
Proof. vm_compute. discriminate. Qed.

(** C5 (amended). With no existing bookings, [getAvailableTimeSlots]
    returns the full grid of [generateTimeSlots] for every service duration
    of at most the slot interval, and for a longer service the grid without
    the slots that would end after closing time; for every input the result
    is a subsequence of the grid, in grid order, and the empty list is a
    result like any other (a ten-hour service fits nowhere). *)
Theorem getAvailableTimeSlots_grid_order
        (date : Z) (apps : list FormattedAppointment) (dur : Z) :
  getAvailableTimeSlots date [] dur
  = (if dur <=? TIME_SLOT_INTERVAL then generateTimeSlots tt
     else List.filter (closesInTime dur) (generateTimeSlots tt))
  /\ sublist (getAvailableTimeSlots date apps dur) (generateTimeSlots tt)
  /\ getAvailableTimeSlots date [] 600 = [].
Proof.
  split; [|split].
  - rewrite getAvailableTimeSlots_filter.
    assert (Hfilter :
              List.filter (fun slot => isTimeSlotAvailable slot [] dur)
                          (generateTimeSlots tt)
              = List.filter (closesInTime dur) (generateTimeSlots tt)).
    { apply List.filter_ext_in. intros slot Hin.
      pose proof (grid_slot_without_bookings dur) as Hall.
      rewrite List.Forall_forall in Hall. now apply Hall. }
    rewrite Hfilter.
    destruct (Z.leb_spec dur TIME_SLOT_INTERVAL) as [Hle|Hgt]; [|reflexivity].
    apply filter_all, grid_slot_closes_in_time, Hle.
  - rewrite getAvailableTimeSlots_filter. apply filter_sublist.
  - now vm_compute.
Qed.

(** C10. [getAvailableTimeSlots] does not look at its date argument: for
    any two dates the results are equal, and the result is the grid
    filtered by the checker, which is given the bookings and the duration
    only. *)
Theorem getAvailableTimeSlots_ignores_date
        (d1 d2 : Z) (apps : list FormattedAppointment) (dur : Z) :
  getAvailableTimeSlots d1 apps dur = getAvailableTimeSlots d2 apps dur
  /\ getAvailableTimeSlots d1 apps dur
     = List.filter (fun slot => isTimeSlotAvailable slot apps dur)
                   (generateTimeSlots tt).
Proof.
  split.
  - now rewrite (getAvailableTimeSlots_filter d1), (getAvailableTimeSlots_filter d2).
  - apply getAvailableTimeSlots_filter.
Qed.

(* ================================================================== *)
(** ** The choice of the announced slot *)
(* ================================================================== *)

Lemma includes_elem_of (arr : list string) (x : string) :
  JS.includes arr x = true <-> x ∈ arr.
Proof.
  unfold JS.includes. rewrite existsb_exists, list_elem_of_In. split.
  - intros (y & Hy & Heq). apply String.eqb_eq in Heq. now subst.
  - intros Hin. exists x. split; [assumption|apply String.eqb_refl].
Qed.

Lemma firstPreferred_found (availableSlots before after : list string)
      (p selectedSlot : string) :
  p ∈ availableSlots ->
  (forall q, q ∈ before -> q ∉ availableSlots) ->
  firstPreferred availableSlots (before ++ p :: after) selectedSlot = p.
Proof.
  intros Hp Hbefore. induction before as [|q before IH]; simpl.
  - apply includes_elem_of in Hp. now rewrite Hp.
  - destruct (JS.includes availableSlots q) eqn:Hq.
    + apply includes_elem_of in Hq. exfalso.
      apply (Hbefore q); [left|assumption].
    + apply IH. intros q' Hq'. apply Hbefore. now right.
Qed.

Lemma firstPreferred_none (availableSlots preferred : list string)
      (selectedSlot : string) :
  (forall q, q ∈ preferred -> q ∉ availableSlots) ->
  firstPreferred availableSlots preferred selectedSlot = selectedSlot.
Proof.
  intros Hnone. induction preferred as [|q preferred IH]; simpl; [reflexivity|].
  destruct (JS.includes availableSlots q) eqn:Hq.
  - apply includes_elem_of in Hq. exfalso. apply (Hnone q); [left|assumption].
  - apply IH. intros q' Hq'. apply Hnone. now right.
Qed.

Lemma selectSlot_found (first : string) (availableSlots before after : list string)
      (p : string) :
  p ∈ availableSlots ->
  (forall q, q ∈ before -> q ∉ availableSlots) ->
  selectSlot first availableSlots (before ++ p :: after) = p.
Proof.
  intros Hp Hbefore. unfold selectSlot.
  rewrite length_app. simpl.
  replace (0 <? length before + S (length after))%nat with true
    by (symmetry; apply Nat.ltb_lt; lia).
  now apply firstPreferred_found.
Qed.

Lemma selectSlot_none (first : string) (availableSlots preferred : list string) :
  (forall q, q ∈ preferred -> q ∉ availableSlots) ->
  selectSlot first availableSlots preferred = first.
Proof.
  intros Hnone. unfold selectSlot.
  destruct (0 <? length preferred)%nat; [|reflexivity].
  now apply firstPreferred_none.
Qed.

(* ================================================================== *)
(** ** The waitlist reconciler: one entry *)
(* ================================================================== *)

Lemma touched_notified (e e' : Waitlist.t) :
  touched e e' -> Waitlist.status e' = Waitlist.notified.
Proof. intros (t & t' & ->). reflexivity. Qed.

Lemma touched_trans (e1 e2 e3 : Waitlist.t) :
  touched e1 e2 -> touched e2 e3 -> touched e1 e3.
Proof. intros (t & t' & ->) (u & u' & ->). now exists u, u'. Qed.

Section ReconcilerFacts.

Variable clock : nat -> Z.
Variable twilio : list Event -> SmsRequest -> TwilioResult.

Lemma sendWaitlistNotificationSMS_run
      (user : User.t) (service : Service.t) (date : Z) (slot : string)
      (w : World) :
  sendWaitlistNotificationSMS twilio user service date slot w
  = (Ok (smsSent twilio w.(events) user service date slot),
     {| db := w.(db); ticks := w.(ticks);
        events := w.(events) ++ smsTrace twilio w.(events) user service date slot |}).
Proof.
  destruct w as [d n evs].
  unfold sendWaitlistNotificationSMS, tryCatch, smsSent, smsTrace.
  destruct (truthy (User.phone user)) as [phone|]; simpl.
  - unfold bind, messagesCreate, smsRequestFor. simpl.
    destruct (twilio evs _) as [|sid]; simpl.
    + unfold consoleError, emit, ret. simpl. now rewrite <- app_assoc.
    + reflexivity.
  - now rewrite app_nil_r.
Qed.

Lemma notifyAndSave_run (id : Z) (stored : Waitlist.t) (w : World) :
  w.(db).(waitlists) !! id = Some stored ->
  notifyAndSave clock id w = (Ok tt, savedWorld clock id stored w).
Proof.
  intros Hstored. destruct w as [d n evs]. simpl in Hstored.
  unfold notifyAndSave, bind, DateNow, getDb. simpl. rewrite Hstored.
  reflexivity.
Qed.

Lemma notifyAndSave_missing (id : Z) (w : World) :
  w.(db).(waitlists) !! id = None ->
  notifyAndSave clock id w
  = (Throw DocumentNotFound,
     {| db := w.(db); ticks := S (S w.(ticks)); events := w.(events) |}).
Proof.
  intros Hstored. destruct w as [d n evs]. simpl in Hstored.
  unfold notifyAndSave, bind, DateNow, getDb. simpl. rewrite Hstored.
  reflexivity.
Qed.

Lemma processEntry_no_service (date : Z) (fmt : list FormattedAppointment)
      (entry : PopulatedEntry) (w : World) :
  entry.(serviceDoc) = None ->
  processEntry clock twilio date fmt entry w = (Throw TypeError, w).
Proof. intros Hs. unfold processEntry. rewrite Hs. reflexivity. Qed.

Lemma processEntry_no_slot (date : Z) (fmt : list FormattedAppointment)
      (entry : PopulatedEntry) (service : Service.t) (w : World) :
  entry.(serviceDoc) = Some service ->
  getAvailableTimeSlots date fmt service.(Service.duration) = [] ->
  processEntry clock twilio date fmt entry w = (Ok tt, w).
Proof.
  intros Hs Hav. unfold processEntry. rewrite Hs.
  unfold deref, bind, ret. now rewrite Hav.
Qed.

Lemma processEntry_not_stored (date : Z) (fmt : list FormattedAppointment)
      (entry : PopulatedEntry) (service : Service.t)
      (first : string) (rest : list string) (w : World) :
  entry.(serviceDoc) = Some service ->
  getAvailableTimeSlots date fmt service.(Service.duration) = first :: rest ->
  w.(db).(waitlists) !! entry.(entryId) = None ->
  processEntry clock twilio date fmt entry w
  = (Throw DocumentNotFound,
     {| db := w.(db); ticks := S (S w.(ticks)); events := w.(events) |}).
Proof.
  intros Hs Hav Hst. unfold processEntry. rewrite Hs.
  unfold deref at 1. unfold bind at 1. unfold ret at 1. rewrite Hav.
  unfold bind at 1. now rewrite (notifyAndSave_missing _ _ Hst).
Qed.

Lemma processEntry_no_user (date : Z) (fmt : list FormattedAppointment)
      (entry : PopulatedEntry) (service : Service.t)
      (first : string) (rest : list string) (stored : Waitlist.t) (w : World) :
  entry.(serviceDoc) = Some service ->
  getAvailableTimeSlots date fmt service.(Service.duration) = first :: rest ->
  w.(db).(waitlists) !! entry.(entryId) = Some stored ->
  entry.(userDoc) = None ->
  processEntry clock twilio date fmt entry w
  = (Throw TypeError, savedWorld clock entry.(entryId) stored w).
Proof.
  intros Hs Hav Hst Hu. unfold processEntry. rewrite Hs.
  unfold deref at 1. unfold bind at 1. unfold ret at 1. rewrite Hav.
  unfold bind at 1. rewrite (notifyAndSave_run _ _ _ Hst).
  rewrite Hu. reflexivity.
Qed.

(** The entry that is notified: saved first, then announced. *)
Lemma processEntry_notified (date : Z) (fmt : list FormattedAppointment)
      (entry : PopulatedEntry) (service : Service.t) (user : User.t)
      (first : string) (rest : list string) (stored : Waitlist.t) (w : World) :
  entry.(serviceDoc) = Some service ->
  getAvailableTimeSlots date fmt service.(Service.duration) = first :: rest ->
  w.(db).(waitlists) !! entry.(entryId) = Some stored ->
  entry.(userDoc) = Some user ->
  processEntry clock twilio date fmt entry w
  = (Ok tt,
     {| db := (savedWorld clock entry.(entryId) stored w).(db);
        ticks := S (S w.(ticks));
        events :=
          (w.(events) ++ [WaitlistSaved entry.(entryId)])
            ++ afterSave twilio (w.(events) ++ [WaitlistSaved entry.(entryId)])
                 user service date
                 (selectSlot first (first :: rest)
                    entry.(doc).(Waitlist.preferredTimeSlots)) |}).
Proof.
  intros Hs Hav Hst Hu. unfold processEntry. rewrite Hs.
  unfold deref at 1. unfold bind at 1. unfold ret at 1. rewrite Hav.
  unfold bind at 1. rewrite (notifyAndSave_run _ _ _ Hst).
  rewrite Hu. unfold deref, bind at 1, ret at 1. unfold afterSave.
  destruct (User.emailNotifications (User.preferences user));
    (unfold bind at 1, ret at 1;
     destruct (User.smsNotifications (User.preferences user));
     [ unfold bind; rewrite sendWaitlistNotificationSMS_run; reflexivity
     | unfold ret, savedWorld; simpl; now rewrite app_nil_r ]).
Qed.

End ReconcilerFacts.

(* ================================================================== *)
(** ** The waitlist reconciler: the queries *)
(* ================================================================== *)

Lemma insertByCreatedAt_perm (x : Z * Waitlist.t) (l : list (Z * Waitlist.t)) :
  Permutation (insertByCreatedAt x l) (x :: l).
Proof.
  induction l as [|y l IH]; simpl; [reflexivity|].
  destruct (_ <=? _); [reflexivity|].
  rewrite IH. apply perm_swap.
Qed.

Lemma sortByCreatedAt_perm (l : list (Z * Waitlist.t)) :
  Permutation (sortByCreatedAt l) l.
Proof.
  induction l as [|x l IH]; simpl; [reflexivity|].
  rewrite insertByCreatedAt_perm. now constructor.
Qed.

Lemma insertByCreatedAt_sorted (x : Z * Waitlist.t) (l : list (Z * Waitlist.t)) :
  StronglySorted earlierOrSame l ->
  StronglySorted earlierOrSame (insertByCreatedAt x l).
Proof.
  induction 1 as [|y l Hl IH Hy]; simpl.
  - repeat constructor.
  - destruct (Z.leb_spec (Waitlist.createdAt (snd x)) (Waitlist.createdAt (snd y)))
      as [Hle|Hgt].
    + constructor; [now constructor|].
      constructor; [exact Hle|].
      rewrite List.Forall_forall in Hy |- *. intros z Hz.
      unfold earlierOrSame in *. specialize (Hy z Hz). lia.
    + constructor; [exact IH|].
      rewrite List.Forall_forall in Hy |- *. intros z Hz.
      apply (Permutation_in _ (insertByCreatedAt_perm x l)) in Hz.
      destruct Hz as [<-|Hz]; [unfold earlierOrSame; lia|now apply Hy].
Qed.

Lemma sortByCreatedAt_sorted (l : list (Z * Waitlist.t)) :
  StronglySorted earlierOrSame (sortByCreatedAt l).
Proof.
  induction l as [|x l IH]; simpl; [constructor|].
  now apply insertByCreatedAt_sorted.
Qed.

Lemma waitingEntries_In (d : Db) (date : Z) (id : Z) (e : Waitlist.t) :
  In (id, e) (waitingEntries d date)
  <-> d.(waitlists) !! id = Some e /\ waitingOn date e = true.
Proof.
  unfold waitingEntries. rewrite List.filter_In, <- list_elem_of_In.
  rewrite elem_of_map_to_list. reflexivity.
Qed.

Lemma findWaitlist_eq (d : Db) (date : Z) :
  findWaitlist d date
  = map (populateEntry d) (sortByCreatedAt (waitingEntries d date)).
Proof. reflexivity. Qed.

Lemma findWaitlist_In (d : Db) (date : Z) (entry : PopulatedEntry) :
  In entry (findWaitlist d date)
  <-> exists id e,
        entry = populateEntry d (id, e)
        /\ d.(waitlists) !! id = Some e /\ waitingOn date e = true.
Proof.
  rewrite findWaitlist_eq, in_map_iff. split.
  - intros ([id e] & <- & Hin).
    apply (Permutation_in _ (sortByCreatedAt_perm _)) in Hin.
    apply waitingEntries_In in Hin. now exists id, e.
  - intros (id & e & -> & Hst & Hw). exists (id, e). split; [reflexivity|].
    apply (Permutation_in _ (Permutation_sym (sortByCreatedAt_perm _))).
    now apply waitingEntries_In.
Qed.

Lemma findWaitlist_ids (d : Db) (date : Z) (id : Z) :
  In id (map entryId (findWaitlist d date))
  <-> exists e, d.(waitlists) !! id = Some e /\ waitingOn date e = true.
Proof.
  rewrite in_map_iff. split.
  - intros (entry & <- & Hin). apply findWaitlist_In in Hin.
    destruct Hin as (id' & e & -> & Hst & Hw). now exists e.
  - intros (e & Hst & Hw). exists (populateEntry d (id, e)).
    split; [reflexivity|]. apply findWaitlist_In. now exists id, e.
Qed.

Lemma waitingOn_status (date : Z) (e : Waitlist.t) :
  waitingOn date e = true ->
  Waitlist.status e = Waitlist.waiting /\ sameDay date e.(Waitlist.date) = true.
Proof.
  unfold waitingOn. intros [Hday Hst]%andb_true_iff. split; [|exact Hday].
  destruct (Waitlist.status e); simpl in Hst; congruence.
Qed.

(** Formatting the appointments reads the populated services only: it
    returns or throws the same in every world and leaves the world as it
    is. *)
Lemma mapM_formatAppointment_pure (l : list (Appointment.t * option Service.t)) :
  exists r : Result (list FormattedAppointment),
    forall w : World, mapM formatAppointment l w = (r, w).
Proof.
  induction l as [|[a [s|]] l [r IH]].
  - exists (Ok []). reflexivity.
  - destruct r as [fmt|err].
    + exists (Ok ({| timeSlot := Appointment.timeSlot a;
                     serviceDuration := Service.duration s |} :: fmt)).
      intros w. simpl. unfold bind, formatAppointment, deref, ret, bind. simpl.
      now rewrite IH.
    + exists (Throw err).
      intros w. simpl. unfold bind, formatAppointment, deref, ret, bind. simpl.
      now rewrite IH.
  - exists (Throw TypeError). reflexivity.
Qed.

(* ================================================================== *)
(** ** The waitlist reconciler: what a pass may change *)
(* ================================================================== *)

Lemma waitlistFrame_refl (ids : list Z) (w w' : World) :
  w'.(db) = w.(db) -> waitlistFrame ids w w'.
Proof.
  intros Hdb. unfold waitlistFrame. rewrite Hdb. repeat split. now left.
Qed.

Lemma waitlistFrame_trans (ids1 ids2 : list Z) (w1 w2 w3 : World) :
  waitlistFrame ids1 w1 w2 -> waitlistFrame ids2 w2 w3 ->
  waitlistFrame (ids1 ++ ids2) w1 w3.
Proof.
  intros (Ha1 & Hs1 & Hu1 & Hw1) (Ha2 & Hs2 & Hu2 & Hw2).
  repeat split; try congruence.
  intros id. destruct (Hw1 id) as [Heq1|(Hin1 & e1 & e1' & He1 & He1' & Ht1)];
    destruct (Hw2 id) as [Heq2|(Hin2 & e2 & e2' & He2 & He2' & Ht2)].
  - left. congruence.
  - right. split; [apply in_or_app; now right|].
    exists e2, e2'. repeat split; congruence.
  - right. split; [apply in_or_app; now left|].
    exists e1, e1'. repeat split; congruence.
  - right. split; [apply in_or_app; now left|].
    exists e1, e2'. repeat split; try assumption.
    assert (e2 = e1') as -> by congruence.
    now apply (touched_trans e1 e1' e2').
Qed.

Lemma waitlistFrame_weaken (ids ids' : list Z) (w w' : World) :
  (forall id, In id ids -> In id ids') ->
  waitlistFrame ids w w' -> waitlistFrame ids' w w'.
Proof.
  intros Hsub (Ha & Hs & Hu & Hw). repeat split; try assumption.
  intros id. destruct (Hw id) as [Heq|(Hin & He)]; [now left|].
  right. split; [now apply Hsub|exact He].
Qed.

Lemma notifiedIn_frame (ids : list Z) (w w' : World) (id : Z) :
  waitlistFrame ids w w' -> notifiedIn w id -> notifiedIn w' id.
Proof.
  intros (_ & _ & _ & Hw) (e & He & Hst).
  destruct (Hw id) as [Heq|(_ & e1 & e1' & He1 & He1' & Ht)].
  - exists e. split; congruence.
  - exists e1'. split; [assumption|]. now apply (touched_notified e1).
Qed.

Lemma savesOf_trans (ids1 ids2 : list Z) (evs1 evs2 : list Event)
      (w1 w2 w3 : World) :
  waitlistFrame ids2 w2 w3 ->
  savesOf ids1 evs1 w1 w2 -> savesOf ids2 evs2 w2 w3 ->
  savesOf (ids1 ++ ids2) (evs1 ++ evs2) w1 w3.
Proof.
  intros Hframe [He1 Hs1] [He2 Hs2]. split.
  - rewrite He2, He1. now rewrite app_assoc.
  - intros id [Hin|Hin]%in_app_or.
    + destruct (Hs1 id Hin) as [Hids Hn]. split; [apply in_or_app; now left|].
      now apply (notifiedIn_frame ids2 w2).
    + destruct (Hs2 id Hin) as [Hids Hn]. split; [apply in_or_app; now right|].
      exact Hn.
Qed.

Section PassFacts.

Variable clock : nat -> Z.
Variable twilio : list Event -> SmsRequest -> TwilioResult.

Lemma smsTrace_no_save (past : list Event) (user : User.t) (service : Service.t)
      (date : Z) (slot : string) (id : Z) :
  ~ In (WaitlistSaved id) (smsTrace twilio past user service date slot).
Proof.
  unfold smsTrace. destruct (truthy _); [|intros []].
  destruct (twilio _ _); simpl; intros H;
    repeat (destruct H as [H|H]; [discriminate H|]); exact H.
Qed.

Lemma afterSave_no_save (past : list Event) (user : User.t) (service : Service.t)
      (date : Z) (slot : string) (id : Z) :
  ~ In (WaitlistSaved id) (afterSave twilio past user service date slot).
Proof.
  unfold afterSave. destruct (User.smsNotifications _); [|intros []].
  apply smsTrace_no_save.
Qed.

Lemma savedWorld_frame (id : Z) (stored : Waitlist.t) (w w' : World) :
  w.(db).(waitlists) !! id = Some stored ->
  w'.(db) = (savedWorld clock id stored w).(db) ->
  waitlistFrame [id] w w'.
Proof.
  intros Hst Hdb. unfold waitlistFrame. rewrite Hdb. simpl.
  repeat split. intros id'. destruct (decide (id' = id)) as [->|Hne].
  - right. split; [now left|]. eexists _, _. split; [exact Hst|].
    split; [apply lookup_insert_eq|]. now eexists _, _.
  - left. now apply lookup_insert_ne.
Qed.

Lemma savedWorld_notified (id : Z) (stored : Waitlist.t) (w w' : World) :
  w'.(db) = (savedWorld clock id stored w).(db) -> notifiedIn w' id.
Proof.
  intros Hdb. unfold notifiedIn. rewrite Hdb. simpl.
  eexists. split; [apply lookup_insert_eq|reflexivity].
Qed.

Lemma processEntry_inv (date : Z) (fmt : list FormattedAppointment)
      (entry : PopulatedEntry) (w w' : World) (r : Result unit) :
  processEntry clock twilio date fmt entry w = (r, w') ->
  waitlistFrame [entry.(entryId)] w w'
  /\ (exists evs, savesOf [entry.(entryId)] evs w w')
  /\ (r = Ok tt -> nothingOpen date fmt entry \/ notifiedIn w' entry.(entryId)).
Proof.
  intros Hrun.
  destruct (serviceDoc entry) as [service|] eqn:Hs.
  2:{ rewrite (processEntry_no_service _ _ _ _ _ _ Hs) in Hrun.
      injection Hrun as <- <-. split; [now apply waitlistFrame_refl|].
      split; [|discriminate]. exists []. split; [now rewrite app_nil_r|].
      intros id []. }
  destruct (getAvailableTimeSlots date fmt (Service.duration service))
    as [|first rest] eqn:Hav.
  { rewrite (processEntry_no_slot _ _ _ _ _ _ _ Hs Hav) in Hrun.
    injection Hrun as <- <-. split; [now apply waitlistFrame_refl|].
    split.
    - exists []. split; [now rewrite app_nil_r|]. intros id [].
    - intros _. left. now exists service. }
  destruct (waitlists (db w) !! entryId entry) as [stored|] eqn:Hst.
  2:{ rewrite (processEntry_not_stored _ _ _ _ _ _ _ _ _ Hs Hav Hst) in Hrun.
      injection Hrun as <- <-. split; [now apply waitlistFrame_refl|].
      split; [|discriminate]. exists []. split; [simpl; now rewrite app_nil_r|].
      intros id []. }
  destruct (userDoc entry) as [user|] eqn:Hu.
  - rewrite (processEntry_notified _ _ _ _ _ _ _ _ _ _ _ Hs Hav Hst Hu) in Hrun.
    injection Hrun as <- <-.
    split; [now apply (savedWorld_frame _ stored)|]. split.
    + eexists. split; [simpl; rewrite <- app_assoc; reflexivity|].
      intros id [Heq|Hin]%in_app_or.
      * destruct Heq as [Heq|[]]. injection Heq as <-.
        split; [now left|]. now apply (savedWorld_notified _ stored w).
      * now apply afterSave_no_save in Hin.
    + intros _. right. now apply (savedWorld_notified _ stored w).
  - rewrite (processEntry_no_user _ _ _ _ _ _ _ _ _ _ Hs Hav Hst Hu) in Hrun.
    injection Hrun as <- <-.
    split; [now apply (savedWorld_frame _ stored)|]. split; [|discriminate].
    exists [WaitlistSaved (entryId entry)]. split; [reflexivity|].
    intros id [Heq|[]]. injection Heq as <-.
    split; [now left|]. now apply (savedWorld_notified _ stored w).
Qed.

Lemma forOf_processEntry_inv (date : Z) (fmt : list FormattedAppointment)
      (entries : list PopulatedEntry) (w w' : World) (r : Result unit) :
  forOf entries (processEntry clock twilio date fmt) w = (r, w') ->
  waitlistFrame (map entryId entries) w w'
  /\ (exists evs, savesOf (map entryId entries) evs w w')
  /\ (r = Ok tt ->
      forall entry, In entry entries ->
                    nothingOpen date fmt entry \/ notifiedIn w' entry.(entryId)).
Proof.
  revert w. induction entries as [|entry entries IH]; intros w Hrun.
  - injection Hrun as <- <-. split; [now apply waitlistFrame_refl|]. split.
    + exists []. split; [now rewrite app_nil_r|]. intros id [].
    + intros _ entry [].
  - simpl in Hrun. unfold bind in Hrun.
    destruct (processEntry clock twilio date fmt entry w) as [r1 w1] eqn:Hstep.
    destruct (processEntry_inv _ _ _ _ _ _ Hstep) as (Hf1 & [evs1 Hs1] & Hdone1).
    destruct r1 as [[]|err].
    + destruct (IH w1 Hrun) as (Hf2 & [evs2 Hs2] & Hdone2).
      split; [exact (waitlistFrame_trans _ _ _ _ _ Hf1 Hf2)|]. split.
      * exists (evs1 ++ evs2).
        exact (savesOf_trans _ _ _ _ _ _ _ Hf2 Hs1 Hs2).
      * intros Hr entry' [<-|Hin].
        -- destruct (Hdone1 eq_refl) as [Hno|Hn]; [now left|].
           right. now apply (notifiedIn_frame _ _ _ _ Hf2).
        -- now apply Hdone2.
    + injection Hrun as <- <-.
      split; [|split; [|discriminate]].
      * apply (waitlistFrame_weaken [entryId entry]); [|exact Hf1].
        intros id [<-|[]]. now left.
      * exists evs1. destruct Hs1 as [He Hs]. split; [exact He|].
        intros id Hin. destruct (Hs id Hin) as [[<-|[]] Hn].
        split; [now left|exact Hn].
Qed.

End PassFacts.

Section PassTheorems.

Variable clock : nat -> Z.
Variable twilio : list Event -> SmsRequest -> TwilioResult.

Lemma waitlistPass_eq (date : Z) (w : World) :
  waitlistPass clock twilio date w
  = if (length (findWaitlist w.(db) date) =? 0)%nat then (Ok tt, w)
    else match mapM formatAppointment (findAppointments w.(db) date) w with
         | (Ok fmt, w1) =>
             forOf (findWaitlist w.(db) date)
                   (processEntry clock twilio date fmt) w1
         | (Throw err, w1) => (Throw err, w1)
         end.
Proof.
  unfold waitlistPass, bind, getDb.
  destruct (length (findWaitlist (db w) date) =? 0)%nat; reflexivity.
Qed.

Lemma updateWaitlistForDate_eq (date : Z) (w : World) :
  updateWaitlistForDate clock twilio date w
  = match waitlistPass clock twilio date w with
    | (Ok _, w') => (Ok tt, w')
    | (Throw _, w') =>
        (Ok tt, {| db := w'.(db); ticks := w'.(ticks);
                   events := w'.(events) ++ [ConsoleError "Error updating waitlist:"] |})
    end.
Proof.
  unfold updateWaitlistForDate, tryCatch.
  destruct (waitlistPass clock twilio date w) as [[[]|err] w']; reflexivity.
Qed.

Lemma length_zero_nil {A} (l : list A) :
  (length l =? 0)%nat = true <-> l = [].
Proof.
  rewrite Nat.eqb_eq. destruct l; simpl; split; intros H; congruence.
Qed.

(** What the [try] block leaves: the frame, the saves, and when it ran to
    its end, the fate of every entry it had found. *)
Lemma waitlistPass_inv (date : Z) (w w' : World) (r : Result unit) :
  waitlistPass clock twilio date w = (r, w') ->
  waitlistFrame (map entryId (findWaitlist w.(db) date)) w w'
  /\ (exists evs, savesOf (map entryId (findWaitlist w.(db) date)) evs w w')
  /\ (r = Ok tt ->
      findWaitlist w.(db) date = []
      \/ exists fmt,
          (forall w0, mapM formatAppointment (findAppointments w.(db) date) w0
                      = (Ok fmt, w0))
          /\ forall entry, In entry (findWaitlist w.(db) date) ->
                           nothingOpen date fmt entry
                           \/ notifiedIn w' entry.(entryId)).
Proof.
  rewrite waitlistPass_eq. intros Hrun.
  destruct (length (findWaitlist (db w) date) =? 0)%nat eqn:Hlen.
  - injection Hrun as <- <-. split; [now apply waitlistFrame_refl|]. split.
    + exists []. split; [now rewrite app_nil_r|]. intros id [].
    + intros _. left. now apply length_zero_nil.
  - destruct (mapM_formatAppointment_pure (findAppointments (db w) date))
      as [rf Hfmt].
    rewrite Hfmt in Hrun. destruct rf as [fmt|err].
    + destruct (forOf_processEntry_inv _ _ _ _ _ _ _ _ Hrun)
        as (Hframe & Hsaves & Hdone).
      split; [exact Hframe|]. split; [exact Hsaves|].
      intros Hr. right. exists fmt. split; [exact Hfmt|]. now apply Hdone.
    + injection Hrun as <- <-. split; [now apply waitlistFrame_refl|].
      split; [|discriminate].
      exists []. split; [now rewrite app_nil_r|]. intros id [].
Qed.

Lemma updateWaitlistForDate_frame (date : Z) (w : World) :
  waitlistFrame (map entryId (findWaitlist w.(db) date)) w
                (snd (updateWaitlistForDate clock twilio date w)).
Proof.
  rewrite updateWaitlistForDate_eq.
  destruct (waitlistPass clock twilio date w) as [r w'] eqn:Hrun.
  destruct (waitlistPass_inv _ _ _ _ Hrun) as (Hframe & _).
  destruct r as [[]|err]; [exact Hframe|].
  destruct Hframe as (Ha & Hs & Hu & Hw). now repeat split.
Qed.

(** C8. A pass of the reconciler leaves every appointment (and every
    service and user) as it was, creates none, and leaves every waitlist
    entry as it was except entries that were waiting, on the day of the
    pass, when it began: such an entry may end notified, with [notifiedAt]
    stamped (and [updatedAt] refreshed by the save hook), the rest of the
    entry unchanged.  In particular entries in any other status are
    untouched. *)
Theorem reconciler_frame (date : Z) (w : World) :
  let w' := snd (updateWaitlistForDate clock twilio date w) in
  w'.(db).(appointments) = w.(db).(appointments)
  /\ w'.(db).(services) = w.(db).(services)
  /\ w'.(db).(users) = w.(db).(users)
  /\ (forall id,
        w'.(db).(waitlists) !! id = w.(db).(waitlists) !! id
        \/ exists (e : Waitlist.t) (notifiedAt updatedAt : Z),
            w.(db).(waitlists) !! id = Some e
            /\ Waitlist.status e = Waitlist.waiting
            /\ sameDay date e.(Waitlist.date) = true
            /\ w'.(db).(waitlists) !! id
               = Some {| Waitlist.userId := e.(Waitlist.userId);
                         Waitlist.serviceId := e.(Waitlist.serviceId);
                         Waitlist.date := e.(Waitlist.date);
                         Waitlist.preferredTimeSlots := e.(Waitlist.preferredTimeSlots);
                         Waitlist.status := Waitlist.notified;
                         Waitlist.notifiedAt := Some notifiedAt;
                         Waitlist.createdAt := e.(Waitlist.createdAt);
                         Waitlist.updatedAt := updatedAt |})
  /\ (forall id e,
        w.(db).(waitlists) !! id = Some e ->
        Waitlist.status e <> Waitlist.waiting ->
        w'.(db).(waitlists) !! id = Some e).
Proof.
  cbv zeta.
  destruct (updateWaitlistForDate_frame date w) as (Ha & Hs & Hu & Hw).
  assert (Hentries :
    forall id,
      (snd (updateWaitlistForDate clock twilio date w)).(db).(waitlists) !! id
      = w.(db).(waitlists) !! id
      \/ exists (e : Waitlist.t) (notifiedAt updatedAt : Z),
          w.(db).(waitlists) !! id = Some e
          /\ Waitlist.status e = Waitlist.waiting
          /\ sameDay date e.(Waitlist.date) = true
          /\ (snd (updateWaitlistForDate clock twilio date w)).(db).(waitlists) !! id
             = Some (Waitlist.preSave updatedAt (Waitlist.setNotified notifiedAt e))).
  { intros id.
    destruct (Hw id) as [Heq|(Hin & e & e' & He & He' & t & t' & ->)];
      [now left|].
    right. apply findWaitlist_ids in Hin. destruct Hin as (e0 & He0 & Hwait).
    assert (e0 = e) as -> by congruence.
    destruct (waitingOn_status _ _ Hwait) as [Hst Hday].
    now exists e, t, t'. }
  split; [exact Ha|split; [exact Hs|split; [exact Hu|split]]].
  - exact Hentries.
  - intros id e He Hst. destruct (Hentries id) as [Heq|(e0 & _ & _ & He0 & Hw0 & _)].
    + congruence.
    + exfalso. apply Hst. congruence.
Qed.

End PassTheorems.

Section Idempotence.

Variable clock : nat -> Z.
Variable twilio : list Event -> SmsRequest -> TwilioResult.

Lemma forOf_nothingOpen (date : Z) (fmt : list FormattedAppointment)
      (entries : list PopulatedEntry) (w : World) :
  (forall entry, In entry entries -> nothingOpen date fmt entry) ->
  forOf entries (processEntry clock twilio date fmt) w = (Ok tt, w).
Proof.
  induction entries as [|entry entries IH]; intros Hall; [reflexivity|].
  simpl. unfold bind.
  destruct (Hall entry (or_introl eq_refl)) as (service & Hs & Hav).
  rewrite (processEntry_no_slot _ _ _ _ _ _ _ Hs Hav).
  apply IH. intros entry' Hin. apply Hall. now right.
Qed.

Lemma updateWaitlistForDate_saves (date : Z) (w : World) :
  exists evs,
    savesOf (map entryId (findWaitlist w.(db) date)) evs w
            (snd (updateWaitlistForDate clock twilio date w)).
Proof.
  rewrite updateWaitlistForDate_eq.
  destruct (waitlistPass clock twilio date w) as [r w'] eqn:Hrun.
  destruct (waitlistPass_inv _ _ _ _ _ _ Hrun) as (_ & [evs [Hev Hsaves]] & _).
  destruct r as [[]|err]; [now exists evs|].
  exists (evs ++ [ConsoleError "Error updating waitlist:"]). split.
  - simpl. rewrite Hev. now rewrite app_assoc.
  - intros id [Hin|[Heq|[]]]%in_app_or; [|discriminate Heq].
    destruct (Hsaves id Hin) as [Hids (e & He & Hst)].
    split; [exact Hids|]. now exists e.
Qed.

Lemma waiting_not_notified (date : Z) (w : World) (id : Z) :
  In id (map entryId (findWaitlist w.(db) date)) -> ~ notifiedIn w id.
Proof.
  intros (e & He & Hwait)%findWaitlist_ids (e' & He' & Hst).
  apply waitingOn_status in Hwait. destruct Hwait as [Hw _]. congruence.
Qed.

(** A pass that ran to its end leaves nothing for the next one. *)
Lemma second_pass_noop (date : Z) (w w1 : World) :
  waitlistPass clock twilio date w = (Ok tt, w1) ->
  waitlistPass clock twilio date w1 = (Ok tt, w1).
Proof.
  intros Hrun.
  destruct (waitlistPass_inv _ _ _ _ _ _ Hrun)
    as ((Happ & Hsvc & Husr & Hwl) & _ & Hdone).
  specialize (Hdone eq_refl).
  rewrite waitlistPass_eq.
  destruct (length (findWaitlist (db w1) date) =? 0)%nat eqn:Hlen;
    [reflexivity|].
  (* every entry of the second query was an entry of the first *)
  assert (Hsame : forall entry,
             In entry (findWaitlist (db w1) date) ->
             In entry (findWaitlist (db w) date)
             /\ ~ notifiedIn w1 entry.(entryId)).
  { intros entry Hin.
    assert (Hnot : ~ notifiedIn w1 (entryId entry)).
    { apply (waiting_not_notified date). now apply in_map. }
    split; [|exact Hnot].
    apply findWaitlist_In in Hin. destruct Hin as (id & e & -> & He & Hwait).
    apply findWaitlist_In. exists id, e.
    split; [unfold populateEntry; now rewrite Hsvc, Husr|].
    split; [|exact Hwait].
    destruct (Hwl id) as [Heq|(_ & e0 & e0' & _ & He0' & Ht)]; [congruence|].
    exfalso. apply Hnot. exists e0'. split; [exact He0'|].
    now apply (touched_notified e0). }
  destruct Hdone as [Hnil|(fmt & Hfmt & Hfate)].
  - exfalso. destruct (findWaitlist (db w1) date) as [|entry entries] eqn:Hes;
      [discriminate Hlen|].
    destruct (Hsame entry (or_introl eq_refl)) as [Hin _].
    rewrite Hnil in Hin. destruct Hin.
  - assert (Happs : findAppointments (db w1) date = findAppointments (db w) date).
    { unfold findAppointments. now rewrite Happ, Hsvc. }
    rewrite Happs, Hfmt.
    apply forOf_nothingOpen. intros entry Hin.
    destruct (Hsame entry Hin) as [Hin0 Hnot].
    destruct (Hfate entry Hin0) as [Hno|Hn]; [exact Hno|contradiction].
Qed.

(** C7 (amended). Run twice in a row with no write in between: when the
    first run went through to its end, the second run changes nothing at
    all, since the entries the first run notified no longer wait and those
    it left waiting still find no open slot; a run over a date without
    waiting entries writes nothing; and whether or not the first run was
    cut short, no entry is saved as notified by both runs. *)
Theorem reconciler_idempotent (date : Z) (w : World) :
  let w1 := snd (updateWaitlistForDate clock twilio date w) in
  let w2 := snd (updateWaitlistForDate clock twilio date w1) in
  (fst (waitlistPass clock twilio date w) = Ok tt -> w2 = w1)
  /\ (findWaitlist w.(db) date = [] -> w1 = w)
  /\ (forall id,
        In (WaitlistSaved id) (drop (length w.(events)) w1.(events)) ->
        ~ In (WaitlistSaved id) (drop (length w1.(events)) w2.(events))).
Proof.
  cbv zeta. split; [|split].
  - intros Hok.
    destruct (waitlistPass clock twilio date w) as [r w1] eqn:Hrun.
    simpl in Hok. subst r.
    rewrite (updateWaitlistForDate_eq _ _ date w), Hrun. simpl.
    rewrite updateWaitlistForDate_eq, (second_pass_noop _ _ _ Hrun).
    reflexivity.
  - intros Hnil. rewrite updateWaitlistForDate_eq, waitlistPass_eq, Hnil.
    reflexivity.
  - intros id Hin1 Hin2.
    destruct (updateWaitlistForDate_saves date w) as [evs1 [Hev1 Hs1]].
    destruct (updateWaitlistForDate_saves date
                (snd (updateWaitlistForDate clock twilio date w)))
      as [evs2 [Hev2 Hs2]].
    rewrite Hev1, drop_app_length in Hin1.
    rewrite Hev2, drop_app_length in Hin2.
    destruct (Hs1 id Hin1) as [_ Hn].
    destruct (Hs2 id Hin2) as [Hids _].
    exact (waiting_not_notified _ _ _ Hids Hn).
Qed.

End Idempotence.

(* ================================================================== *)
(** ** The waitlist reconciler: notification *)
(* ================================================================== *)

Section Notification.

Variable clock : nat -> Z.
Variable twilio : list Event -> SmsRequest -> TwilioResult.

Lemma processEntry_sameStore (twilio' : list Event -> SmsRequest -> TwilioResult)
      (date : Z) (fmt : list FormattedAppointment) (entry : PopulatedEntry)
      (w1 w2 : World) :
  sameStore w1 w2 ->
  fst (processEntry clock twilio date fmt entry w1)
  = fst (processEntry clock twilio' date fmt entry w2)
  /\ sameStore (snd (processEntry clock twilio date fmt entry w1))
               (snd (processEntry clock twilio' date fmt entry w2)).
Proof.
  intros [Hdb Ht].
  destruct (serviceDoc entry) as [service|] eqn:Hs.
  2:{ rewrite !(processEntry_no_service _ _ _ _ _ _ Hs). now split. }
  destruct (getAvailableTimeSlots date fmt (Service.duration service))
    as [|first rest] eqn:Hav.
  { rewrite !(processEntry_no_slot _ _ _ _ _ _ _ Hs Hav). now split. }
  destruct (waitlists (db w1) !! entryId entry) as [stored|] eqn:Hst.
  2:{ assert (Hst2 : waitlists (db w2) !! entryId entry = None) by congruence.
      rewrite (processEntry_not_stored _ _ _ _ _ _ _ _ _ Hs Hav Hst).
      rewrite (processEntry_not_stored _ _ _ _ _ _ _ _ _ Hs Hav Hst2).
      split; [reflexivity|]. split; simpl; congruence. }
  assert (Hst2 : waitlists (db w2) !! entryId entry = Some stored) by congruence.
  destruct (userDoc entry) as [user|] eqn:Hu.
  - rewrite (processEntry_notified _ _ _ _ _ _ _ _ _ _ _ Hs Hav Hst Hu).
    rewrite (processEntry_notified _ _ _ _ _ _ _ _ _ _ _ Hs Hav Hst2 Hu).
    split; [reflexivity|]. split; simpl; congruence.
  - rewrite (processEntry_no_user _ _ _ _ _ _ _ _ _ _ Hs Hav Hst Hu).
    rewrite (processEntry_no_user _ _ _ _ _ _ _ _ _ _ Hs Hav Hst2 Hu).
    split; [reflexivity|]. split; simpl; congruence.
Qed.

Lemma forOf_sameStore (twilio' : list Event -> SmsRequest -> TwilioResult)
      (date : Z) (fmt : list FormattedAppointment) (entries : list PopulatedEntry)
      (w1 w2 : World) :
  sameStore w1 w2 ->
  fst (forOf entries (processEntry clock twilio date fmt) w1)
  = fst (forOf entries (processEntry clock twilio' date fmt) w2)
  /\ sameStore (snd (forOf entries (processEntry clock twilio date fmt) w1))
               (snd (forOf entries (processEntry clock twilio' date fmt) w2)).
Proof.
  revert w1 w2. induction entries as [|entry entries IH]; intros w1 w2 Hsame.
  - now split.
  - simpl. unfold bind.
    destruct (processEntry_sameStore twilio' date fmt entry w1 w2 Hsame)
      as [Hr Hs].
    destruct (processEntry clock twilio date fmt entry w1) as [r1 w1'].
    destruct (processEntry clock twilio' date fmt entry w2) as [r2 w2'].
    simpl in Hr, Hs. subst r2. destruct r1 as [[]|err].
    + now apply IH.
    + now split.
Qed.

(** The store after a pass does not depend on the answers of the SMS
    provider. *)
Lemma updateWaitlistForDate_sameStore
      (twilio' : list Event -> SmsRequest -> TwilioResult) (date : Z) (w : World) :
  sameStore (snd (updateWaitlistForDate clock twilio date w))
            (snd (updateWaitlistForDate clock twilio' date w)).
Proof.
  rewrite !updateWaitlistForDate_eq, !waitlistPass_eq.
  destruct (length (findWaitlist (db w) date) =? 0)%nat; [now split|].
  destruct (mapM_formatAppointment_pure (findAppointments (db w) date))
    as [rf Hfmt].
  rewrite Hfmt. destruct rf as [fmt|err]; [|now split].
  destruct (forOf_sameStore twilio' date fmt (findWaitlist (db w) date) w w
                            (conj eq_refl eq_refl)) as [Hr Hs].
  destruct (forOf _ (processEntry clock twilio date fmt) w) as [r1 w1].
  destruct (forOf _ (processEntry clock twilio' date fmt) w) as [r2 w2].
  simpl in Hr, Hs. subst r2. destruct r1 as [[]|err]; exact Hs.
Qed.

(** C9. A failed notification does not undo the transition.  The SMS
    sender never throws and never touches the store: a rejected send is
    logged and answered with false.  For an entry the reconciler notifies,
    the save of the entry as notified, with [notifiedAt] stamped, comes
    before the request to the SMS provider in the order of events, the
    entry is stored as notified after the step whatever the provider
    answers, and the store after a whole pass is the same for every
    behaviour of the provider. *)
Theorem notification_failure_keeps_transition
        (date : Z) (fmt : list FormattedAppointment) (entry : PopulatedEntry)
        (service : Service.t) (user : User.t) (first : string) (rest : list string)
        (stored : Waitlist.t) (w : World) :
  entry.(serviceDoc) = Some service ->
  getAvailableTimeSlots date fmt service.(Service.duration) = first :: rest ->
  w.(db).(waitlists) !! entry.(entryId) = Some stored ->
  entry.(userDoc) = Some user ->
  let slot := selectSlot first (first :: rest)
                         entry.(doc).(Waitlist.preferredTimeSlots) in
  let after := processEntry clock twilio date fmt entry w in
  (forall w0 : World,
      exists (sent : bool) (evs : list Event),
        sendWaitlistNotificationSMS twilio user service date slot w0
        = (Ok sent, {| db := w0.(db); ticks := w0.(ticks);
                       events := w0.(events) ++ evs |})
        /\ forall phone,
            truthy user.(User.phone) = Some phone ->
            twilio w0.(events) (smsRequestFor phone service date slot) = Rejected ->
            sent = false
            /\ evs = [SmsRequested (smsRequestFor phone service date slot);
                      ConsoleError "Error sending waitlist notification SMS:"])
  /\ fst after = Ok tt
  /\ (exists e, (snd after).(db).(waitlists) !! entry.(entryId) = Some e
                /\ Waitlist.status e = Waitlist.notified
                /\ Waitlist.notifiedAt e = Some (clock w.(ticks)))
  /\ (exists evs, (snd after).(events)
                  = w.(events) ++ WaitlistSaved entry.(entryId) :: evs
                  /\ forall ev, In ev evs ->
                                exists req, ev = SmsRequested req
                                            \/ exists prefix, ev = ConsoleError prefix)
  /\ (forall (twilio' : list Event -> SmsRequest -> TwilioResult) (day : Z)
             (w0 : World),
         (snd (updateWaitlistForDate clock twilio' day w0)).(db)
         = (snd (updateWaitlistForDate clock twilio day w0)).(db)).
Proof.
  intros Hs Hav Hst Hu slot after.
  split; [|split; [|split; [|split]]].
  - intros w0. eexists _, _. split; [apply sendWaitlistNotificationSMS_run|].
    intros phone Hphone Hrej. unfold smsSent, smsTrace.
    rewrite Hphone, Hrej. now split.
  - unfold after.
    now rewrite (processEntry_notified _ _ _ _ _ _ _ _ _ _ _ Hs Hav Hst Hu).
  - unfold after.
    rewrite (processEntry_notified _ _ _ _ _ _ _ _ _ _ _ Hs Hav Hst Hu). simpl.
    eexists. split; [apply lookup_insert_eq|]. now split.
  - unfold after.
    rewrite (processEntry_notified _ _ _ _ _ _ _ _ _ _ _ Hs Hav Hst Hu). simpl.
    eexists. split; [now rewrite <- app_assoc|].
    intros ev Hin. unfold afterSave in Hin.
    destruct (User.smsNotifications _); [|destruct Hin].
    unfold smsTrace in Hin. destruct (truthy _) as [phone|]; [|destruct Hin].
    destruct Hin as [<-|Hin]; [eexists; now left|].
    destruct (twilio _ _); [|destruct Hin].
    destruct Hin as [<-|[]]. exists (smsRequestFor phone service date slot).
    right. now eexists.
  - intros twilio' day w0.
    now destruct (updateWaitlistForDate_sameStore twilio' day w0) as [<- _].
Qed.

(** C6. When the reconciler notifies an entry, the slot it announces is
    the first of the entry's preferred slots, in the order listed, that is
    among the available slots; when no preferred slot is available, or none
    was given, it is the first of the available slots, the earliest. *)
Theorem announced_slot_by_preference
        (date : Z) (fmt : list FormattedAppointment) (entry : PopulatedEntry)
        (service : Service.t) (user : User.t) (phone : string)
        (first : string) (rest : list string) (stored : Waitlist.t) (w : World) :
  entry.(serviceDoc) = Some service ->
  getAvailableTimeSlots date fmt service.(Service.duration) = first :: rest ->
  w.(db).(waitlists) !! entry.(entryId) = Some stored ->
  entry.(userDoc) = Some user ->
  user.(User.preferences).(User.smsNotifications) = true ->
  truthy user.(User.phone) = Some phone ->
  exists (slot : string) (evs : list Event),
    (snd (processEntry clock twilio date fmt entry w)).(events)
    = w.(events)
        ++ [WaitlistSaved entry.(entryId);
            SmsRequested (smsRequestFor phone service date slot)]
        ++ evs
    /\ (forall before p after,
           entry.(doc).(Waitlist.preferredTimeSlots) = before ++ p :: after ->
           p ∈ first :: rest ->
           (forall q, q ∈ before -> q ∉ first :: rest) ->
           slot = p)
    /\ ((forall q, q ∈ entry.(doc).(Waitlist.preferredTimeSlots) ->
                   q ∉ first :: rest) ->
        slot = first).
Proof.
  intros Hs Hav Hst Hu Hsms Hphone.
  exists (selectSlot first (first :: rest)
                     entry.(doc).(Waitlist.preferredTimeSlots)).
  rewrite (processEntry_notified _ _ _ _ _ _ _ _ _ _ _ Hs Hav Hst Hu). simpl.
  unfold afterSave, smsTrace. rewrite Hsms, Hphone.
  eexists. split; [now rewrite <- app_assoc|]. split.
  - intros before p after Hprefs Hp Hbefore. rewrite Hprefs.
    now apply selectSlot_found.
  - intros Hnone. now apply selectSlot_none.
Qed.

End Notification.

(* ================================================================== *)
(** ** The waitlist reconciler: first come, first served *)
(* ================================================================== *)

Lemma waitingEntries_NoDup (d : Db) (date : Z) :
  List.NoDup (waitingEntries d date).
Proof.
  unfold waitingEntries.
  apply List.NoDup_filter, NoDup_ListNoDup, NoDup_map_to_list.
Qed.

(** Two waiting entries with distinct creation times come out of the
    query earlier first. *)
Lemma findWaitlist_two (d : Db) (date : Z) (i1 i2 : Z) (e1 e2 : Waitlist.t) :
  (forall id e,
      d.(waitlists) !! id = Some e /\ waitingOn date e = true
      <-> (id = i1 /\ e = e1) \/ (id = i2 /\ e = e2)) ->
  Waitlist.createdAt e1 < Waitlist.createdAt e2 ->
  findWaitlist d date = [populateEntry d (i1, e1); populateEntry d (i2, e2)].
Proof.
  intros Hexact Hlt. rewrite findWaitlist_eq. f_equal.
  assert (Hne : (i1, e1) <> (i2, e2)).
  { intros Heq. injection Heq as _ ->. lia. }
  assert (Hperm : Permutation [(i1, e1); (i2, e2)] (waitingEntries d date)).
  { apply Stdlib.Sorting.Permutation.NoDup_Permutation.
    - constructor; [intros [Heq|[]]; now apply Hne|].
      constructor; [intros []|constructor].
    - apply waitingEntries_NoDup.
    - intros [id e]. rewrite waitingEntries_In, Hexact. simpl. split.
      + intros [Heq|[Heq|[]]]; injection Heq as <- <-; [now left|now right].
      + intros [[-> ->]|[-> ->]]; [now left|right; now left]. }
  rewrite <- (sortByCreatedAt_perm (waitingEntries d date)) in Hperm.
  pose proof (sortByCreatedAt_sorted (waitingEntries d date)) as Hsorted.
  apply Permutation_length_2_inv in Hperm. destruct Hperm as [->| Hswap].
  - reflexivity.
  - rewrite Hswap in Hsorted. exfalso.
    apply StronglySorted_inv in Hsorted. destruct Hsorted as [_ Hall].
    apply Forall_inv in Hall. unfold earlierOrSame in Hall. simpl in Hall. lia.
Qed.

Lemma forOf_two {A} (a b : A) (body : A -> M unit) (w : World) :
  forOf [a; b] body w
  = match body a w with
    | (Ok _, w1) =>
        match body b w1 with
        | (Ok _, w2) => (Ok tt, w2)
        | (Throw err, w2) => (Throw err, w2)
        end
    | (Throw err, w1) => (Throw err, w1)
    end.
Proof.
  simpl. unfold bind, ret. destruct (body a w) as [[[]|err] w1]; [|reflexivity].
  destruct (body b w1) as [[[]|err] w2]; reflexivity.
Qed.

Section FirstComeFirstServed.

Variable clock : nat -> Z.
Variable twilio : list Event -> SmsRequest -> TwilioResult.

(** C1 (amended). A pass over a date with exactly two waiting entries,
    created at distinct times, whose references resolve, and with exactly
    one slot open for the service of the earlier-created entry: the earlier
    entry is handled first and ends the pass notified; the later entry is
    handled after it against the same bookings, the announced slot is not
    set aside, so the later entry ends the pass notified as well whenever a
    slot is open for its own service, and waiting only when none is. *)
Theorem two_waiting_entries_one_slot
        (date : Z) (w : World) (i1 i2 : Z) (e1 e2 : Waitlist.t)
        (s1 s2 : Service.t) (u1 u2 : User.t)
        (fmt : list FormattedAppointment) (slot : string) :
  (forall id e,
      w.(db).(waitlists) !! id = Some e /\ waitingOn date e = true
      <-> (id = i1 /\ e = e1) \/ (id = i2 /\ e = e2)) ->
  Waitlist.createdAt e1 < Waitlist.createdAt e2 ->
  w.(db).(services) !! e1.(Waitlist.serviceId) = Some s1 ->
  w.(db).(services) !! e2.(Waitlist.serviceId) = Some s2 ->
  w.(db).(users) !! e1.(Waitlist.userId) = Some u1 ->
  w.(db).(users) !! e2.(Waitlist.userId) = Some u2 ->
  mapM formatAppointment (findAppointments w.(db) date) w = (Ok fmt, w) ->
  getAvailableTimeSlots date fmt s1.(Service.duration) = [slot] ->
  let w' := snd (updateWaitlistForDate clock twilio date w) in
  w'.(db).(waitlists) !! i1
  = Some (Waitlist.preSave (clock (S w.(ticks)))
            (Waitlist.setNotified (clock w.(ticks)) e1))
  /\ w'.(db).(waitlists) !! i2
     = Some (match getAvailableTimeSlots date fmt s2.(Service.duration) with
             | [] => e2
             | _ :: _ =>
                 Waitlist.preSave (clock (S (S (S w.(ticks)))))
                   (Waitlist.setNotified (clock (S (S w.(ticks)))) e2)
             end)
  /\ exists evs1 evs2,
      w'.(events)
      = w.(events)
          ++ (WaitlistSaved i1 :: evs1)
          ++ match getAvailableTimeSlots date fmt s2.(Service.duration) with
             | [] => []
             | _ :: _ => WaitlistSaved i2 :: evs2
             end
      /\ (forall id, ~ In (WaitlistSaved id) evs1)
      /\ (forall id, ~ In (WaitlistSaved id) evs2).
Proof.
  intros Hexact Hlt Hs1 Hs2 Hu1 Hu2 Hfmt Hav1 w'.
  assert (Hst1 : w.(db).(waitlists) !! i1 = Some e1)
    by (apply (Hexact i1 e1); now left).
  assert (Hst2 : w.(db).(waitlists) !! i2 = Some e2)
    by (apply (Hexact i2 e2); now right).
  assert (Hne : i1 <> i2).
  { intros ->. assert (e1 = e2) as -> by congruence. lia. }
  assert (Hpass :
            waitlistPass clock twilio date w
            = forOf [populateEntry (db w) (i1, e1); populateEntry (db w) (i2, e2)]
                    (processEntry clock twilio date fmt) w).
  { rewrite waitlistPass_eq, (findWaitlist_two _ _ _ _ _ _ Hexact Hlt), Hfmt.
    reflexivity. }
  unfold w'. clear w'.
  rewrite updateWaitlistForDate_eq, Hpass, forOf_two.
  rewrite (processEntry_notified clock twilio date fmt
             (populateEntry (db w) (i1, e1)) s1 u1 slot [] e1 w
             Hs1 Hav1 Hst1 Hu1).
  cbn [entryId populateEntry fst snd doc].
  set (w1 := {| db := db (savedWorld clock i1 e1 w); ticks := _; events := _ |}).
  assert (Hst2' : w1.(db).(waitlists) !! i2 = Some e2).
  { unfold w1, savedWorld, setWaitlists. cbn [db waitlists].
    now rewrite lookup_insert_ne. }
  assert (Hst1' : w1.(db).(waitlists) !! i1
                  = Some (Waitlist.preSave (clock (S w.(ticks)))
                            (Waitlist.setNotified (clock w.(ticks)) e1))).
  { unfold w1, savedWorld, setWaitlists. cbn [db waitlists].
    apply lookup_insert_eq. }
  set (evs1 := afterSave twilio (events w ++ [WaitlistSaved i1]) u1 s1 date
                 (selectSlot slot [slot] (Waitlist.preferredTimeSlots e1))).
  assert (Hev1 : w1.(events) = events w ++ WaitlistSaved i1 :: evs1).
  { unfold w1. cbn [events]. now rewrite <- app_assoc. }
  destruct (getAvailableTimeSlots date fmt (Service.duration s2))
    as [|first rest] eqn:Hav2.
  - rewrite (processEntry_no_slot clock twilio date fmt
               (populateEntry (db w) (i2, e2)) s2 w1 Hs2 Hav2).
    cbn [snd]. split; [exact Hst1'|]. split; [exact Hst2'|].
    exists evs1, []. split; [|split].
    + rewrite Hev1. now rewrite app_nil_r.
    + intros id. apply afterSave_no_save.
    + intros id [].
  - rewrite (processEntry_notified clock twilio date fmt
               (populateEntry (db w) (i2, e2)) s2 u2 first rest e2 w1
               Hs2 Hav2 Hst2' Hu2).
    cbn [snd entryId populateEntry fst doc].
    set (evs2 := afterSave twilio (events w1 ++ [WaitlistSaved i2]) u2 s2 date
                   (selectSlot first (first :: rest)
                      (Waitlist.preferredTimeSlots e2))).
    cbn [db events]. unfold savedWorld at 1 2. cbn [db waitlists setWaitlists].
    split; [|split].
    + rewrite lookup_insert_ne by congruence. exact Hst1'.
    + rewrite lookup_insert_eq. unfold w1. cbn [ticks]. reflexivity.
    + exists evs1, evs2. split; [|split].
      * rewrite Hev1. rewrite <- !app_assoc. reflexivity.
      * intros id. apply afterSave_no_save.
      * intros id. apply afterSave_no_save.
Qed.

End FirstComeFirstServed.

(* ================================================================== *)
(** ** The properties on the sample day *)
(* ================================================================== *)

Lemma oneSlot_formatted (w : World) :
  mapM formatAppointment (findAppointments Sample.oneSlot.(db) Sample.day) w
  = (Ok Sample.oneGapFormatted, w).
Proof.
  destruct (mapM_formatAppointment_pure
              (findAppointments Sample.oneSlot.(db) Sample.day)) as [r Hr].
  rewrite Hr. f_equal.
  specialize (Hr Sample.nobody).
  assert (Hfst : fst (mapM formatAppointment
                        (findAppointments Sample.oneSlot.(db) Sample.day)
                        Sample.nobody) = Ok Sample.oneGapFormatted)
    by (vm_compute; reflexivity).
  rewrite Hr in Hfst. exact Hfst.
Qed.

Lemma oneSlot_exactly_two (id : Z) (e : Waitlist.t) :
  Sample.oneSlot.(db).(waitlists) !! id = Some e /\ waitingOn Sample.day e = true
  <-> (id = 1 /\ e = Sample.first) \/ (id = 2 /\ e = Sample.second).
Proof.
  unfold Sample.oneSlot, Sample.world. cbn [db waitlists]. split.
  - intros [Hl _].
    destruct (decide (id = 1)) as [->|H1].
    { rewrite lookup_insert_eq in Hl. left. split; congruence. }
    rewrite lookup_insert_ne in Hl by congruence.
    destruct (decide (id = 2)) as [->|H2].
    { rewrite lookup_insert_eq in Hl. right. split; congruence. }
    rewrite lookup_insert_ne in Hl by congruence.
    rewrite lookup_empty in Hl. discriminate.
  - intros [[-> ->]|[-> ->]].
    + split; [apply lookup_insert_eq|now vm_compute].
    + split; [|now vm_compute].
      rewrite lookup_insert_ne by discriminate. apply lookup_insert_eq.
Qed.

(** C1, as stated, fails: two waiting entries created an hour apart, one
    free slot, 10:00, for the thirty-minute service both wait for; after
    the pass the later-created entry is notified, not waiting, and both
    were sent the same slot. *)
Lemma later_entry_notified_too :
  let w' := snd (updateWaitlistForDate Sample.clock Sample.delivers Sample.day
                                       Sample.oneSlot) in
  map entryId (findWaitlist Sample.oneSlot.(db) Sample.day) = [1; 2]
  /\ Waitlist.createdAt Sample.first < Waitlist.createdAt Sample.second
  /\ getAvailableTimeSlots Sample.day Sample.oneGapFormatted 30 = ["10:00"]
  /\ Waitlist.status <$> w'.(db).(waitlists) !! 1 = Some Waitlist.notified
  /\ Waitlist.status <$> w'.(db).(waitlists) !! 2 = Some Waitlist.notified
  /\ w'.(events)
     = [WaitlistSaved 1;
        SmsRequested {| to := "+15550001"; serviceName := "Haircut";
                        onDate := Sample.day; availableSlot := "10:00" |};
        WaitlistSaved 2;
        SmsRequested {| to := "+15550002"; serviceName := "Haircut";
                        onDate := Sample.day; availableSlot := "10:00" |}].
Proof. vm_compute. repeat split; reflexivity. Qed.

Lemma two_waiting_entries_one_slot_witness :
  let w' := snd (updateWaitlistForDate Sample.clock Sample.delivers Sample.day
                                       Sample.oneSlot) in
  w'.(db).(waitlists) !! 1
  = Some (Waitlist.preSave (Sample.clock 1)
            (Waitlist.setNotified (Sample.clock 0) Sample.first))
  /\ w'.(db).(waitlists) !! 2
     = Some (Waitlist.preSave (Sample.clock 3)
               (Waitlist.setNotified (Sample.clock 2) Sample.second)).
Proof.
  destruct (two_waiting_entries_one_slot
              Sample.clock Sample.delivers Sample.day Sample.oneSlot
              1 2 Sample.first Sample.second Sample.haircut Sample.haircut
              Sample.alice Sample.bob Sample.oneGapFormatted "10:00"
              oneSlot_exactly_two)
    as (H1 & H2 & _).
  - vm_compute. reflexivity.
  - reflexivity.
  - reflexivity.
  - reflexivity.
  - reflexivity.
  - apply oneSlot_formatted.
  - vm_compute. reflexivity.
  - split; [exact H1|exact H2].
Defined.

(** C7, as stated, fails when the first run is cut short: the user of the
    earlier entry is gone, the first run saves that entry, throws on the
    user's preferences and leaves the loop, and the second run finds the
    later entry still waiting and notifies it. *)
Lemma second_run_after_abort_not_noop :
  let w1 := snd (updateWaitlistForDate Sample.clock Sample.delivers Sample.day
                                       Sample.oneSlotOrphan) in
  let w2 := snd (updateWaitlistForDate Sample.clock Sample.delivers Sample.day w1) in
  w1.(events) = [WaitlistSaved 1; ConsoleError "Error updating waitlist:"]
  /\ Waitlist.status <$> w1.(db).(waitlists) !! 2 = Some Waitlist.waiting
  /\ w2 <> w1
  /\ drop (length w1.(events)) w2.(events)
     = [WaitlistSaved 2;
        SmsRequested {| to := "+15550002"; serviceName := "Haircut";
                        onDate := Sample.day; availableSlot := "10:00" |}]
  /\ Waitlist.status <$> w2.(db).(waitlists) !! 2 = Some Waitlist.notified.
Proof.
  cbv zeta. split; [now vm_compute|]. split; [now vm_compute|].
  split; [|split; now vm_compute].
  intros Heq. apply (f_equal events) in Heq. vm_compute in Heq. discriminate.
Qed.

Lemma reconciler_idempotent_witness :
  (let w1 := snd (updateWaitlistForDate Sample.clock Sample.delivers Sample.day
                                        Sample.oneSlot) in
   snd (updateWaitlistForDate Sample.clock Sample.delivers Sample.day w1) = w1)
  /\ snd (updateWaitlistForDate Sample.clock Sample.delivers Sample.day
                                Sample.nobody) = Sample.nobody.
Proof.
  split.
  - apply (proj1 (reconciler_idempotent Sample.clock Sample.delivers Sample.day
                                        Sample.oneSlot)).
    vm_compute. reflexivity.
  - apply (proj1 (proj2 (reconciler_idempotent Sample.clock Sample.delivers
                                               Sample.day Sample.nobody))).
    vm_compute. reflexivity.
Defined.

Lemma notification_failure_keeps_transition_witness :
  let entry := populateEntry Sample.oneSlot.(db) (1, Sample.first) in
  let after := processEntry Sample.clock Sample.rejects Sample.day
                            Sample.oneGapFormatted entry Sample.oneSlot in
  fst after = Ok tt
  /\ exists e, (snd after).(db).(waitlists) !! 1 = Some e
               /\ Waitlist.status e = Waitlist.notified
               /\ Waitlist.notifiedAt e = Some (Sample.clock 0).
Proof.
  destruct (notification_failure_keeps_transition
              Sample.clock Sample.rejects Sample.day Sample.oneGapFormatted
              (populateEntry Sample.oneSlot.(db) (1, Sample.first))
              Sample.haircut Sample.alice "10:00" [] Sample.first Sample.oneSlot)
    as (_ & Hok & Hstored & _).
  - reflexivity.
  - vm_compute. reflexivity.
  - reflexivity.
  - reflexivity.
  - split; [exact Hok|exact Hstored].
Defined.

Lemma announced_slot_by_preference_witness :
  let entry := populateEntry Sample.preferences.(db) (3, Sample.choosy) in
  exists evs,
    (snd (processEntry Sample.clock Sample.delivers Sample.day
                       [{| timeSlot := "10:00"; serviceDuration := 30 |}]
                       entry Sample.preferences)).(events)
    = [] ++ [WaitlistSaved 3;
             SmsRequested (smsRequestFor "+15550001" Sample.haircut Sample.day
                                         "10:30")]
         ++ evs.
Proof.
  destruct (announced_slot_by_preference
              Sample.clock Sample.delivers Sample.day
              [{| timeSlot := "10:00"; serviceDuration := 30 |}]
              (populateEntry Sample.preferences.(db) (3, Sample.choosy))
              Sample.haircut Sample.alice "+15550001"
              "09:00"
              ["09:30"; "10:30"; "11:00"; "11:30"; "12:00"; "12:30"; "13:00";
               "13:30"; "14:00"; "14:30"; "15:00"; "15:30"; "16:00"; "16:30";
               "17:00"; "17:30"]
              Sample.choosy Sample.preferences)
    as (slot & evs & Hev & Hfound & _).
  - reflexivity.
  - vm_compute. reflexivity.
  - reflexivity.
  - reflexivity.
  - reflexivity.
  - reflexivity.
  - assert (Hslot : slot = "10:30").
    { apply (Hfound ["10:00"] "10:30" []).
      - reflexivity.
      - apply includes_elem_of. vm_compute. reflexivity.
      - intros q Hq Hin. apply list_elem_of_singleton in Hq. subst q.
        apply includes_elem_of in Hin. vm_compute in Hin. discriminate. }
    subst slot. exists evs. exact Hev.
Defined.

Lemma reconciler_frame_witness :
  let w' := snd (updateWaitlistForDate Sample.clock Sample.rejects Sample.day
                                       Sample.mixed) in
  w'.(db).(waitlists) !! 4 = Some Sample.settled.
Proof.
  pose proof (reconciler_frame Sample.clock Sample.rejects Sample.day
                               Sample.mixed) as Hframe.
  cbv zeta in Hframe. destruct Hframe as (_ & _ & _ & _ & Hother).
  apply (Hother 4 Sample.settled).
  - reflexivity.
  - discriminate.
Defined.

(* ================================================================== *)
(** ** Further properties of the availability checker *)
(* ================================================================== *)

Lemma minutesOf_Some (slot : string) (start : Z) :
  minutesOf slot = Some start
  <-> exists h m, hoursMinutes slot = (JS.Int h, JS.Int m) /\ start = h * 60 + m.
Proof.
  unfold minutesOf. destruct (hoursMinutes slot) as [[h|] [m|]]; split.
  - intros [= <-]. now exists h, m.
  - intros (h' & m' & [= -> ->] & ->). reflexivity.
  - discriminate.
  - intros (h' & m' & Heq & _). discriminate.
  - discriminate.
  - intros (h' & m' & Heq & _). discriminate.
  - discriminate.
  - intros (h' & m' & Heq & _). discriminate.
Qed.





Lemma noConflict_app (s e : JS.num) (l1 l2 : list FormattedAppointment) :
  noConflict s e (l1 ++ l2) = noConflict s e l1 && noConflict s e l2.
Proof.
  induction l1 as [|a l1 IH]; [reflexivity|].
  cbn [app noConflict]. destruct (hoursMinutes (timeSlot a)) as [ah am].
  match goal with |- context [if ?c then _ else _] => destruct c end;
    [reflexivity|exact IH].
Qed.

Lemma noConflict_perm (s e : JS.num) (l l' : list FormattedAppointment) :
  Permutation l l' -> noConflict s e l = noConflict s e l'.
Proof.
  induction 1 as [|a l l' _ IH|a b l|l l' l'' _ IH1 _ IH2].
  - reflexivity.
  - cbn [noConflict]. now rewrite IH.
  - cbn [noConflict].
    destruct (hoursMinutes (timeSlot a)) as [ah am].
    destruct (hoursMinutes (timeSlot b)) as [bh bm].
    repeat match goal with |- context [if ?c then _ else _] => destruct c end;
      reflexivity.
  - congruence.
Qed.

Lemma isTimeSlotAvailable_app
      (slot : string) (dur : Z) (l1 l2 : list FormattedAppointment) :
  isTimeSlotAvailable slot (l1 ++ l2) dur
  = isTimeSlotAvailable slot l1 dur && isTimeSlotAvailable slot l2 dur.
Proof.
  unfold isTimeSlotAvailable. destruct (hoursMinutes slot) as [hours minutes].
  match goal with |- context [if ?c then _ else _] => destruct c end.
  - reflexivity.
  - apply noConflict_app.
Qed.


(** X2. The answer of the checker against two lists of bookings put
    together is the conjunction of its answers against each, so more
    bookings never make a slot available; and the answer does not depend
    on the order in which the bookings are listed. *)
Theorem checker_conjunctive_and_order_free
        (slot : string) (dur : Z) (l1 l2 : list FormattedAppointment) :
  isTimeSlotAvailable slot (l1 ++ l2) dur
  = isTimeSlotAvailable slot l1 dur && isTimeSlotAvailable slot l2 dur
  /\ (Permutation l1 l2 ->
      isTimeSlotAvailable slot l1 dur = isTimeSlotAvailable slot l2 dur).
Proof.
  split; [apply isTimeSlotAvailable_app|].
  unfold isTimeSlotAvailable. destruct (hoursMinutes slot) as [hours minutes].
  match goal with |- context [if ?c then _ else _] => destruct c end.
  - reflexivity.
  - apply noConflict_perm.
Qed.

Lemma checker_conjunctive_and_order_free_witness :
  isTimeSlotAvailable "10:00"
    [{| timeSlot := "10:30"; serviceDuration := 450 |};
     {| timeSlot := "09:00"; serviceDuration := 60 |}] 30
  = isTimeSlotAvailable "10:00"
      [{| timeSlot := "09:00"; serviceDuration := 60 |};
       {| timeSlot := "10:30"; serviceDuration := 450 |}] 30.
Proof.
  apply (proj2 (checker_conjunctive_and_order_free "10:00" 30 _ _)).
  apply perm_swap.
Defined.

(** X5. A candidate without a colon whose single field is an hour at or
    after opening is reported available for every duration and against
    every list of bookings: its minutes are [undefined], start and end are
    NaN, and every comparison with NaN is false. *)
Theorem slot_without_minutes_always_available
        (slot : string) (h : Z) (apps : list FormattedAppointment) (dur : Z) :
  noMinuteField slot ->
  JS.Number slot = JS.Int h ->
  BUSINESS_HOURS.(start) <= h ->
  isTimeSlotAvailable slot apps dur = true.
Proof.
  unfold noMinuteField. intros Hsplit Hnum Hh.
  unfold isTimeSlotAvailable, hoursMinutes. rewrite Hsplit.
  cbn [map JS.at_ nth]. rewrite Hnum. cbn [JS.mul JS.add JS.gt JS.lt orb].
  change (start BUSINESS_HOURS) with 9 in Hh |- *.
  replace (h <? 9) with false by (symmetry; apply Z.ltb_ge; lia).
  induction apps as [|a apps IH]; [reflexivity|].
  cbn [noConflict]. destruct (hoursMinutes (timeSlot a)) as [[ah|] [am|]];
    exact IH.
Qed.

Lemma slot_without_minutes_always_available_witness :
  isTimeSlotAvailable "10" [{| timeSlot := "10:00"; serviceDuration := 30 |}] 30
  = true.
Proof.
  apply (slot_without_minutes_always_available "10" 10).
  - reflexivity.
  - reflexivity.
  - simpl. lia.
Defined.

(** X6. A booking stored with a time slot without a colon blocks nothing:
    the checker answers as if the booking were not there. *)
Theorem booking_without_minutes_ignored
        (slot : string) (a : FormattedAppointment)
        (apps : list FormattedAppointment) (dur : Z) :
  noMinuteField a.(timeSlot) ->
  isTimeSlotAvailable slot (a :: apps) dur = isTimeSlotAvailable slot apps dur.
Proof.
  unfold noMinuteField. intros Hsplit.
  unfold isTimeSlotAvailable. destruct (hoursMinutes slot) as [hours minutes].
  match goal with |- context [if ?c then _ else _] => destruct c end;
    [reflexivity|].
  cbn [noConflict]. unfold hoursMinutes at 1. rewrite Hsplit.
  cbn [map JS.at_ nth].
  destruct (JS.Number (timeSlot a)) as [ah|];
    destruct (hours * 60 + minutes)%js as [s|]; reflexivity.
Qed.

Lemma booking_without_minutes_ignored_witness :
  isTimeSlotAvailable "10:00" [{| timeSlot := "10"; serviceDuration := 30 |}] 30
  = isTimeSlotAvailable "10:00" [] 30.
Proof.
  apply (booking_without_minutes_ignored "10:00"
           {| timeSlot := "10"; serviceDuration := 30 |} [] 30).
  reflexivity.
Defined.

(* ================================================================== *)
(** ** Further properties of the availability query *)
(* ================================================================== *)

Lemma grid_NoDup : List.NoDup (generateTimeSlots tt).
Proof.
  apply NoDup_ListNoDup. rewrite generateTimeSlots_value.
  apply (bool_decide_unpack _). vm_compute. exact I.
Qed.

(** Every slot of the grid has two integer fields: slot [k] starts [k]
    intervals after opening. *)
Lemma grid_minutesOf (slot : string) :
  In slot (generateTimeSlots tt) ->
  exists k : Z, 0 <= k < 18 /\ minutesOf slot = Some (540 + 30 * k).
Proof.
  rewrite generateTimeSlots_value. intros Hin.
  repeat (destruct Hin as [<-|Hin];
          [match goal with
           | |- exists k, _ /\ minutesOf ?s = _ =>
               let v := eval vm_compute in (minutesOf s) in
               match v with
               | Some ?n =>
                   let k := eval vm_compute in ((n - 540) / 30) in
                   exists k; split; [lia|vm_compute; reflexivity]
               end
           end|]).
  destruct Hin.
Qed.

Lemma filter_sublist_impl {A} (f g : A -> bool) (l : list A) :
  (forall x, f x = true -> g x = true) ->
  sublist (List.filter f l) (List.filter g l).
Proof.
  intros Himpl. induction l as [|x l IH]; simpl; [constructor|].
  destruct (f x) eqn:Hf.
  - rewrite (Himpl x Hf). now constructor.
  - destruct (g x); [now constructor|exact IH].
Qed.

(** X3. The availability query offers exactly the slots of the grid that
    the checker accepts, each once, so every offered slot passes the check
    of the booking route against the same bookings; and with more bookings
    the offer can only shrink, in the same order. *)
Theorem query_offers_what_checker_accepts
        (date : Z) (apps more : list FormattedAppointment) (dur : Z) :
  (forall slot,
      In slot (getAvailableTimeSlots date apps dur)
      <-> In slot (generateTimeSlots tt)
          /\ isTimeSlotAvailable slot apps dur = true)
  /\ List.NoDup (getAvailableTimeSlots date apps dur)
  /\ sublist (getAvailableTimeSlots date (apps ++ more) dur)
             (getAvailableTimeSlots date apps dur).
Proof.
  rewrite !getAvailableTimeSlots_filter. split; [|split].
  - intros slot. apply List.filter_In.
  - apply List.NoDup_filter, grid_NoDup.
  - apply filter_sublist_impl. intros slot.
    rewrite isTimeSlotAvailable_app.
    now intros [H _]%andb_true_iff.
Qed.



Lemma getAvailableTimeSlots_no_bookings (date dur : Z) :
  getAvailableTimeSlots date [] dur
  = List.filter (closesInTime dur) (generateTimeSlots tt).
Proof.
  rewrite getAvailableTimeSlots_filter. apply List.filter_ext_in.
  intros slot Hin. pose proof (grid_slot_without_bookings dur) as Hall.
  rewrite List.Forall_forall in Hall. now apply Hall.
Qed.

Lemma grid_by_index : generateTimeSlots tt = map slotAt gridIndices.
Proof. vm_compute. reflexivity. Qed.

Lemma closesInTime_minutesOf (dur : Z) (slot : string) (v : Z) :
  minutesOf slot = Some v ->
  closesInTime dur slot = (v + dur <=? 1080).
Proof.
  intros Hv. apply minutesOf_Some in Hv. destruct Hv as (h & m & Hhm & ->).
  unfold closesInTime, slotStart. rewrite Hhm.
  cbn [JS.add JS.mul JS.gt JS.lt].
  change (end_ BUSINESS_HOURS * 60) with 1080.
  destruct (Z.ltb_spec 1080 (h * 60 + m + dur)), (Z.leb_spec (h * 60 + m + dur) 1080);
    simpl; try reflexivity; lia.
Qed.

Lemma slotAt_minutesOf (k : Z) :
  In k gridIndices -> minutesOf (slotAt k) = Some (540 + 30 * k).
Proof.
  unfold gridIndices. intros Hin.
  repeat (destruct Hin as [<-|Hin]; [vm_compute; reflexivity|]).
  destruct Hin.
Qed.

Lemma gridIndices_lookup (i : nat) (k : Z) :
  gridIndices !! i = Some k -> k = Z.of_nat i /\ (i < 18)%nat.
Proof.
  unfold gridIndices.
  do 18 (destruct i as [|i]; [intros [= <-]; split; [reflexivity|lia]|]).
  discriminate.
Qed.

(** A filter that accepts exactly the first [n] positions keeps the first
    [n] elements. *)
Lemma filter_prefix {A} (P : A -> bool) (l : list A) (n : nat) :
  (forall i x, l !! i = Some x -> P x = true <-> (i < n)%nat) ->
  List.filter P l = take n l.
Proof.
  revert n. induction l as [|x l IH]; intros n Hn.
  - now destruct n.
  - cbn [List.filter]. destruct n as [|n].
    + destruct (P x) eqn:Hx.
      * apply (Hn 0%nat x eq_refl) in Hx. lia.
      * rewrite (IH 0%nat); [reflexivity|].
        intros i y Hy. split; [|lia]. intros Hp.
        apply (Hn (S i) y Hy) in Hp. lia.
    + replace (P x) with true
        by (symmetry; apply (Hn 0%nat x eq_refl); lia).
      cbn [take]. f_equal. apply IH. intros i y Hy.
      rewrite (Hn (S i) y Hy). lia.
Qed.

(** X7. On a day without bookings the offer for a service of [dur] minutes
    is a prefix of the grid: its first (570 - dur) / 30 slots, all 18 when
    that is more and none when the service is longer than the nine hours
    the shop is open.  A service of at most 30 minutes can start at every
    slot; each 30 minutes more take away the last remaining slot. *)
Theorem offer_on_empty_day (date dur : Z) :
  getAvailableTimeSlots date [] dur
  = take (Z.to_nat (Z.min 18 ((570 - dur) / 30))) (generateTimeSlots tt).
Proof.
  rewrite getAvailableTimeSlots_no_bookings, grid_by_index.
  rewrite List.filter_map_swap.
  change (take ?n (map ?f ?l)) with (firstn n (map f l)).
  rewrite List.firstn_map. f_equal.
  apply filter_prefix. intros i k Hk.
  rewrite (closesInTime_minutesOf dur (slotAt k) (540 + 30 * k)).
  - apply gridIndices_lookup in Hk. destruct Hk as [-> Hi].
    pose proof (Z.mul_div_le (570 - dur) 30 ltac:(lia)) as Hlow.
    pose proof (Z.mul_succ_div_gt (570 - dur) 30 ltac:(lia)) as Hhigh.
    rewrite Z.leb_le. lia.
  - apply slotAt_minutesOf. apply list_elem_of_In.
    now apply (list_elem_of_lookup_2 _ i).
Qed.

(* ================================================================== *)
(** ** Business days *)
(* ================================================================== *)

Lemma sameDay_div (t t' : Z) :
  sameDay t t' = true -> t' / msPerDay = t / msPerDay.
Proof.
  unfold sameDay, endOfDay, startOfDay, msPerDay.
  intros [Hlo Hhi]%andb_true_iff.
  apply Z.leb_le in Hlo. apply Z.leb_le in Hhi.
  pose proof (Z.div_mod t 86400000 ltac:(lia)) as Ht.
  pose proof (Z.mod_pos_bound t 86400000 ltac:(lia)) as Hb.
  symmetry. apply (Z.div_unique t' 86400000 (t / 86400000)
                                (t' - 86400000 * (t / 86400000))); lia.
Qed.

(** X8. Whether a date is a business day depends on its calendar day
    only: every instant of the day range the queries use gets the answer
    of the date itself; the answer repeats every seven days; and an
    Invalid Date passes as a business day, since its [getDay()] is NaN,
    which is neither 0 nor 6. *)
Theorem isBusinessDay_by_calendar_day (t t' : Z) :
  (sameDay t t' = true ->
   isBusinessDay (JS.Int t') = isBusinessDay (JS.Int t))
  /\ isBusinessDay (JS.Int (t + 7 * msPerDay)) = isBusinessDay (JS.Int t)
  /\ isBusinessDay JS.NaN = true.
Proof.
  split; [|split].
  - intros Hday. unfold isBusinessDay, JS.getDay.
    change 86400000 with msPerDay. now rewrite (sameDay_div _ _ Hday).
  - unfold isBusinessDay, JS.getDay, msPerDay.
    rewrite Z.div_add by lia.
    replace (t / 86400000 + 7 + 4) with (t / 86400000 + 4 + 1 * 7) by lia.
    now rewrite Z_mod_plus_full.
  - reflexivity.
Qed.

Lemma isBusinessDay_by_calendar_day_witness :
  isBusinessDay (JS.Int (Sample.monday + 86399999))
  = isBusinessDay (JS.Int Sample.day).
Proof.
  apply (proj1 (isBusinessDay_by_calendar_day Sample.day
                                              (Sample.monday + 86399999))).
  vm_compute. reflexivity.
Defined.

(** X9. Of any seven consecutive days exactly five are business days:
    Saturday and Sunday are not, and no other day is excluded (the holiday
    logic is absent). *)
Theorem five_business_days_a_week (t : Z) :
  length (List.filter
            (fun k => isBusinessDay (JS.Int (t + k * msPerDay)))
            [0; 1; 2; 3; 4; 5; 6]) = 5%nat.
Proof.
  unfold isBusinessDay, JS.getDay, msPerDay. cbn [List.filter].
  rewrite !Z.div_add by lia.
  pose proof (Z.div_mod (t / 86400000 + 4) 7 ltac:(lia)) as Hx.
  pose proof (Z.mod_pos_bound (t / 86400000 + 4) 7 ltac:(lia)) as Hd.
  set (d := (t / 86400000 + 4) mod 7) in *.
  set (w := (t / 86400000 + 4) / 7) in *.
  repeat match goal with
         | |- context [(t / 86400000 + ?k + 4) mod 7] =>
             replace ((t / 86400000 + k + 4) mod 7) with ((d + k) mod 7)
               by (replace (t / 86400000 + k + 4) with (d + k + w * 7) by lia;
                   now rewrite Z_mod_plus_full)
         end.
  assert (Hcases : d = 0 \/ d = 1 \/ d = 2 \/ d = 3 \/ d = 4 \/ d = 5 \/ d = 6)
    by lia.
  clearbody d.
  repeat (destruct Hcases as [->|Hcases]); try subst d; reflexivity.
Qed.

(* ================================================================== *)
(** ** Further properties of the waitlist reconciler *)
(* ================================================================== *)

Section ReconcilerFurther.

Variable clock : nat -> Z.
Variable twilio : list Event -> SmsRequest -> TwilioResult.

Lemma appointments_resolved_or_not (l : list (Appointment.t * option Service.t)) :
  (forall x, In x l -> is_Some (snd x)) \/ (exists x, In x l /\ snd x = None).
Proof.
  induction l as [|[a o] l [IH|(x & Hin & Hx)]].
  - left. intros x [].
  - destruct o as [s|].
    + left. intros x [<-|Hin]; [now exists s|now apply IH].
    + right. exists (a, None). split; [now left|reflexivity].
  - right. exists x. split; [now right|exact Hx].
Qed.

Lemma mapM_formatAppointment_resolved (l : list (Appointment.t * option Service.t)) :
  (forall x, In x l -> is_Some (snd x)) ->
  exists fmt, forall w : World, mapM formatAppointment l w = (Ok fmt, w).
Proof.
  induction l as [|[a o] l IH]; intros Hall.
  - exists []. reflexivity.
  - destruct (Hall (a, o) (or_introl eq_refl)) as [s Hs]. simpl in Hs. subst o.
    destruct IH as [fmt Hfmt]; [intros x Hx; apply Hall; now right|].
    eexists. intros w. cbn [mapM]. unfold bind, formatAppointment, deref, ret, bind.
    simpl. now rewrite Hfmt.
Qed.

Lemma mapM_formatAppointment_dangling (l : list (Appointment.t * option Service.t)) :
  (exists x, In x l /\ snd x = None) ->
  forall w : World, mapM formatAppointment l w = (Throw TypeError, w).
Proof.
  intros (x & Hin & Hx) w. induction l as [|[a o] l IH]; [destruct Hin|].
  cbn [mapM]. unfold bind at 1. unfold formatAppointment at 1. cbn [fst snd].
  destruct o as [s|]; [|reflexivity].
  destruct Hin as [<-|Hin]; [discriminate Hx|].
  unfold deref, bind, ret. cbv beta iota. now rewrite (IH Hin).
Qed.

Lemma mapM_formatAppointment_outcome (l : list (Appointment.t * option Service.t)) :
  (exists fmt, forall w : World, mapM formatAppointment l w = (Ok fmt, w))
  \/ forall w : World, mapM formatAppointment l w = (Throw TypeError, w).
Proof.
  destruct (appointments_resolved_or_not l) as [Hall|Hex].
  - left. now apply mapM_formatAppointment_resolved.
  - right. now apply mapM_formatAppointment_dangling.
Qed.

Lemma processEntry_completes (date : Z) (fmt : list FormattedAppointment)
      (entry : PopulatedEntry) (w : World) :
  is_Some entry.(serviceDoc) -> is_Some entry.(userDoc) ->
  is_Some (w.(db).(waitlists) !! entry.(entryId)) ->
  fst (processEntry clock twilio date fmt entry w) = Ok tt.
Proof.
  intros [service Hs] [user Hu] [stored Hst].
  destruct (getAvailableTimeSlots date fmt (Service.duration service))
    as [|first rest] eqn:Hav.
  - now rewrite (processEntry_no_slot _ _ _ _ _ _ _ Hs Hav).
  - now rewrite (processEntry_notified _ _ _ _ _ _ _ _ _ _ _ Hs Hav Hst Hu).
Qed.

Lemma waitlistFrame_stored (ids : list Z) (w w' : World) (id : Z) :
  waitlistFrame ids w w' ->
  is_Some (w.(db).(waitlists) !! id) -> is_Some (w'.(db).(waitlists) !! id).
Proof.
  intros (_ & _ & _ & Hw) Hst.
  destruct (Hw id) as [->|(_ & e & e' & _ & -> & _)]; [exact Hst|now eexists].
Qed.

Lemma forOf_completes (date : Z) (fmt : list FormattedAppointment)
      (entries : list PopulatedEntry) (w : World) :
  (forall entry, In entry entries ->
                 is_Some entry.(serviceDoc) /\ is_Some entry.(userDoc)
                 /\ is_Some (w.(db).(waitlists) !! entry.(entryId))) ->
  fst (forOf entries (processEntry clock twilio date fmt) w) = Ok tt.
Proof.
  revert w. induction entries as [|entry entries IH]; intros w Hall; [reflexivity|].
  cbn [forOf]. unfold bind.
  destruct (Hall entry (or_introl eq_refl)) as (Hs & Hu & Hst).
  pose proof (processEntry_completes date fmt entry w Hs Hu Hst) as Hok.
  destruct (processEntry clock twilio date fmt entry w) as [r w1] eqn:Hstep.
  simpl in Hok. subst r.
  destruct (processEntry_inv _ _ _ _ _ _ _ _ Hstep) as (Hframe & _).
  apply IH. intros entry' Hin.
  destruct (Hall entry' (or_intror Hin)) as (Hs' & Hu' & Hst').
  split; [exact Hs'|]. split; [exact Hu'|].
  now apply (waitlistFrame_stored _ _ _ _ Hframe).
Qed.

(** An entry whose turns all find nothing open, or no service, is stored
    after the loop as it was before. *)
Lemma forOf_untouched (date : Z) (fmt : list FormattedAppointment)
      (entries : list PopulatedEntry) (id : Z) (w w' : World) (r : Result unit) :
  forOf entries (processEntry clock twilio date fmt) w = (r, w') ->
  (forall entry, In entry entries -> entry.(entryId) = id ->
                 nothingOpen date fmt entry \/ entry.(serviceDoc) = None) ->
  w'.(db).(waitlists) !! id = w.(db).(waitlists) !! id.
Proof.
  revert w. induction entries as [|entry entries IH]; intros w Hrun Hquiet.
  - now injection Hrun as <- <-.
  - cbn [forOf] in Hrun. unfold bind in Hrun.
    destruct (processEntry clock twilio date fmt entry w) as [r1 w1] eqn:Hstep.
    assert (Hsame : w1.(db).(waitlists) !! id = w.(db).(waitlists) !! id).
    { destruct (decide (entryId entry = id)) as [Heq|Hne].
      - destruct (Hquiet entry (or_introl eq_refl) Heq) as [(s & Hs & Hav)|Hs].
        + rewrite (processEntry_no_slot _ _ _ _ _ _ _ Hs Hav) in Hstep.
          now injection Hstep as <- <-.
        + rewrite (processEntry_no_service _ _ _ _ _ _ Hs) in Hstep.
          now injection Hstep as <- <-.
      - destruct (processEntry_inv _ _ _ _ _ _ _ _ Hstep) as ((_ & _ & _ & Hw) & _).
        destruct (Hw id) as [Heq|([Heq|[]] & _)]; [exact Heq|contradiction]. }
    destruct r1 as [[]|err].
    + rewrite <- Hsame. apply IH; [exact Hrun|].
      intros entry' Hin. apply Hquiet. now right.
    + injection Hrun as <- <-. exact Hsame.
Qed.

(** What a pass that can format the bookings of the day and finds the
    user and the service of every waiting entry does to the entries. *)
Lemma pass_settles (date : Z) (w : World) (fmt : list FormattedAppointment) :
  (forall w0, mapM formatAppointment (findAppointments w.(db) date) w0
              = (Ok fmt, w0)) ->
  (forall entry, In entry (findWaitlist w.(db) date) ->
                 is_Some entry.(userDoc) /\ is_Some entry.(serviceDoc)) ->
  fst (waitlistPass clock twilio date w) = Ok tt
  /\ forall id e service,
      w.(db).(waitlists) !! id = Some e ->
      waitingOn date e = true ->
      w.(db).(services) !! e.(Waitlist.serviceId) = Some service ->
      let w' := snd (updateWaitlistForDate clock twilio date w) in
      match getAvailableTimeSlots date fmt service.(Service.duration) with
      | [] => w'.(db).(waitlists) !! id = Some e
      | _ :: _ => notifiedIn w' id
      end.
Proof.
  intros Hfmt Hentries.
  assert (Hstored : forall entry, In entry (findWaitlist (db w) date) ->
            is_Some (serviceDoc entry) /\ is_Some (userDoc entry)
            /\ is_Some (waitlists (db w) !! entryId entry)).
  { intros entry Hin. destruct (Hentries entry Hin) as [Hu Hs].
    split; [exact Hs|]. split; [exact Hu|].
    apply findWaitlist_In in Hin. destruct Hin as (id & e & -> & He & _).
    now exists e. }
  assert (Hpass : waitlistPass clock twilio date w
                  = if (length (findWaitlist (db w) date) =? 0)%nat then (Ok tt, w)
                    else forOf (findWaitlist (db w) date)
                               (processEntry clock twilio date fmt) w).
  { rewrite waitlistPass_eq, Hfmt. reflexivity. }
  assert (Hok : fst (waitlistPass clock twilio date w) = Ok tt).
  { rewrite Hpass. destruct (_ =? _)%nat; [reflexivity|].
    now apply forOf_completes. }
  split; [exact Hok|].
  intros id e service He Hwait Hsvc w'.
  assert (Hin : In (populateEntry (db w) (id, e)) (findWaitlist (db w) date)).
  { apply findWaitlist_In. now exists id, e. }
  assert (Hnonempty : (length (findWaitlist (db w) date) =? 0)%nat = false).
  { destruct (findWaitlist (db w) date); [destruct Hin|reflexivity]. }
  rewrite Hnonempty in Hpass.
  unfold w'. rewrite updateWaitlistForDate_eq.
  destruct (waitlistPass clock twilio date w) as [r w1].
  simpl in Hok. subst r. cbn [snd].
  assert (Hrun : forOf (findWaitlist (db w) date)
                       (processEntry clock twilio date fmt) w = (Ok tt, w1))
    by (now symmetry).
  destruct (getAvailableTimeSlots date fmt (Service.duration service))
    as [|first rest] eqn:Hav.
  - rewrite (forOf_untouched _ _ _ id _ _ _ Hrun); [exact He|].
    intros entry Hentry Hid. left.
    apply findWaitlist_In in Hentry. destruct Hentry as (id' & e' & -> & He' & _).
    simpl in Hid. subst id'. assert (e' = e) as -> by congruence.
    exists service. now split.
  - destruct (forOf_processEntry_inv _ _ _ _ _ _ _ _ Hrun) as (_ & _ & Hdone).
    destruct (Hdone eq_refl _ Hin) as [(s & Hs & Hnone)|Hn]; [|exact Hn].
    simpl in Hs. assert (s = service) as -> by congruence. congruence.
Qed.

(** X10. When every reference of the day resolves, a pass goes through
    to its end and settles every waiting entry of the date: an entry whose
    service has an open slot, against the bookings of the day, ends
    notified, and an entry whose service has none is left exactly as it
    was. *)
Theorem pass_notifies_every_entry_with_open_slot (date : Z) (w : World) :
  referencesResolve w.(db) date ->
  exists fmt,
    (forall w0, mapM formatAppointment (findAppointments w.(db) date) w0
                = (Ok fmt, w0))
    /\ fst (waitlistPass clock twilio date w) = Ok tt
    /\ forall id e service,
        w.(db).(waitlists) !! id = Some e ->
        waitingOn date e = true ->
        w.(db).(services) !! e.(Waitlist.serviceId) = Some service ->
        let w' := snd (updateWaitlistForDate clock twilio date w) in
        match getAvailableTimeSlots date fmt service.(Service.duration) with
        | [] => w'.(db).(waitlists) !! id = Some e
        | _ :: _ => notifiedIn w' id
        end.
Proof.
  intros [Happs Hentries].
  destruct (mapM_formatAppointment_resolved _ Happs) as [fmt Hfmt].
  exists fmt. split; [exact Hfmt|].
  exact (pass_settles date w fmt Hfmt Hentries).
Qed.

(** X11. A deleted service stops a pass before it writes anything: when
    somebody waits for the date and the service of an active appointment
    of the day, or of the earliest waiting entry, is gone, the pass logs
    one error and leaves the store and the clock untouched, so no entry of
    the date is notified, however many slots are open. *)
Theorem deleted_service_stops_the_pass (date : Z) (w : World) :
  findWaitlist w.(db) date <> [] ->
  (exists x, In x (findAppointments w.(db) date) /\ snd x = None)
  \/ (exists entry rest, findWaitlist w.(db) date = entry :: rest
                         /\ entry.(serviceDoc) = None) ->
  updateWaitlistForDate clock twilio date w
  = (Ok tt, {| db := w.(db); ticks := w.(ticks);
               events := w.(events) ++ [ConsoleError "Error updating waitlist:"] |}).
Proof.
  intros Hne Hdangling.
  assert (Hthrow : waitlistPass clock twilio date w = (Throw TypeError, w)).
  { rewrite waitlistPass_eq.
    destruct (length (findWaitlist (db w) date) =? 0)%nat eqn:Hlen.
    { apply length_zero_nil in Hlen. contradiction. }
    destruct (mapM_formatAppointment_pure (findAppointments (db w) date))
      as [rf Hfmt].
    destruct Hdangling as [Happ|(entry & rest & Hentries & Hs)].
    - now rewrite (mapM_formatAppointment_dangling _ Happ).
    - rewrite Hfmt. destruct rf as [fmt|err].
      + rewrite Hentries. cbn [forOf]. unfold bind.
        now rewrite (processEntry_no_service _ _ _ _ _ _ Hs).
      + destruct (mapM_formatAppointment_outcome (findAppointments (db w) date))
          as [[fmt Hok]|Hthrows].
        * pose proof (Hfmt w) as Hw. rewrite (Hok w) in Hw. discriminate.
        * pose proof (Hfmt w) as Hw. rewrite (Hthrows w) in Hw.
          now injection Hw as <-. }
  rewrite updateWaitlistForDate_eq, Hthrow. reflexivity.
Qed.



Lemma firstPreferred_In (availableSlots preferred : list string) (selected : string) :
  In selected availableSlots ->
  In (firstPreferred availableSlots preferred selected) availableSlots.
Proof.
  intros Hsel. induction preferred as [|p preferred IH]; [exact Hsel|].
  cbn [firstPreferred]. destruct (JS.includes availableSlots p) eqn:Hp; [|exact IH].
  apply list_elem_of_In. now apply includes_elem_of.
Qed.

Lemma selectSlot_In (first : string) (rest preferred : list string) :
  In (selectSlot first (first :: rest) preferred) (first :: rest).
Proof.
  unfold selectSlot. destruct (0 <? length preferred)%nat; [|now left].
  apply firstPreferred_In. now left.
Qed.

Lemma savedIds_app (l1 l2 : list Event) :
  savedIds (l1 ++ l2) = savedIds l1 ++ savedIds l2.
Proof. apply flat_map_app. Qed.

Lemma smsRequests_app (l1 l2 : list Event) :
  smsRequests (l1 ++ l2) = smsRequests l1 ++ smsRequests l2.
Proof. apply flat_map_app. Qed.

Lemma afterSave_events (past : list Event) (user : User.t) (service : Service.t)
      (date : Z) (slot : string) :
  savedIds (afterSave twilio past user service date slot) = []
  /\ (length (smsRequests (afterSave twilio past user service date slot)) <= 1)%nat
  /\ forall req,
       In req (smsRequests (afterSave twilio past user service date slot)) ->
       user.(User.preferences).(User.smsNotifications) = true
       /\ exists phone, truthy user.(User.phone) = Some phone
                        /\ req = smsRequestFor phone service date slot.
Proof.
  unfold afterSave, smsTrace.
  destruct (User.smsNotifications _) eqn:Hsms.
  2:{ split; [reflexivity|]. split; [simpl; lia|]. intros req []. }
  destruct (truthy _) as [phone|].
  2:{ split; [reflexivity|]. split; [simpl; lia|]. intros req []. }
  destruct (twilio _ _); simpl; (split; [reflexivity|]; split; [lia|]);
    intros req [<-|[]]; (split; [reflexivity|]); now exists phone.
Qed.

Lemma handled_refl (date : Z) (fmt : list FormattedAppointment)
      (entries : list PopulatedEntry) (w : World) :
  handled date fmt entries [] [] w w.
Proof.
  split; [now rewrite app_nil_r|]. split; [apply sublist_nil_l|].
  split; [reflexivity|]. split; [simpl; lia|]. split; [simpl; lia|].
  intros req [].
Qed.

Lemma processEntry_handled (date : Z) (fmt : list FormattedAppointment)
      (entry : PopulatedEntry) (w w' : World) (r : Result unit) :
  is_Some (w.(db).(waitlists) !! entry.(entryId)) ->
  processEntry clock twilio date fmt entry w = (r, w') ->
  exists saved evs, handled date fmt [entry] saved evs w w'.
Proof.
  intros [stored Hst] Hrun.
  destruct (serviceDoc entry) as [service|] eqn:Hs.
  2:{ rewrite (processEntry_no_service _ _ _ _ _ _ Hs) in Hrun.
      injection Hrun as <- <-. exists [], []. apply handled_refl. }
  destruct (getAvailableTimeSlots date fmt (Service.duration service))
    as [|first rest] eqn:Hav.
  { rewrite (processEntry_no_slot _ _ _ _ _ _ _ Hs Hav) in Hrun.
    injection Hrun as <- <-. exists [], []. apply handled_refl. }
  destruct (userDoc entry) as [user|] eqn:Hu.
  - rewrite (processEntry_notified _ _ _ _ _ _ _ _ _ _ _ Hs Hav Hst Hu) in Hrun.
    injection Hrun as <- <-.
    destruct (afterSave_events (events w ++ [WaitlistSaved (entryId entry)])
                user service date
                (selectSlot first (first :: rest)
                   (Waitlist.preferredTimeSlots (doc entry))))
      as (Hsaved & Hcount & Hreqs).
    exists [entry], (WaitlistSaved (entryId entry)
                     :: afterSave twilio (events w ++ [WaitlistSaved (entryId entry)])
                          user service date
                          (selectSlot first (first :: rest)
                             (Waitlist.preferredTimeSlots (doc entry)))).
    split; [cbn [events]; now rewrite <- app_assoc|].
    split; [reflexivity|].
    split; [cbn [savedIds flat_map]; fold (savedIds
              (afterSave twilio (events w ++ [WaitlistSaved (entryId entry)])
                 user service date
                 (selectSlot first (first :: rest)
                    (Waitlist.preferredTimeSlots (doc entry)))));
            now rewrite Hsaved|].
    split; [cbn [ticks length]; lia|].
    split; [exact Hcount|].
    intros req Hreq. exists entry. split; [now left|].
    destruct (Hreqs req Hreq) as (Hsms & phone & Hphone & ->).
    exists service, user. repeat split; try assumption.
    cbn [availableSlot smsRequestFor]. rewrite Hav. apply selectSlot_In.
  - rewrite (processEntry_no_user _ _ _ _ _ _ _ _ _ _ Hs Hav Hst Hu) in Hrun.
    injection Hrun as <- <-. exists [entry], [WaitlistSaved (entryId entry)].
    split; [reflexivity|]. split; [reflexivity|]. split; [reflexivity|].
    split; [cbn [ticks length savedWorld]; lia|].
    split; [simpl; lia|]. intros req [].
Qed.

Lemma handled_trans (date : Z) (fmt : list FormattedAppointment)
      (entry : PopulatedEntry) (entries saved1 saved2 : list PopulatedEntry)
      (evs1 evs2 : list Event) (w1 w2 w3 : World) :
  handled date fmt [entry] saved1 evs1 w1 w2 ->
  handled date fmt entries saved2 evs2 w2 w3 ->
  handled date fmt (entry :: entries) (saved1 ++ saved2) (evs1 ++ evs2) w1 w3.
Proof.
  intros (He1 & Hsub1 & Hid1 & Ht1 & Hc1 & Hr1) (He2 & Hsub2 & Hid2 & Ht2 & Hc2 & Hr2).
  split; [rewrite He2, He1; now rewrite app_assoc|].
  split; [now apply (sublist_app saved1 [entry] saved2 entries)|].
  split; [rewrite savedIds_app, map_app; congruence|].
  split; [rewrite length_app; lia|].
  split; [rewrite smsRequests_app, !length_app; lia|].
  intros req Hin. rewrite smsRequests_app in Hin.
  apply in_app_or in Hin. destruct Hin as [Hin|Hin].
  - destruct (Hr1 req Hin) as (e & He & Ha). exists e. split; [|exact Ha].
    apply in_or_app. now left.
  - destruct (Hr2 req Hin) as (e & He & Ha). exists e. split; [|exact Ha].
    apply in_or_app. now right.
Qed.

Lemma forOf_handled (date : Z) (fmt : list FormattedAppointment)
      (entries : list PopulatedEntry) (w w' : World) (r : Result unit) :
  (forall entry, In entry entries ->
                 is_Some (w.(db).(waitlists) !! entry.(entryId))) ->
  forOf entries (processEntry clock twilio date fmt) w = (r, w') ->
  exists saved evs, handled date fmt entries saved evs w w'.
Proof.
  revert w. induction entries as [|entry entries IH]; intros w Hstored Hrun.
  - injection Hrun as <- <-. exists [], []. apply handled_refl.
  - cbn [forOf] in Hrun. unfold bind in Hrun.
    destruct (processEntry clock twilio date fmt entry w) as [r1 w1] eqn:Hstep.
    destruct (processEntry_handled date fmt entry w w1 r1
                (Hstored entry (or_introl eq_refl)) Hstep) as (saved1 & evs1 & H1).
    destruct (processEntry_inv _ _ _ _ _ _ _ _ Hstep) as (Hframe & _).
    destruct r1 as [[]|err].
    + destruct (IH w1) as (saved2 & evs2 & H2); [|exact Hrun|].
      * intros entry' Hin. apply (waitlistFrame_stored _ _ _ _ Hframe).
        apply Hstored. now right.
      * exists (saved1 ++ saved2), (evs1 ++ evs2).
        exact (handled_trans _ _ _ _ _ _ _ _ _ w1 _ H1 H2).
    + injection Hrun as <- <-. exists (saved1 ++ []), (evs1 ++ []).
      apply (handled_trans _ _ _ _ _ _ _ _ _ w1 _ H1). apply handled_refl.
Qed.

Lemma findWaitlist_stored (d : Db) (date : Z) (entry : PopulatedEntry) :
  In entry (findWaitlist d date) ->
  d.(waitlists) !! entry.(entryId) = Some entry.(doc)
  /\ waitingOn date entry.(doc) = true
  /\ entry.(userDoc) = d.(users) !! Waitlist.userId entry.(doc)
  /\ entry.(serviceDoc) = d.(services) !! Waitlist.serviceId entry.(doc).
Proof.
  intros (id & e & -> & He & Hw)%findWaitlist_In. now repeat split.
Qed.

Lemma handled_logged (date : Z) (fmt : list FormattedAppointment)
      (entries saved : list PopulatedEntry) (evs : list Event) (prefix : string)
      (w w' : World) :
  handled date fmt entries saved evs w w' ->
  handled date fmt entries saved (evs ++ [ConsoleError prefix]) w
          {| db := w'.(db); ticks := w'.(ticks);
             events := w'.(events) ++ [ConsoleError prefix] |}.
Proof.
  intros (He & Hsub & Hid & Ht & Hc & Hr).
  split; [cbn [events]; rewrite He; now rewrite app_assoc|].
  split; [exact Hsub|].
  split; [rewrite savedIds_app; simpl; now rewrite app_nil_r|].
  split; [exact Ht|].
  split; [rewrite smsRequests_app; simpl; now rewrite app_nil_r|].
  intros req Hin. rewrite smsRequests_app in Hin. simpl in Hin.
  rewrite app_nil_r in Hin. now apply Hr.
Qed.

(** What a pass did, read off the events it added. *)
Lemma updateWaitlistForDate_handled (date : Z) (w : World) :
  exists fmt saved evs,
    handled date fmt (findWaitlist w.(db) date) saved evs w
            (snd (updateWaitlistForDate clock twilio date w))
    /\ (smsRequests evs = []
        \/ forall w0, mapM formatAppointment (findAppointments w.(db) date) w0
                      = (Ok fmt, w0)).
Proof.
  rewrite updateWaitlistForDate_eq, waitlistPass_eq.
  destruct (length (findWaitlist (db w) date) =? 0)%nat.
  { exists [], [], []. split; [apply handled_refl|now left]. }
  destruct (mapM_formatAppointment_pure (findAppointments (db w) date))
    as [rf Hfmt].
  rewrite Hfmt. destruct rf as [fmt|err].
  - destruct (forOf (findWaitlist (db w) date)
                    (processEntry clock twilio date fmt) w) as [r w1] eqn:Hrun.
    destruct (forOf_handled date fmt (findWaitlist (db w) date) w w1 r)
      as (saved & evs & H); [|exact Hrun|].
    { intros entry Hin. apply findWaitlist_stored in Hin.
      destruct Hin as (Hst & _). now exists (doc entry). }
    destruct r as [[]|err].
    + exists fmt, saved, evs. split; [exact H|now right].
    + exists fmt, saved, (evs ++ [ConsoleError "Error updating waitlist:"]).
      split; [now apply handled_logged|now right].
  - exists [], [], ([] ++ [ConsoleError "Error updating waitlist:"]).
    split; [apply handled_logged, handled_refl|now left].
Qed.

Lemma handled_new_events (date : Z) (fmt : list FormattedAppointment)
      (entries saved : list PopulatedEntry) (evs : list Event) (w w' : World) :
  handled date fmt entries saved evs w w' ->
  drop (length w.(events)) w'.(events) = evs.
Proof. intros (He & _). rewrite He. apply drop_app_length. Qed.

Lemma savedIds_In (evs : list Event) (id : Z) :
  In id (savedIds evs) <-> In (WaitlistSaved id) evs.
Proof.
  unfold savedIds. rewrite in_flat_map. split.
  - intros (ev & Hin & Hid). destruct ev; simpl in Hid; try destruct Hid as [<-|[]];
      try destruct Hid. exact Hin.
  - intros Hin. exists (WaitlistSaved id). split; [exact Hin|now left].
Qed.

Lemma smsRequests_In (evs : list Event) (req : SmsRequest) :
  In req (smsRequests evs) <-> In (SmsRequested req) evs.
Proof.
  unfold smsRequests. rewrite in_flat_map. split.
  - intros (ev & Hin & Hid). destruct ev; simpl in Hid; try destruct Hid as [<-|[]];
      try destruct Hid. exact Hin.
  - intros Hin. exists (SmsRequested req). split; [exact Hin|now left].
Qed.

Lemma sublist_In {A} (l1 l2 : list A) (x : A) :
  sublist l1 l2 -> In x l1 -> In x l2.
Proof.
  intros Hsub Hin. apply list_elem_of_In. apply list_elem_of_In in Hin.
  now apply (elem_of_sublist l1).
Qed.

Lemma sublist_map {A B} (f : A -> B) (l1 l2 : list A) :
  sublist l1 l2 -> sublist (map f l1) (map f l2).
Proof. induction 1; simpl; now constructor. Qed.

Lemma sublist_StronglySorted {A} (R : A -> A -> Prop) (l1 l2 : list A) :
  sublist l1 l2 -> StronglySorted R l2 -> StronglySorted R l1.
Proof.
  induction 1 as [|x l1 l2 Hsub IH|x l1 l2 Hsub IH]; intros Hsorted.
  - constructor.
  - apply StronglySorted_inv in Hsorted. destruct Hsorted as [Hs Hall].
    constructor; [now apply IH|].
    rewrite List.Forall_forall in Hall |- *. intros y Hy.
    apply Hall. now apply (sublist_In l1).
  - apply StronglySorted_inv in Hsorted. destruct Hsorted as [Hs _].
    now apply IH.
Qed.

Lemma findWaitlist_sorted (d : Db) (date : Z) :
  StronglySorted createdInOrder (findWaitlist d date).
Proof.
  rewrite findWaitlist_eq.
  pose proof (sortByCreatedAt_sorted (waitingEntries d date)) as Hsorted.
  induction Hsorted as [|x l _ IH Hall]; [constructor|].
  cbn [map]. constructor; [exact IH|].
  rewrite List.Forall_forall in Hall |- *.
  intros y' (y & <- & Hy)%in_map_iff. exact (Hall y Hy).
Qed.

Lemma findWaitlist_NoDup (d : Db) (date : Z) :
  List.NoDup (map entryId (findWaitlist d date)).
Proof.
  rewrite findWaitlist_eq, map_map. cbn [entryId populateEntry].
  apply (Permutation_NoDup
           (l := map fst (waitingEntries d date))).
  - apply Permutation_map, Permutation_sym, sortByCreatedAt_perm.
  - apply NoDup_ListNoDup.
    eapply sublist_NoDup; [|apply sublist_map, filter_sublist].
    exact (NoDup_fst_map_to_list d.(waitlists)).
Qed.

(** X12. Every SMS a pass requests goes to the phone of the user of an
    entry that was waiting for the date and that the pass saved as
    notified; the user has SMS notifications switched on and a non-empty
    phone, and the message names the entry's service and the date of the
    pass.  No SMS goes to anybody else. *)
Theorem sms_goes_to_opted_in_waiting_users (date : Z) (w : World) (req : SmsRequest) :
  let w' := snd (updateWaitlistForDate clock twilio date w) in
  In (SmsRequested req) (drop (length w.(events)) w'.(events)) ->
  exists id e user service,
    w.(db).(waitlists) !! id = Some e
    /\ waitingOn date e = true
    /\ notifiedIn w' id
    /\ w.(db).(users) !! e.(Waitlist.userId) = Some user
    /\ user.(User.preferences).(User.smsNotifications) = true
    /\ truthy user.(User.phone) = Some req.(to)
    /\ w.(db).(services) !! e.(Waitlist.serviceId) = Some service
    /\ req.(serviceName) = service.(Service.name)
    /\ req.(onDate) = date.
Proof.
  intros w' Hin.
  destruct (updateWaitlistForDate_handled date w) as (fmt & saved & evs & H & _).
  pose proof (handled_new_events _ _ _ _ _ _ _ H) as Hnew.
  fold w' in H, Hnew. rewrite Hnew in Hin.
  destruct H as (He & Hsub & Hid & _ & _ & Hreq).
  apply smsRequests_In in Hin.
  destruct (Hreq req Hin)
    as (entry & Hsaved & service & user & Hs & Hu & Hsms & Hphone & Hname & Hdate & _).
  pose proof (sublist_In _ _ _ Hsub Hsaved) as Hentry.
  destruct (findWaitlist_stored _ _ _ Hentry) as (Hst & Hwait & Huser & Hsvc).
  exists (entryId entry), (doc entry), user, service.
  split; [exact Hst|]. split; [exact Hwait|]. split.
  { destruct (updateWaitlistForDate_saves clock twilio date w) as [evs' [Hev' Hs']].
    fold w' in Hev', Hs'.
    assert (evs' = evs) as -> by (rewrite He in Hev'; now apply app_inv_head in Hev').
    apply Hs'. apply savedIds_In. rewrite Hid. now apply in_map. }
  split; [congruence|]. split; [exact Hsms|]. split; [exact Hphone|].
  split; [congruence|]. now split.
Qed.


(** X14. The entries a pass saves form a subsequence of the waiting
    entries in ascending creation time, so they are saved earliest first
    and each at most once; every save costs two clock reads and nothing
    else reads the clock; and there are at most as many SMS requests as
    saves. *)
Theorem entries_saved_in_creation_order (date : Z) (w : World) :
  let w' := snd (updateWaitlistForDate clock twilio date w) in
  let new := drop (length w.(events)) w'.(events) in
  exists saved,
    sublist saved (findWaitlist w.(db) date)
    /\ savedIds new = map entryId saved
    /\ StronglySorted createdInOrder saved
    /\ List.NoDup (savedIds new)
    /\ w'.(ticks) = (w.(ticks) + 2 * length saved)%nat
    /\ (length (smsRequests new) <= length saved)%nat.
Proof.
  intros w' new.
  destruct (updateWaitlistForDate_handled date w) as (fmt & saved & evs & H & _).
  pose proof (handled_new_events _ _ _ _ _ _ _ H) as Hnew.
  fold w' in H, Hnew. fold new in Hnew. rewrite Hnew.
  destruct H as (He & Hsub & Hid & Ht & Hc & _).
  exists saved. split; [exact Hsub|]. split; [exact Hid|].
  split; [exact (sublist_StronglySorted _ _ _ Hsub (findWaitlist_sorted _ _))|].
  split; [|split; [exact Ht|exact Hc]].
  rewrite Hid. apply NoDup_ListNoDup.
  eapply sublist_NoDup; [|apply sublist_map, Hsub].
  apply NoDup_ListNoDup, findWaitlist_NoDup.
Qed.

End ReconcilerFurther.

Lemma oneSlot_references_resolve :
  referencesResolve Sample.oneSlot.(db) Sample.day.
Proof.
  split.
  - intros x Hx. vm_compute in Hx.
    destruct Hx as [<-|[<-|[]]]; eexists; reflexivity.
  - intros entry Hentry.
    rewrite (findWaitlist_two _ _ 1 2 Sample.first Sample.second
               oneSlot_exactly_two ltac:(vm_compute; reflexivity)) in Hentry.
    destruct Hentry as [<-|[<-|[]]]; split; eexists; reflexivity.
Qed.

Lemma pass_notifies_every_entry_with_open_slot_witness :
  notifiedIn (snd (updateWaitlistForDate Sample.clock Sample.rejects Sample.day
                                         Sample.oneSlot)) 2.
Proof.
  destruct (pass_notifies_every_entry_with_open_slot
              Sample.clock Sample.rejects Sample.day Sample.oneSlot
              oneSlot_references_resolve) as (fmt & Hfmt & _ & Hall).
  assert (Heq : fmt = Sample.oneGapFormatted).
  { pose proof (Hfmt Sample.oneSlot) as H1.
    rewrite oneSlot_formatted in H1. now injection H1 as <-. }
  subst fmt.
  exact (Hall 2 Sample.second Sample.haircut eq_refl eq_refl eq_refl).
Defined.

Lemma deleted_service_stops_the_pass_witness :
  updateWaitlistForDate Sample.clock Sample.delivers Sample.day
                        Sample.oneSlotUnserved
  = (Ok tt, {| db := Sample.oneSlotUnserved.(db); ticks := 0;
               events := [] ++ [ConsoleError "Error updating waitlist:"] |}).
Proof.
  apply (deleted_service_stops_the_pass Sample.clock Sample.delivers Sample.day
                                        Sample.oneSlotUnserved).
  - vm_compute. discriminate.
  - right. eexists _, _. split; vm_compute; reflexivity.
Defined.

Lemma sms_goes_to_opted_in_waiting_users_witness :
  exists id e user service,
    Sample.oneSlot.(db).(waitlists) !! id = Some e
    /\ waitingOn Sample.day e = true
    /\ notifiedIn (snd (updateWaitlistForDate Sample.clock Sample.delivers
                                              Sample.day Sample.oneSlot)) id
    /\ Sample.oneSlot.(db).(users) !! e.(Waitlist.userId) = Some user
    /\ user.(User.preferences).(User.smsNotifications) = true
    /\ truthy user.(User.phone) = Some "+15550002"
    /\ Sample.oneSlot.(db).(services) !! e.(Waitlist.serviceId) = Some service
    /\ "Haircut" = service.(Service.name)
    /\ Sample.day = Sample.day.
Proof.
  apply (sms_goes_to_opted_in_waiting_users
           Sample.clock Sample.delivers Sample.day Sample.oneSlot
           (smsRequestFor "+15550002" Sample.haircut Sample.day "10:00")).
  vm_compute. right. right. right. left. reflexivity.
Defined.


(* ================================================================== *)
(** ** The appointment routes *)
(* ================================================================== *)

Section RouteFacts.

Import Routes.

Variable clock : nat -> Z.
Variable twilio : list Event -> SmsRequest -> TwilioResult.
Variable DateParse : string -> JS.num.
Variable trim : string -> string.
Variable errorMessage : RouteError -> string.
Variable mintedId : nat -> Z.

(** What a pass leaves of the store. *)
Lemma pass_store (date : Z) (w : World) :
  let w' := snd (updateWaitlistForDate clock twilio date w) in
  fst (updateWaitlistForDate clock twilio date w) = Ok tt
  /\ w'.(db).(appointments) = w.(db).(appointments)
  /\ w'.(db).(services) = w.(db).(services)
  /\ w'.(db).(users) = w.(db).(users).
Proof.
  cbv zeta. split.
  - rewrite updateWaitlistForDate_eq.
    now destruct (waitlistPass clock twilio date w) as [[[]|err] w'].
  - destruct (updateWaitlistForDate_frame clock twilio date w)
      as (Ha & Hs & Hu & _).
    now repeat split.
Qed.

Lemma liftW_pass (date : Z) (s : Server) :
  liftW (updateWaitlistForDate clock twilio date) s
  = (Next tt, setWorld (snd (updateWaitlistForDate clock twilio date s.(world))) s).
Proof.
  unfold liftW.
  pose proof (pass_store date s.(world)) as [Hok _].
  destruct (updateWaitlistForDate clock twilio date (world s)) as [r w'].
  simpl in Hok. now subst r.
Qed.

(** The steps of a handler body. *)
Lemma readClock_run (s : Server) :
  readClock clock s
  = (Next (clock s.(world).(ticks)),
     setWorld {| db := s.(world).(db); ticks := S s.(world).(ticks);
                 events := s.(world).(events) |} s).
Proof. reflexivity. Qed.

Lemma touchAndSave_run (id : Z) (a : Appointment.t)
      (edit : AppointmentRest -> AppointmentRest) (s : Server) :
  exists s',
    touchAndSave clock id a edit s = (Next tt, s')
    /\ s'.(world).(db) = setAppointments (<[id := a]> s.(world).(db).(appointments))
                                         s.(world).(db)
    /\ s'.(world).(events) = s.(world).(events)
    /\ s'.(world).(ticks) = S (S s.(world).(ticks))
    /\ s'.(loyaltyPointsEarned) = s.(loyaltyPointsEarned)
    /\ s'.(loyaltyPoints) = s.(loyaltyPoints)
    /\ s'.(minted) = s.(minted)
    /\ s'.(outbox) = s.(outbox).
Proof.
  eexists. split; [reflexivity|]. cbn. now repeat split.
Qed.

Lemma touchAndSave_world (id : Z) (a : Appointment.t)
      (edit : AppointmentRest -> AppointmentRest) (s : Server) :
  exists s',
    touchAndSave clock id a edit s = (Next tt, s')
    /\ s'.(world)
       = {| db := setAppointments (<[id := a]> s.(world).(db).(appointments))
                                  s.(world).(db);
            ticks := S (S s.(world).(ticks));
            events := s.(world).(events) |}.
Proof. eexists. split; reflexivity. Qed.

Ltac step H := unfold bindR at 1 in H.

Lemma cancel_cases (user : ReqUser) (id : IdField) (s s' : Server) (r : Response) :
  cancelAppointment clock twilio errorMessage user id s = (r, s') ->
  (rejected r /\ storeUnchanged s s'
   /\ ((forall i, id = AnId i -> s.(world).(db).(appointments) !! i = None)
       \/ exists i a, id = AnId i
                      /\ s.(world).(db).(appointments) !! i = Some a
                      /\ (notAuthorized user a = true
                          \/ r.(status) = 400
                             /\ a.(Appointment.date) < clock s.(world).(ticks))))
  \/ exists i a,
      id = AnId i
      /\ s.(world).(db).(appointments) !! i = Some a
      /\ notAuthorized user a = false
      /\ clock s.(world).(ticks) <= a.(Appointment.date)
      /\ r.(status) = 200
      /\ s'.(world).(db).(appointments)
         = <[i := setStatus Appointment.cancelled a]> s.(world).(db).(appointments)
      /\ s'.(world).(db).(services) = s.(world).(db).(services)
      /\ s'.(world).(db).(users) = s.(world).(db).(users).
Proof.
  unfold cancelAppointment, handle. intros Hrun. step Hrun.
  destruct id as [| | |i];
    cbn [findById retR raise notFoundOrServerError answer respond] in Hrun.
  1-3: injection Hrun as <- <-; left;
       (split; [right; right; reflexivity|]);
       (split; [now repeat split|left; intros i [=]]).
  destruct (appointments (db (world s)) !! i) as [a|] eqn:Hst;
    cbn [option_map] in Hrun.
  2:{ injection Hrun as <- <-. left.
      split; [right; right; reflexivity|].
      split; [now repeat split|left; now intros i' [= <-]]. }
  destruct (notAuthorized user a) eqn:Hauth.
  { injection Hrun as <- <-. left.
    split; [right; left; reflexivity|].
    split; [now repeat split|]. right. exists i, a.
    split; [reflexivity|]. split; [exact Hst|]. now left. }
  step Hrun. rewrite readClock_run in Hrun.
  destruct (Z.ltb_spec (Appointment.date a) (clock (ticks (world s))))
    as [Hpast|Hfuture].
  { injection Hrun as <- <-. left.
    split; [left; reflexivity|].
    split; [now repeat split|]. right. exists i, a.
    split; [reflexivity|]. split; [exact Hst|]. right. now split. }
  step Hrun.
  match type of Hrun with context [touchAndSave clock ?i ?a ?e ?s0] =>
    destruct (touchAndSave_run i a e s0)
      as (s1 & Hsave & Hdb & _) end.
  rewrite Hsave in Hrun. step Hrun. rewrite liftW_pass in Hrun.
  injection Hrun as <- <-.
  right. exists i, a. split; [reflexivity|]. split; [exact Hst|].
  split; [exact Hauth|]. split; [exact Hfuture|]. split; [reflexivity|].
  cbn [world setWorld].
  match goal with |- context [updateWaitlistForDate clock twilio ?d ?w] =>
    destruct (pass_store d w) as (_ & Ha & Hs & Hu) end.
  rewrite Ha, Hs, Hu, Hdb. now repeat split.
Qed.

Lemma setWorld_same (s : Server) : setWorld s.(world) s = s.
Proof. now destruct s. Qed.

Lemma liftW_format (l : list (Appointment.t * option Service.t)) (s : Server) :
  (exists fmt, (forall w : World, mapM formatAppointment l w = (Ok fmt, w))
               /\ liftW (mapM formatAppointment l) s = (Next fmt, s))
  \/ liftW (mapM formatAppointment l) s = (Raised (Thrown TypeError), s).
Proof.
  unfold liftW.
  destruct (mapM_formatAppointment_outcome l) as [[fmt Hfmt]|Hfmt].
  - left. exists fmt. split; [exact Hfmt|].
    now rewrite Hfmt, setWorld_same.
  - right. now rewrite Hfmt, setWorld_same.
Qed.

Lemma storeUnchanged_refl (s : Server) : storeUnchanged s s.
Proof. now repeat split. Qed.



Ltac done400 Hrun := injection Hrun as <- <-; left;
  split; [left; reflexivity|now repeat split].
Ltac done404 Hrun := injection Hrun as <- <-; left;
  split; [right; right; reflexivity|now repeat split].
Ltac done403 Hrun := injection Hrun as <- <-; left;
  split; [right; left; reflexivity|now repeat split].
Ltac done500 Hrun := injection Hrun as <- <-; right; left;
  split; [reflexivity|now repeat split].

Lemma credit_run (bookingUser earned : Z) (s : Server) :
  exists s1,
    (if 0 <? earned then incLoyaltyPoints bookingUser earned else retR tt) s
    = (Next tt, s1)
    /\ s1.(world) = s.(world)
    /\ s1.(appointmentRest) = s.(appointmentRest)
    /\ s1.(minted) = s.(minted)
    /\ s1.(outbox) = s.(outbox).
Proof.
  destruct (0 <? earned); [|now exists s].
  unfold incLoyaltyPoints.
  destruct (users (db (world s)) !! bookingUser); eexists;
    (split; [reflexivity|now repeat split]).
Qed.

Lemma confirm_run (userId : Z) (user : User.t) (appointmentId : Z) (s : Server) :
  exists s1,
    confirm userId user appointmentId s = (Next tt, s1)
    /\ s1.(world) = s.(world)
    /\ s1.(appointmentRest) = s.(appointmentRest)
    /\ s1.(loyaltyPoints) = s.(loyaltyPoints)
    /\ s1.(minted) = s.(minted).
Proof.
  unfold confirm, bindR.
  destruct (User.emailNotifications (User.preferences user));
    destruct (User.smsNotifications (User.preferences user));
    cbn [send retR]; try destruct (truthy (User.phone user));
    cbn [send retR]; eexists; (split; [reflexivity|now repeat split]).
Qed.

Lemma create_cases (user : ReqUser) (body : CreateBody.t) (s s' : Server)
      (r : Response) :
  createAppointment clock twilio DateParse trim errorMessage mintedId
                    user body s = (r, s') ->
  (rejected r /\ storeUnchanged s s')
  \/ (r.(status) = 500 /\ storeUnchanged s s')
  \/ exists serviceId service requestedDate fmt slot bookingUser,
      body.(CreateBody.serviceId) = AnId serviceId
      /\ s.(world).(db).(services) !! serviceId = Some service
      /\ newDate DateParse body.(CreateBody.date) = JS.Int requestedDate
      /\ (forall w, mapM formatAppointment
                         (findAppointments s.(world).(db) requestedDate) w
                    = (Ok fmt, w))
      /\ body.(CreateBody.timeSlot) = Some slot
      /\ isTimeSlotAvailable slot fmt service.(Service.duration) = true
      /\ (String.eqb user.(role) "admin" = false -> bookingUser = user.(id))
      /\ s'.(world).(db).(appointments)
         = <[mintedId s.(minted) :=
               {| Appointment.userId := bookingUser;
                  Appointment.serviceId := serviceId;
                  Appointment.date := requestedDate;
                  Appointment.timeSlot := slot;
                  Appointment.status := Appointment.confirmed |}]>
             s.(world).(db).(appointments)
      /\ s'.(world).(db).(services) = s.(world).(db).(services)
      /\ s'.(world).(db).(users) = s.(world).(db).(users)
      /\ (r = {| status := 200;
                 body := AppointmentJson (mintedId s.(minted))
                           {| Appointment.userId := bookingUser;
                              Appointment.serviceId := serviceId;
                              Appointment.date := requestedDate;
                              Appointment.timeSlot := slot;
                              Appointment.status := Appointment.confirmed |} |}
          /\ s'.(world)
             = snd (updateWaitlistForDate clock twilio requestedDate
                      {| db := setAppointments
                                 (<[mintedId s.(minted) :=
                                      {| Appointment.userId := bookingUser;
                                         Appointment.serviceId := serviceId;
                                         Appointment.date := requestedDate;
                                         Appointment.timeSlot := slot;
                                         Appointment.status :=
                                           Appointment.confirmed |}]>
                                    s.(world).(db).(appointments))
                                 s.(world).(db);
                         ticks := S (S (S (S s.(world).(ticks))));
                         events := s.(world).(events) |})
          \/ r.(status) = 500
             /\ s.(world).(db).(users) !! bookingUser = None).
Proof.
  unfold createAppointment. intros Hrun.
  destruct (checkField _ _ ++ _) as [|e errors].
  2:{ unfold answer in Hrun. done400 Hrun. }
  unfold handle in Hrun. cbv zeta in Hrun. step Hrun.
  destruct (CreateBody.serviceId body) as [| | |serviceId] eqn:Hsid;
    cbn [findById retR raise serverError answer respond] in Hrun.
  1:{ done404 Hrun. }
  1-2: done500 Hrun.
  destruct (services (db (world s)) !! serviceId) as [service|] eqn:Hsvc;
    cbn [option_map] in Hrun.
  2:{ done404 Hrun. }
  step Hrun.
  set (forOther := (role user =? "admin")%string && given (CreateBody.userId body)) in *.
  assert (Hblock :
    forall k : Route unit,
      k = (if forOther
           then other <~ findById users (CreateBody.userId body);;
                match other with
                | Some _ => retR ()
                | None => respond 404 (Message "User not found")
                end
           else retR ()) ->
      k s = (Responded {| status := 404; body := Message "User not found" |}, s)
      \/ k s = (Raised CastError, s)
      \/ k s = (Next tt, s)
         /\ exists bookingUser,
             (if forOther then CreateBody.userId body else AnId (id user))
             = AnId bookingUser
             /\ ((role user =? "admin")%string = false -> bookingUser = id user)).
  { intros k ->. destruct forOther eqn:Hfor.
    - unfold bindR.
      destruct (CreateBody.userId body) as [| | |u]; cbn [findById retR raise];
        try discriminate; try (right; left; reflexivity).
      + apply andb_true_iff in Hfor as [_ Hg]. discriminate.
      + destruct (users (db (world s)) !! u); cbn [option_map].
        * right. right. split; [reflexivity|]. exists u. split; [reflexivity|].
          apply andb_true_iff in Hfor as [Hadm _]. congruence.
        * left. reflexivity.
    - right. right. split; [reflexivity|]. exists (id user). now split. }
  destruct (Hblock _ eq_refl) as [Hk|[Hk|[Hk (bookingUser & Hbook & Hself)]]];
    rewrite Hk in Hrun; clear Hk Hblock.
  { done404 Hrun. }
  { unfold serverError, answer in Hrun. done500 Hrun. }
  destruct (newDate DateParse (CreateBody.date body)) as [requestedDate|] eqn:Hdate.
  2:{ unfold respond in Hrun. done400 Hrun. }
  step Hrun. rewrite readClock_run in Hrun.
  destruct (requestedDate <? startOfDay (clock (ticks (world s)))).
  { unfold respond in Hrun. done400 Hrun. }
  step Hrun. unfold getDbR, liftW at 1, getDb in Hrun.
  cbn [world setWorld db] in Hrun. step Hrun.
  match type of Hrun with context [liftW (mapM formatAppointment ?l) ?s0] =>
    destruct (liftW_format l s0) as [(fmt & Hfmt & Hf)|Hf] end;
    rewrite Hf in Hrun; clear Hf.
  2:{ unfold serverError, answer in Hrun. done500 Hrun. }
  step Hrun.
  destruct (CreateBody.timeSlot body) as [slot|] eqn:Hslot;
    cbn [derefR retR raise] in Hrun.
  2:{ unfold serverError, answer in Hrun. done500 Hrun. }
  destruct (isTimeSlotAvailable slot fmt (Service.duration service)) eqn:Hav;
    cbn [negb] in Hrun.
  2:{ unfold respond in Hrun. done400 Hrun. }
  step Hrun. unfold newObjectId in Hrun.
  cbn [world setWorld db minted appointmentRest loyaltyPoints
       loyaltyPointsEarned outbox] in Hrun.
  step Hrun. rewrite readClock_run in Hrun.
  step Hrun. rewrite readClock_run in Hrun.
  step Hrun. rewrite Hbook in Hrun. cbn [validId retR] in Hrun.
  step Hrun. rewrite readClock_run in Hrun.
  step Hrun. unfold writeAppointment in Hrun.
  cbn [world setWorld db minted appointmentRest loyaltyPoints
       loyaltyPointsEarned outbox ticks events] in Hrun.
  step Hrun. unfold earnedBy in Hrun.
  cbn [world setWorld db minted appointmentRest loyaltyPoints
       loyaltyPointsEarned outbox ticks events] in Hrun.
  step Hrun.
  match type of Hrun with
    context [(if 0 <? ?e then incLoyaltyPoints ?u ?e else retR tt) ?s0] =>
      destruct (credit_run u e s0) as (s2 & Hcredit & Hw2 & _)
  end.
  rewrite Hcredit in Hrun. step Hrun. cbn [world] in Hw2.
  assert (Happs : appointments (db (world s2))
                  = <[mintedId (minted s):=
                        {| Appointment.userId := bookingUser;
                           Appointment.serviceId := serviceId;
                           Appointment.date := requestedDate;
                           Appointment.timeSlot := slot;
                           Appointment.status := Appointment.confirmed |}]>
                      (appointments (db (world s)))) by now rewrite Hw2.
  assert (Hsvcs : services (db (world s2)) = services (db (world s)))
    by now rewrite Hw2.
  assert (Husers : users (db (world s2)) = users (db (world s)))
    by now rewrite Hw2.
  clear Hcredit.
  right. right.
  exists serviceId, service, requestedDate, fmt, slot, bookingUser.
  split; [reflexivity|]. split; [exact Hsvc|]. split; [reflexivity|].
  split; [exact Hfmt|]. split; [reflexivity|]. split; [exact Hav|].
  split; [exact Hself|].
  rewrite <- Husers.
  step Hrun.
  destruct (users (db (world s2)) !! bookingUser) as [booker|] eqn:Hbooker;
    cbn [option_map] in Hrun; step Hrun; cbn [derefR retR raise] in Hrun.
  2:{ unfold serverError, answer in Hrun. injection Hrun as <- <-.
      cbn [logError setWorld world consoleError emit snd db status].
      rewrite Happs, Hsvcs. split; [reflexivity|]. split; [reflexivity|].
      split; [reflexivity|]. right. now split. }
  step Hrun. cbn [snd] in Hrun.
  destruct (confirm_run bookingUser booker (mintedId (minted s)) s2)
    as (s3 & Hconfirm & Hw3 & _).
  rewrite Hconfirm in Hrun. rewrite liftW_pass in Hrun.
  unfold respond in Hrun. injection Hrun as <- <-.
  cbn [world setWorld status].
  destruct (pass_store requestedDate (world s3)) as (_ & Ha & Hs & Hu).
  rewrite Ha, Hs, Hu, Hw3, Happs, Hsvcs.
  split; [reflexivity|]. split; [reflexivity|]. split; [reflexivity|].
  left. split; [reflexivity|]. now rewrite Hw2.
Qed.


Lemma update_cases (user : ReqUser) (id : IdField) (body : UpdateBody.t)
      (s s' : Server) (r : Response) :
  updateAppointment clock twilio trim errorMessage user id body s = (r, s') ->
  (rejected r /\ storeUnchanged s s'
   /\ (statusOf body.(UpdateBody.status) = None
       \/ (forall i, id = AnId i -> s.(world).(db).(appointments) !! i = None)
       \/ exists i a, id = AnId i
                      /\ s.(world).(db).(appointments) !! i = Some a
                      /\ notAuthorized user a = true))
  \/ exists i a st,
      id = AnId i
      /\ s.(world).(db).(appointments) !! i = Some a
      /\ notAuthorized user a = false
      /\ statusOf body.(UpdateBody.status) = Some st
      /\ r = {| status := 200; body := AppointmentJson i (setStatus st a) |}
      /\ s'.(world).(db).(appointments)
         = <[i := setStatus st a]> s.(world).(db).(appointments)
      /\ s'.(world).(db).(services) = s.(world).(db).(services)
      /\ s'.(world).(db).(users) = s.(world).(db).(users).
Proof.
  unfold updateAppointment, validStatus. intros Hrun.
  destruct (statusOf (UpdateBody.status body)) as [st|] eqn:Hst;
    cbn [checkField] in Hrun.
  2:{ injection Hrun as <- <-. left. split; [now left|].
      split; [apply storeUnchanged_refl|now left]. }
  unfold handle in Hrun. step Hrun.
  destruct id as [| | |i];
    cbn [findById retR raise notFoundOrServerError answer respond] in Hrun.
  1-3: injection Hrun as <- <-; left;
       (split; [right; right; reflexivity|]);
       (split; [now repeat split|right; left; intros i [=]]).
  destruct (appointments (db (world s)) !! i) as [a|] eqn:Hstored;
    cbn [option_map] in Hrun.
  2:{ injection Hrun as <- <-. left. split; [right; right; reflexivity|].
      split; [apply storeUnchanged_refl|].
      right. left. now intros i' [= <-]. }
  destruct (notAuthorized user a) eqn:Hauth.
  { injection Hrun as <- <-. left. split; [right; left; reflexivity|].
    split; [apply storeUnchanged_refl|].
    right. right. now exists i, a. }
  step Hrun. cbn [retR] in Hrun. step Hrun.
  match type of Hrun with context [touchAndSave clock ?i ?a ?e ?s0] =>
    destruct (touchAndSave_run i a e s0) as (s1 & Hsave & Hdb & _) end.
  rewrite Hsave in Hrun. step Hrun.
  assert (Hpass : exists s2,
    (if isCancelled st
     then liftW (updateWaitlistForDate clock twilio
                   (Appointment.date (setStatus st a)))
     else retR tt) s1 = (Next tt, s2)
    /\ appointments (db (world s2)) = appointments (db (world s1))
    /\ services (db (world s2)) = services (db (world s1))
    /\ users (db (world s2)) = users (db (world s1))).
  { destruct (isCancelled st).
    - rewrite liftW_pass. eexists. split; [reflexivity|]. cbn [world setWorld].
      match goal with |- context [updateWaitlistForDate clock twilio ?d ?w] =>
        destruct (pass_store d w) as (_ & Ha & Hs & Hu) end.
      now rewrite Ha, Hs, Hu.
    - exists s1. now repeat split. }
  destruct Hpass as (s2 & Hpass & Ha & Hs & Hu). rewrite Hpass in Hrun.
  unfold respond in Hrun. injection Hrun as <- <-.
  right. exists i, a, st. split; [reflexivity|]. split; [exact Hstored|].
  split; [exact Hauth|]. split; [reflexivity|]. split; [reflexivity|].
  rewrite Ha, Hs, Hu, Hdb. now repeat split.
Qed.


Lemma reschedule_cases (user : ReqUser) (id : IdField) (body : RescheduleBody.t)
      (s s' : Server) (r : Response) :
  rescheduleAppointment clock twilio DateParse errorMessage user id body s
  = (r, s') ->
  (rejected r /\ storeUnchanged s s')
  \/ (r.(status) = 500 /\ storeUnchanged s s')
  \/ exists i a service requestedDate fmt slot,
      id = AnId i
      /\ s.(world).(db).(appointments) !! i = Some a
      /\ notAuthorized user a = false
      /\ s.(world).(db).(services) !! a.(Appointment.serviceId) = Some service
      /\ newDate DateParse body.(RescheduleBody.date) = JS.Int requestedDate
      /\ (forall w, mapM formatAppointment
                         (findOtherAppointments s.(world).(db) i requestedDate) w
                    = (Ok fmt, w))
      /\ body.(RescheduleBody.timeSlot) = Some slot
      /\ isTimeSlotAvailable slot fmt service.(Service.duration) = true
      /\ s'.(world).(db).(appointments)
         = <[i := setDateAndSlot requestedDate slot a]>
             s.(world).(db).(appointments)
      /\ s'.(world).(db).(services) = s.(world).(db).(services)
      /\ s'.(world).(db).(users) = s.(world).(db).(users)
      /\ (r.(status) = 200
          \/ r.(status) = 500
             /\ s.(world).(db).(users) !! a.(Appointment.userId) = None).
Proof.
  unfold rescheduleAppointment. intros Hrun.
  destruct (checkField _ _ ++ _) as [|e errors].
  2:{ unfold answer in Hrun. done400 Hrun. }
  unfold handle in Hrun. step Hrun.
  destruct id as [| | |i];
    cbn [findById retR raise notFoundOrServerError answer respond] in Hrun.
  1-3: done404 Hrun.
  destruct (appointments (db (world s)) !! i) as [a|] eqn:Hst;
    cbn [option_map] in Hrun.
  2:{ done404 Hrun. }
  step Hrun. unfold getDbR at 1, liftW at 1, getDb in Hrun.
  rewrite setWorld_same in Hrun.
  destruct (notAuthorized user a) eqn:Hauth.
  { done403 Hrun. }
  destruct (newDate DateParse (RescheduleBody.date body))
    as [requestedDate|] eqn:Hdate.
  2:{ unfold respond in Hrun. done400 Hrun. }
  step Hrun. rewrite readClock_run in Hrun.
  destruct (requestedDate <? startOfDay (clock (ticks (world s)))).
  { unfold respond in Hrun. done400 Hrun. }
  step Hrun. unfold getDbR, liftW at 1, getDb in Hrun.
  cbn [world setWorld db] in Hrun. step Hrun.
  match type of Hrun with context [liftW (mapM formatAppointment ?l) ?s0] =>
    destruct (liftW_format l s0) as [(fmt & Hfmt & Hf)|Hf] end;
    rewrite Hf in Hrun; clear Hf.
  2:{ unfold notFoundOrServerError, answer in Hrun. done500 Hrun. }
  step Hrun.
  destruct (services (db (world s)) !! Appointment.serviceId a)
    as [service|] eqn:Hsvc; cbn [derefR retR raise] in Hrun.
  2:{ unfold notFoundOrServerError, answer in Hrun. done500 Hrun. }
  step Hrun.
  destruct (RescheduleBody.timeSlot body) as [slot|] eqn:Hslot;
    cbn [derefR retR raise] in Hrun.
  2:{ unfold notFoundOrServerError, answer in Hrun. done500 Hrun. }
  destruct (isTimeSlotAvailable slot fmt (Service.duration service)) eqn:Hav;
    cbn [negb] in Hrun.
  2:{ unfold respond in Hrun. done400 Hrun. }
  step Hrun.
  match type of Hrun with context [touchAndSave clock ?i ?a ?e ?s0] =>
    destruct (touchAndSave_run i a e s0) as (s1 & Hsave & Hdb & _) end.
  rewrite Hsave in Hrun. cbn [world setWorld db] in Hdb.
  assert (Happs : appointments (db (world s1))
                  = <[i := setDateAndSlot requestedDate slot a]>
                      (appointments (db (world s)))) by now rewrite Hdb.
  assert (Hsvcs : services (db (world s1)) = services (db (world s)))
    by now rewrite Hdb.
  assert (Husers : users (db (world s1)) = users (db (world s)))
    by now rewrite Hdb.
  clear Hsave Hdb.
  right. right. exists i, a, service, requestedDate, fmt, slot.
  split; [reflexivity|]. split; [exact Hst|]. split; [exact Hauth|].
  split; [exact Hsvc|]. split; [reflexivity|]. split; [exact Hfmt|].
  split; [reflexivity|]. split; [exact Hav|].
  rewrite <- Husers.
  step Hrun. cbn [findById setDateAndSlot Appointment.userId] in Hrun.
  destruct (users (db (world s1)) !! Appointment.userId a) as [owner|] eqn:Howner;
    cbn [option_map] in Hrun; step Hrun; cbn [derefR retR raise] in Hrun.
  2:{ unfold notFoundOrServerError, answer in Hrun. injection Hrun as <- <-.
      cbn [logError setWorld world consoleError emit snd db status].
      rewrite Happs, Hsvcs. split; [reflexivity|]. split; [reflexivity|].
      split; [reflexivity|]. right. now split. }
  step Hrun. cbn [snd] in Hrun.
  match type of Hrun with context [confirm ?u ?o ?k ?s0] =>
    destruct (confirm_run u o k s0) as (s2 & Hconfirm & Hw2 & _) end.
  rewrite Hconfirm in Hrun. step Hrun. rewrite liftW_pass in Hrun.
  step Hrun. rewrite liftW_pass in Hrun.
  unfold respond in Hrun. injection Hrun as <- <-.
  cbn [world setWorld status].
  repeat match goal with |- context [updateWaitlistForDate clock twilio ?d ?w] =>
    destruct (pass_store d w) as (_ & Ha & Hs & Hu);
    rewrite ?Ha, ?Hs, ?Hu; clear Ha Hs Hu end.
  rewrite Hw2, Happs, Hsvcs.
  split; [reflexivity|]. split; [reflexivity|]. split; [reflexivity|].
  now left.
Qed.


Lemma join_cases (user : ReqUser) (body : WaitlistBody.t) (s s' : Server)
      (r : Response) :
  joinWaitlist clock DateParse errorMessage mintedId user body s = (r, s') ->
  (rejected r /\ storeUnchanged s s')
  \/ (r.(status) = 500 /\ storeUnchanged s s')
  \/ exists serviceId requestedDate e,
      body.(WaitlistBody.serviceId) = AnId serviceId
      /\ is_Some (s.(world).(db).(services) !! serviceId)
      /\ newDate DateParse body.(WaitlistBody.date) = JS.Int requestedDate
      /\ List.find (fun x => waitingFor user.(id) serviceId requestedDate (snd x))
                   (map_to_list s.(world).(db).(waitlists)) = None
      /\ e.(Waitlist.userId) = user.(id)
      /\ e.(Waitlist.serviceId) = serviceId
      /\ e.(Waitlist.date) = requestedDate
      /\ e.(Waitlist.status) = Waitlist.waiting
      /\ r = {| status := 200; body := WaitlistJson (mintedId s.(minted)) e |}
      /\ s'.(world).(db)
         = setWaitlists (<[mintedId s.(minted) := e]> s.(world).(db).(waitlists))
                        s.(world).(db).
Proof.
  unfold joinWaitlist. intros Hrun.
  destruct (checkField _ _ ++ _) as [|e errors].
  2:{ unfold answer in Hrun. done400 Hrun. }
  unfold handle in Hrun.
  destruct (newDate DateParse (WaitlistBody.date body))
    as [requestedDate|] eqn:Hdate.
  2:{ unfold respond in Hrun. done400 Hrun. }
  step Hrun. rewrite readClock_run in Hrun.
  destruct (requestedDate <? startOfDay (clock (ticks (world s)))).
  { unfold respond in Hrun. done400 Hrun. }
  step Hrun.
  destruct (WaitlistBody.serviceId body) as [| | |serviceId] eqn:Hsid;
    cbn [findById retR raise serverError answer respond] in Hrun.
  1:{ done404 Hrun. }
  1-2: done500 Hrun.
  cbn [world setWorld db] in Hrun.
  destruct (services (db (world s)) !! serviceId) as [service|] eqn:Hsvc;
    cbn [option_map] in Hrun.
  2:{ done404 Hrun. }
  step Hrun. unfold getDbR, liftW at 1, getDb in Hrun.
  cbn [world setWorld db] in Hrun.
  destruct (List.find _ _) as [x|] eqn:Hfind.
  { done400 Hrun. }
  step Hrun. unfold newObjectId in Hrun.
  cbn [world setWorld db minted appointmentRest loyaltyPoints
       loyaltyPointsEarned outbox] in Hrun.
  step Hrun. rewrite readClock_run in Hrun.
  step Hrun. rewrite readClock_run in Hrun.
  step Hrun. rewrite readClock_run in Hrun.
  step Hrun. unfold writeWaitlist, liftW, bind, getDb, putDb, emit in Hrun.
  cbn [world setWorld db ticks events] in Hrun.
  injection Hrun as <- <-.
  right. right.
  exists serviceId, requestedDate,
    {| Waitlist.userId := id user;
       Waitlist.serviceId := serviceId;
       Waitlist.date := requestedDate;
       Waitlist.preferredTimeSlots :=
         default [] (WaitlistBody.preferredTimeSlots body);
       Waitlist.status := Waitlist.waiting;
       Waitlist.notifiedAt := None;
       Waitlist.createdAt := clock (S (ticks (world s)));
       Waitlist.updatedAt := clock (S (S (S (ticks (world s))))) |}.
  split; [reflexivity|]. split; [now exists service|]. split; [reflexivity|].
  split; [exact Hfind|].
  cbn [world setWorld db].
  repeat (split; [reflexivity|]). reflexivity.
Qed.


(** *** Bookings stay apart *)

Lemma sameDay_sym (t t' : Z) : sameDay t t' = true -> sameDay t' t = true.
Proof.
  unfold sameDay, endOfDay, startOfDay, msPerDay.
  intros [Hlo Hhi]%andb_true_iff.
  apply Z.leb_le in Hlo. apply Z.leb_le in Hhi.
  pose proof (Z.div_mod t 86400000 ltac:(lia)) as Ht.
  pose proof (Z.mod_pos_bound t 86400000 ltac:(lia)) as Hrt.
  pose proof (Z.div_mod t' 86400000 ltac:(lia)) as Ht'.
  pose proof (Z.mod_pos_bound t' 86400000 ltac:(lia)) as Hrt'.
  apply andb_true_iff. split; apply Z.leb_le; lia.
Qed.













Lemma not_rejected (r : Response) :
  r.(status) = 200 \/ r.(status) = 500 -> ~ rejected r.
Proof. unfold rejected. intros [H|H] [H'|[H'|H']]; rewrite H in H'; discriminate. Qed.

(** X16. A request that [POST /], [PUT /:id], [PUT /:id/reschedule],
    [DELETE /:id] or [POST /waitlist] answers with 400, 403 or 404 leaves
    every document, the loyalty points and the messages handed over as
    they were. *)
Theorem rejected_requests_change_nothing (user : ReqUser) (s s' : Server)
        (r : Response) :
  rejected r ->
  (forall body,
      createAppointment clock twilio DateParse trim errorMessage mintedId
                        user body s = (r, s') -> storeUnchanged s s')
  /\ (forall id body,
         updateAppointment clock twilio trim errorMessage user id body s
         = (r, s') -> storeUnchanged s s')
  /\ (forall id body,
         rescheduleAppointment clock twilio DateParse errorMessage user id body s
         = (r, s') -> storeUnchanged s s')
  /\ (forall id,
         cancelAppointment clock twilio errorMessage user id s = (r, s') ->
         storeUnchanged s s')
  /\ (forall body,
         joinWaitlist clock DateParse errorMessage mintedId user body s
         = (r, s') -> storeUnchanged s s').
Proof.
  intros Hrej. split; [|split; [|split; [|split]]].
  - intros body Hrun.
    destruct (create_cases _ _ _ _ _ Hrun) as [[_ Hun]|[[H500 _]|Hwritten]];
      [exact Hun| |].
    + destruct (not_rejected r); [now right|exact Hrej].
    + destruct Hwritten as (? & ? & ? & ? & ? & ? & _ & _ & _ & _ & _ & _ & _
                            & _ & _ & _ & [[-> _]|[H _]]).
      * now destruct Hrej as [H|[H|H]].
      * destruct (not_rejected r); [now right|exact Hrej].
  - intros id body Hrun.
    destruct (update_cases _ _ _ _ _ _ Hrun)
      as [(_ & Hun & _)|(i & a & st & _ & _ & _ & _ & -> & _)]; [exact Hun|].
    now destruct Hrej as [H|[H|H]].
  - intros id body Hrun.
    destruct (reschedule_cases _ _ _ _ _ _ Hrun) as [[_ Hun]|[[H500 _]|Hwritten]];
      [exact Hun| |].
    + destruct (not_rejected r); [now right|exact Hrej].
    + destruct Hwritten as (? & ? & ? & ? & ? & ? & _ & _ & _ & _ & _ & _ & _
                            & _ & _ & _ & _ & [H|[H _]]);
        (destruct (not_rejected r); [tauto|exact Hrej]).
  - intros id Hrun.
    destruct (cancel_cases _ _ _ _ _ Hrun)
      as [(_ & Hun & _)|(i & a & _ & _ & _ & _ & H200 & _)]; [exact Hun|].
    destruct (not_rejected r); [now left|exact Hrej].
  - intros body Hrun.
    destruct (join_cases _ _ _ _ _ Hrun) as [[_ Hun]|[[H500 _]|Hwritten]];
      [exact Hun| |].
    + destruct (not_rejected r); [now right|exact Hrej].
    + destruct Hwritten as (? & ? & ? & _ & _ & _ & _ & _ & _ & _ & _ & -> & _).
      now destruct Hrej as [H|[H|H]].
Qed.

Lemma authorized_owner (user : ReqUser) (a : Appointment.t) :
  String.eqb user.(role) "admin" = false ->
  notAuthorized user a = false ->
  a.(Appointment.userId) = user.(id).
Proof.
  unfold notAuthorized. intros ->. rewrite andb_true_r.
  intros H%negb_false_iff. now apply Z.eqb_eq.
Qed.

(** What a write under the requester's own appointment leaves of the
    appointments of the others. *)
Lemma others_untouched (user : ReqUser) (apps apps' : gmap Z Appointment.t)
      (n : Z) (a' : Appointment.t) :
  apps' = <[n := a']> apps ->
  a'.(Appointment.userId) = user.(id) ->
  (forall a, apps !! n = Some a -> a.(Appointment.userId) = user.(id)) ->
  forall j b, b.(Appointment.userId) <> user.(id) ->
              apps' !! j = Some b <-> apps !! j = Some b.
Proof.
  intros -> Hown Hold j b Hother.
  destruct (Z.eq_dec j n) as [->|Hne].
  - rewrite lookup_insert_eq. split.
    + intros [= <-]. contradiction.
    + intros Hb. destruct Hother. exact (Hold _ Hb).
  - now rewrite lookup_insert_ne by congruence.
Qed.

(** X17. A requester who is no admin changes appointments of their own
    only: whatever they send to [POST /], [PUT /:id],
    [PUT /:id/reschedule] or [DELETE /:id], an appointment of another user
    is stored afterwards exactly when it was stored before, unchanged
    (the id generated for a new appointment being that of no stored
    one). *)
Theorem only_own_appointments_change (user : ReqUser) (s : Server)
        (j : Z) (b : Appointment.t) :
  String.eqb user.(role) "admin" = false ->
  s.(world).(db).(appointments) !! mintedId s.(minted) = None ->
  b.(Appointment.userId) <> user.(id) ->
  (forall body,
      let s' := snd (createAppointment clock twilio DateParse trim errorMessage
                                       mintedId user body s) in
      s'.(world).(db).(appointments) !! j = Some b
      <-> s.(world).(db).(appointments) !! j = Some b)
  /\ (forall id body,
         let s' := snd (updateAppointment clock twilio trim errorMessage
                                          user id body s) in
         s'.(world).(db).(appointments) !! j = Some b
         <-> s.(world).(db).(appointments) !! j = Some b)
  /\ (forall id body,
         let s' := snd (rescheduleAppointment clock twilio DateParse
                                              errorMessage user id body s) in
         s'.(world).(db).(appointments) !! j = Some b
         <-> s.(world).(db).(appointments) !! j = Some b)
  /\ (forall id,
         let s' := snd (cancelAppointment clock twilio errorMessage user id s) in
         s'.(world).(db).(appointments) !! j = Some b
         <-> s.(world).(db).(appointments) !! j = Some b).
Proof.
  intros Hrole Hfresh Hother.
  assert (Hsame : forall s', storeUnchanged s s' ->
            s'.(world).(db).(appointments) !! j = Some b
            <-> s.(world).(db).(appointments) !! j = Some b).
  { intros s' (Hdb & _). now rewrite Hdb. }
  split; [|split; [|split]].
  - intros body.
    destruct (createAppointment _ _ _ _ _ _ user body s) as [r s'] eqn:Hrun.
    cbn [snd].
    destruct (create_cases _ _ _ _ _ Hrun)
      as [[_ Hun]|[[_ Hun]|(sid & service & date & fmt & slot & u & _ & _ & _
                            & _ & _ & _ & Hself & Happs & _)]];
      [now apply Hsame|now apply Hsame|].
    apply (others_untouched user _ _ _ _ Happs); [exact (Hself Hrole)| |exact Hother].
    intros a Ha. rewrite Hfresh in Ha. discriminate.
  - intros id body.
    destruct (updateAppointment _ _ _ _ user id body s) as [r s'] eqn:Hrun.
    cbn [snd].
    destruct (update_cases _ _ _ _ _ _ Hrun)
      as [(_ & Hun & _)|(i & a & st & _ & Hst & Hauth & _ & _ & Happs & _)];
      [now apply Hsame|].
    apply (others_untouched user _ _ _ _ Happs);
      [exact (authorized_owner _ _ Hrole Hauth)| |exact Hother].
    intros a0 Ha0. rewrite Hst in Ha0. injection Ha0 as <-.
    exact (authorized_owner _ _ Hrole Hauth).
  - intros id body.
    destruct (rescheduleAppointment _ _ _ _ user id body s) as [r s'] eqn:Hrun.
    cbn [snd].
    destruct (reschedule_cases _ _ _ _ _ _ Hrun)
      as [[_ Hun]|[[_ Hun]|(i & a & service & date & fmt & slot & _ & Hst & Hauth
                            & _ & _ & _ & _ & _ & Happs & _)]];
      [now apply Hsame|now apply Hsame|].
    apply (others_untouched user _ _ _ _ Happs);
      [exact (authorized_owner _ _ Hrole Hauth)| |exact Hother].
    intros a0 Ha0. rewrite Hst in Ha0. injection Ha0 as <-.
    exact (authorized_owner _ _ Hrole Hauth).
  - intros id.
    destruct (cancelAppointment _ _ _ user id s) as [r s'] eqn:Hrun.
    cbn [snd].
    destruct (cancel_cases _ _ _ _ _ Hrun)
      as [(_ & Hun & _)|(i & a & _ & Hst & Hauth & _ & _ & Happs & _)];
      [now apply Hsame|].
    apply (others_untouched user _ _ _ _ Happs);
      [exact (authorized_owner _ _ Hrole Hauth)| |exact Hother].
    intros a0 Ha0. rewrite Hst in Ha0. injection Ha0 as <-.
    exact (authorized_owner _ _ Hrole Hauth).
Qed.


(** *** A cancelled slot is free again *)










(** *** Status updates *)

Lemma update_accepted (user : ReqUser) (i : Z) (a : Appointment.t)
      (st : Appointment.Status) (body : UpdateBody.t) (s s' : Server)
      (r : Response) :
  s.(world).(db).(appointments) !! i = Some a ->
  notAuthorized user a = false ->
  statusOf body.(UpdateBody.status) = Some st ->
  updateAppointment clock twilio trim errorMessage user (AnId i) body s
  = (r, s') ->
  r = {| status := 200; body := AppointmentJson i (setStatus st a) |}
  /\ s'.(world).(db).(appointments)
     = <[i := setStatus st a]> s.(world).(db).(appointments)
  /\ s'.(world).(db).(services) = s.(world).(db).(services).
Proof.
  intros Hst Hauth Hstatus Hrun.
  destruct (update_cases _ _ _ _ _ _ Hrun)
    as [(_ & _ & [Hnone|[Hnone|(i' & a' & [= <-] & Hst' & Hauth')]])
       |(i' & a' & st' & [= <-] & Hst' & _ & Hstatus' & Hr & Happs & Hsvcs & _)].
  - congruence.
  - rewrite (Hnone i eq_refl) in Hst. discriminate.
  - congruence.
  - replace a' with a in * by congruence.
    replace st' with st in * by congruence. now repeat split.
Qed.

(** X19. A status update is not checked against the other bookings: for
    a stored appointment and a requester allowed to change it, [PUT /:id]
    with an active status is answered 200 also when another active
    appointment of the same day overlaps it, and afterwards the bookings
    are not apart.  In particular a cancelled appointment can be made
    active again over a slot that was booked since. *)
Theorem status_update_may_double_book
        (user : ReqUser) (i j : Z) (a b : Appointment.t)
        (st : Appointment.Status) (body : UpdateBody.t)
        (sa ea sb eb : Z) (s s' : Server) (r : Response) :
  s.(world).(db).(appointments) !! i = Some a ->
  s.(world).(db).(appointments) !! j = Some b ->
  i <> j ->
  notAuthorized user a = false ->
  statusOf body.(UpdateBody.status) = Some st ->
  Appointment.active st = true ->
  Appointment.active b.(Appointment.status) = true ->
  sameDay a.(Appointment.date) b.(Appointment.date) = true ->
  intervalOf s.(world).(db) a = Some (sa, ea) ->
  intervalOf s.(world).(db) b = Some (sb, eb) ->
  sa < eb -> sb < ea ->
  updateAppointment clock twilio trim errorMessage user (AnId i) body s
  = (r, s') ->
  r.(status) = 200 /\ ~ noDoubleBooking s'.(world).(db).
Proof.
  intros Ha Hb Hij Hauth Hstatus Hactive Hab Hday Hia Hib Hlt Hlt' Hrun.
  destruct (update_accepted _ _ _ _ _ _ _ _ Ha Hauth Hstatus Hrun)
    as (-> & Happs & Hsvcs).
  split; [reflexivity|]. intros Hinv.
  assert (Hint : forall x, intervalOf s'.(world).(db) x
                           = intervalOf s.(world).(db) x)
    by (intros x; unfold intervalOf; now rewrite Hsvcs).
  destruct (Hinv i j (setStatus st a) b sa ea sb eb Hij) as [H|H]; try lia.
  - now rewrite Happs, lookup_insert_eq.
  - now rewrite Happs, lookup_insert_ne.
  - exact Hactive.
  - exact Hab.
  - exact Hday.
  - now rewrite Hint.
  - now rewrite Hint.
Qed.

(** X20. [PUT /:id] cancels what [DELETE /:id] refuses: for an
    appointment whose date lies before the clock, [DELETE /:id] answers
    400 and changes nothing, and [PUT /:id] with the status cancelled
    answers 200 and stores the appointment as cancelled. *)
Theorem update_cancels_what_delete_refuses
        (user : ReqUser) (i : Z) (a : Appointment.t) (body : UpdateBody.t)
        (s : Server) :
  s.(world).(db).(appointments) !! i = Some a ->
  notAuthorized user a = false ->
  a.(Appointment.date) < clock s.(world).(ticks) ->
  statusOf body.(UpdateBody.status) = Some Appointment.cancelled ->
  (let (r, s') := cancelAppointment clock twilio errorMessage user (AnId i) s in
   r.(status) = 400 /\ storeUnchanged s s')
  /\ (let (r, s') := updateAppointment clock twilio trim errorMessage
                                       user (AnId i) body s in
      r.(status) = 200
      /\ s'.(world).(db).(appointments) !! i
         = Some (setStatus Appointment.cancelled a)).
Proof.
  intros Ha Hauth Hpast Hstatus. split.
  - destruct (cancelAppointment _ _ _ user (AnId i) s) as [r s'] eqn:Hrun.
    destruct (cancel_cases _ _ _ _ _ Hrun)
      as [(_ & Hun & [Hnone|(i' & a' & [= <-] & Ha' & [Hauth'|[H400 _]])])
         |(i' & a' & [= <-] & Ha' & _ & Hfuture & _)].
    + rewrite (Hnone i eq_refl) in Ha. discriminate.
    + congruence.
    + now split.
    + replace a' with a in * by congruence. lia.
  - destruct (updateAppointment _ _ _ _ user (AnId i) body s) as [r s'] eqn:Hrun.
    destruct (update_accepted _ _ _ _ _ _ _ _ Ha Hauth Hstatus Hrun)
      as (-> & Happs & _).
    split; [reflexivity|]. now rewrite Happs, lookup_insert_eq.
Qed.


(** *** What the booking route accepts *)

Lemma liftW_format_ok (l : list (Appointment.t * option Service.t))
      (fmt : list FormattedAppointment) (s : Server) :
  (forall w : World, mapM formatAppointment l w = (Ok fmt, w)) ->
  liftW (mapM formatAppointment l) s = (Next fmt, s).
Proof. intros Hfmt. unfold liftW. now rewrite Hfmt, setWorld_same. Qed.

Lemma create_accepts (user : ReqUser) (body : CreateBody.t) (s : Server)
      (serviceId : Z) (service : Service.t) (requestedDate : Z)
      (fmt : list FormattedAppointment) (slot : string) :
  body.(CreateBody.serviceId) = AnId serviceId ->
  s.(world).(db).(services) !! serviceId = Some service ->
  String.eqb user.(role) "admin" && given body.(CreateBody.userId) = false ->
  nonEmpty body.(CreateBody.date) = true ->
  newDate DateParse body.(CreateBody.date) = JS.Int requestedDate ->
  startOfDay (clock s.(world).(ticks)) <= requestedDate ->
  (forall w, mapM formatAppointment
                  (findAppointments s.(world).(db) requestedDate) w
             = (Ok fmt, w)) ->
  body.(CreateBody.timeSlot) = Some slot ->
  slot <> "" ->
  isTimeSlotAvailable slot fmt service.(Service.duration) = true ->
  let appointment :=
    {| Appointment.userId := user.(id);
       Appointment.serviceId := serviceId;
       Appointment.date := requestedDate;
       Appointment.timeSlot := slot;
       Appointment.status := Appointment.confirmed |} in
  let r := fst (createAppointment clock twilio DateParse trim errorMessage
                                  mintedId user body s) in
  let s' := snd (createAppointment clock twilio DateParse trim errorMessage
                                   mintedId user body s) in
  s'.(world).(db).(appointments)
  = <[mintedId s.(minted) := appointment]> s.(world).(db).(appointments)
  /\ match s.(world).(db).(users) !! user.(id) with
     | Some _ =>
         r = {| status := 200;
                body := AppointmentJson (mintedId s.(minted)) appointment |}
         /\ s'.(world)
            = snd (updateWaitlistForDate clock twilio requestedDate
                     {| db := setAppointments
                                (<[mintedId s.(minted) := appointment]>
                                   s.(world).(db).(appointments))
                                s.(world).(db);
                        ticks := S (S (S (S s.(world).(ticks))));
                        events := s.(world).(events) |})
     | None => r.(status) = 500
     end.
Proof.
  intros Hsid Hsvc Hself Hne Hdate Hnotpast Hfmt Hslot Hnonempty Hav.
  cbv zeta.
  destruct (createAppointment _ _ _ _ _ _ user body s) as [r s'] eqn:Hrun.
  cbn [fst snd]. unfold createAppointment in Hrun.
  rewrite Hsid, Hne, Hslot, Hself in Hrun.
  assert (Htruthy : nonEmpty (Some slot) = true)
    by (destruct slot; [contradiction|reflexivity]).
  rewrite Htruthy in Hrun. cbn [given checkField app] in Hrun.
  unfold handle in Hrun. step Hrun. cbn [findById] in Hrun.
  rewrite Hsvc in Hrun. cbn [option_map] in Hrun.
  step Hrun. cbn [retR] in Hrun. rewrite Hdate in Hrun.
  step Hrun. rewrite readClock_run in Hrun.
  destruct (Z.ltb_spec requestedDate (startOfDay (clock (ticks (world s)))))
    as [Hlt|_]; [lia|].
  step Hrun. unfold getDbR, liftW at 1, getDb in Hrun.
  cbn [world setWorld db] in Hrun. step Hrun.
  rewrite (liftW_format_ok _ _ _ Hfmt) in Hrun.
  step Hrun. cbn [derefR retR] in Hrun. rewrite Hav in Hrun. cbn [negb] in Hrun.
  step Hrun. unfold newObjectId in Hrun.
  cbn [world setWorld db minted appointmentRest loyaltyPoints
       loyaltyPointsEarned outbox] in Hrun.
  step Hrun. rewrite readClock_run in Hrun.
  step Hrun. rewrite readClock_run in Hrun.
  step Hrun. cbn [validId retR] in Hrun.
  step Hrun. rewrite readClock_run in Hrun.
  step Hrun. unfold writeAppointment in Hrun.
  cbn [world setWorld db minted appointmentRest loyaltyPoints
       loyaltyPointsEarned outbox ticks events] in Hrun.
  step Hrun. unfold earnedBy in Hrun.
  cbn [world setWorld db minted appointmentRest loyaltyPoints
       loyaltyPointsEarned outbox ticks events] in Hrun.
  step Hrun.
  match type of Hrun with
    context [(if 0 <? ?e then incLoyaltyPoints ?u ?e else retR tt) ?s0] =>
      destruct (credit_run u e s0) as (s2 & Hcredit & Hw2 & _)
  end.
  rewrite Hcredit in Hrun. step Hrun.
  cbn [world] in Hw2.
  assert (Happs : appointments (db (world s2))
                  = <[mintedId (minted s):=
                        {| Appointment.userId := id user;
                           Appointment.serviceId := serviceId;
                           Appointment.date := requestedDate;
                           Appointment.timeSlot := slot;
                           Appointment.status := Appointment.confirmed |}]>
                      (appointments (db (world s)))) by now rewrite Hw2.
  assert (Husers : users (db (world s2)) = users (db (world s)))
    by now rewrite Hw2.
  clear Hcredit.
  rewrite <- Husers.
  step Hrun.
  destruct (users (db (world s2)) !! id user) as [booker|] eqn:Hbooker;
    cbn [option_map] in Hrun; step Hrun; cbn [derefR retR raise] in Hrun.
  2:{ unfold serverError, answer in Hrun. injection Hrun as <- <-.
      cbn [logError setWorld world consoleError emit snd db status].
      now rewrite Happs. }
  step Hrun. cbn [snd] in Hrun.
  destruct (confirm_run (id user) booker (mintedId (minted s)) s2)
    as (s3 & Hconfirm & Hw3 & _).
  rewrite Hconfirm in Hrun. rewrite liftW_pass in Hrun.
  unfold respond in Hrun. injection Hrun as <- <-.
  cbn [world setWorld status].
  destruct (pass_store requestedDate (world s3)) as (_ & Ha & _).
  rewrite Ha, Hw3, Happs. split; [reflexivity|]. split; [reflexivity|].
  now rewrite Hw2.
Qed.

(** X21. A 500 of [POST /] does not mean that nothing was written: when
    the request passes every check and the slot is accepted, but the user
    document of the booking user is gone, the appointment is stored as
    confirmed and the answer is 500. *)
Theorem booking_written_before_the_error
        (user : ReqUser) (body : CreateBody.t) (s s' : Server) (r : Response)
        (serviceId : Z) (service : Service.t) (requestedDate : Z)
        (fmt : list FormattedAppointment) (slot : string) :
  body.(CreateBody.serviceId) = AnId serviceId ->
  s.(world).(db).(services) !! serviceId = Some service ->
  String.eqb user.(role) "admin" && given body.(CreateBody.userId) = false ->
  nonEmpty body.(CreateBody.date) = true ->
  newDate DateParse body.(CreateBody.date) = JS.Int requestedDate ->
  startOfDay (clock s.(world).(ticks)) <= requestedDate ->
  (forall w, mapM formatAppointment
                  (findAppointments s.(world).(db) requestedDate) w
             = (Ok fmt, w)) ->
  body.(CreateBody.timeSlot) = Some slot ->
  slot <> "" ->
  isTimeSlotAvailable slot fmt service.(Service.duration) = true ->
  s.(world).(db).(users) !! user.(id) = None ->
  createAppointment clock twilio DateParse trim errorMessage mintedId
                    user body s = (r, s') ->
  r.(status) = 500
  /\ s'.(world).(db).(appointments) !! mintedId s.(minted)
     = Some {| Appointment.userId := user.(id);
               Appointment.serviceId := serviceId;
               Appointment.date := requestedDate;
               Appointment.timeSlot := slot;
               Appointment.status := Appointment.confirmed |}.
Proof.
  intros Hsid Hsvc Hself Hne Hdate Hnotpast Hfmt Hslot Hnonempty Hav Hgone Hrun.
  pose proof (create_accepts user body s serviceId service requestedDate fmt slot
                Hsid Hsvc Hself Hne Hdate Hnotpast Hfmt Hslot Hnonempty Hav)
    as Hacc.
  cbv zeta in Hacc. rewrite Hrun, Hgone in Hacc. cbn [fst snd] in Hacc.
  destruct Hacc as [Happs H500]. split; [exact H500|].
  now rewrite Happs, lookup_insert_eq.
Qed.


(** *** The availability route *)

Lemma available_cases (query : AvailableQuery.t) (s s' : Server) (r : Response) :
  getAvailable clock DateParse errorMessage query s = (r, s') ->
  storeUnchanged s s'
  /\ (r.(status) = 200 ->
      exists serviceId service requestedDate fmt,
        query.(AvailableQuery.serviceId) = AnId serviceId
        /\ s.(world).(db).(services) !! serviceId = Some service
        /\ nonEmpty query.(AvailableQuery.date) = true
        /\ newDate DateParse query.(AvailableQuery.date) = JS.Int requestedDate
        /\ isBusinessDay (JS.Int requestedDate) = true
        /\ (forall w, mapM formatAppointment
                           (findAppointments s.(world).(db) requestedDate) w
                      = (Ok fmt, w))
        /\ r.(body) = Slots (getAvailableTimeSlots requestedDate fmt
                                                   service.(Service.duration))).
Proof.
  unfold getAvailable, handle. intros Hrun.
  destruct (nonEmpty (AvailableQuery.date query)) eqn:Hne; cbn [negb orb] in Hrun.
  2:{ injection Hrun as <- <-. split; [apply storeUnchanged_refl|discriminate]. }
  destruct (AvailableQuery.serviceId query) as [| | |serviceId] eqn:Hsid;
    cbn [given negb] in Hrun.
  1-2: injection Hrun as <- <-; (split; [apply storeUnchanged_refl|discriminate]).
  - destruct (newDate DateParse (AvailableQuery.date query)) as [requestedDate|].
    2:{ injection Hrun as <- <-. split; [apply storeUnchanged_refl|discriminate]. }
    step Hrun. rewrite readClock_run in Hrun.
    destruct (requestedDate <? startOfDay (clock (ticks (world s)))).
    { injection Hrun as <- <-. split; [now repeat split|discriminate]. }
    destruct (isBusinessDay requestedDate); cbn [negb] in Hrun.
    2:{ injection Hrun as <- <-. split; [now repeat split|discriminate]. }
    step Hrun. cbn [findById raise serverError answer] in Hrun.
    injection Hrun as <- <-. split; [now repeat split|discriminate].
  - destruct (newDate DateParse (AvailableQuery.date query))
      as [requestedDate|] eqn:Hdate.
    2:{ injection Hrun as <- <-. split; [apply storeUnchanged_refl|discriminate]. }
    step Hrun. rewrite readClock_run in Hrun.
    destruct (requestedDate <? startOfDay (clock (ticks (world s)))).
    { injection Hrun as <- <-. split; [now repeat split|discriminate]. }
    destruct (isBusinessDay requestedDate) eqn:Hbiz; cbn [negb] in Hrun.
    2:{ injection Hrun as <- <-. split; [now repeat split|discriminate]. }
    step Hrun. cbn [findById] in Hrun. cbn [world setWorld db] in Hrun.
    destruct (services (db (world s)) !! serviceId) as [service|] eqn:Hsvc;
      cbn [option_map] in Hrun.
    2:{ injection Hrun as <- <-. split; [now repeat split|discriminate]. }
    step Hrun. unfold getDbR, liftW at 1, getDb in Hrun.
    cbn [world setWorld db] in Hrun. step Hrun.
    match type of Hrun with context [liftW (mapM formatAppointment ?l) ?s0] =>
      destruct (liftW_format l s0) as [(fmt & Hfmt & Hf)|Hf] end;
      rewrite Hf in Hrun; clear Hf.
    2:{ unfold serverError, answer in Hrun. injection Hrun as <- <-.
        split; [now repeat split|discriminate]. }
    unfold respond in Hrun. injection Hrun as <- <-.
    split; [now repeat split|]. intros _.
    exists serviceId, service, requestedDate, fmt. now repeat split.
Qed.

Lemma grid_slot_nonempty (slot : string) :
  In slot (generateTimeSlots tt) -> slot <> "".
Proof.
  intros Hin ->. destruct (grid_minutesOf "" Hin) as (k & _ & Hk). discriminate.
Qed.

(** X22. A slot offered by [GET /available] is accepted by [POST /]:
    when the availability route answers 200 with a list of slots, a
    booking by a stored user for the same service and date and one of
    these slots, made on the state the query left and before the day of
    the clock has passed the date, is answered 200 and stored as an
    active appointment of that user. *)
Theorem offered_slot_is_accepted
        (user : ReqUser) (query : AvailableQuery.t) (body : CreateBody.t)
        (slot : string) (slots : list string) (requestedDate : Z)
        (s s1 s2 : Server) (r : Response) :
  getAvailable clock DateParse errorMessage query s
  = ({| status := 200; body := Slots slots |}, s1) ->
  In slot slots ->
  body.(CreateBody.serviceId) = query.(AvailableQuery.serviceId) ->
  body.(CreateBody.date) = query.(AvailableQuery.date) ->
  body.(CreateBody.timeSlot) = Some slot ->
  String.eqb user.(role) "admin" && given body.(CreateBody.userId) = false ->
  is_Some (s.(world).(db).(users) !! user.(id)) ->
  newDate DateParse query.(AvailableQuery.date) = JS.Int requestedDate ->
  startOfDay (clock s1.(world).(ticks)) <= requestedDate ->
  createAppointment clock twilio DateParse trim errorMessage mintedId
                    user body s1 = (r, s2) ->
  r.(status) = 200
  /\ exists a,
      s2.(world).(db).(appointments) !! mintedId s1.(minted) = Some a
      /\ a.(Appointment.userId) = user.(id)
      /\ a.(Appointment.date) = requestedDate
      /\ a.(Appointment.timeSlot) = slot
      /\ Appointment.active a.(Appointment.status) = true.
Proof.
  intros Hget Hin Hsid Hdate Hslot Hself [booker Hbooker] Hparse Hday Hrun.
  destruct (available_cases _ _ _ _ Hget) as ((Hdb & _) & H200).
  destruct (H200 eq_refl)
    as (serviceId & service & date' & fmt & Hq & Hsvc & Hne & Hparse' & _
        & Hfmt & [= ->]).
  rewrite Hparse in Hparse'. injection Hparse' as <-.
  rewrite getAvailableTimeSlots_filter in Hin.
  apply List.filter_In in Hin as [Hgrid Hav].
  rewrite <- Hdb in Hsvc, Hfmt, Hbooker. rewrite <- Hdate in Hne, Hparse.
  rewrite <- Hsid in Hq.
  pose proof (create_accepts user body s1 serviceId service requestedDate fmt
                slot Hq Hsvc Hself Hne Hparse Hday Hfmt Hslot
                (grid_slot_nonempty _ Hgrid) Hav) as Hacc.
  cbv zeta in Hacc. rewrite Hrun, Hbooker in Hacc. cbn [fst snd] in Hacc.
  destruct Hacc as [Happs [-> _]]. split; [reflexivity|].
  eexists. rewrite Happs, lookup_insert_eq. split; [reflexivity|].
  now repeat split.
Qed.


(** *** The waitlist *)

Lemma touched_not_waiting (e e' : Waitlist.t) :
  touched e e' -> Waitlist.isWaiting e'.(Waitlist.status) = false.
Proof. now intros (n & u & ->). Qed.

(** X23. Nobody waits twice: when no user has two waiting entries for
    the same service on the same day, this is still so after
    [POST /waitlist], whatever the request, and after a pass of the
    reconciler. *)
Theorem nobody_waits_twice (user : ReqUser) (body : WaitlistBody.t) (date : Z)
        (s : Server) :
  noDuplicateWaiting s.(world).(db) ->
  noDuplicateWaiting
    (snd (joinWaitlist clock DateParse errorMessage mintedId user body s))
      .(world).(db)
  /\ noDuplicateWaiting
       (snd (updateWaitlistForDate clock twilio date s.(world))).(db).
Proof.
  intros Hinv. split.
  - destruct (joinWaitlist _ _ _ _ user body s) as [r s'] eqn:Hrun. cbn [snd].
    destruct (join_cases _ _ _ _ _ Hrun)
      as [[_ (Hdb & _)]|[[_ (Hdb & _)]|(sid & requestedDate & e & _ & _ & _ & Hfind
                                        & Hu & Hs & Hd & Hw & _ & Hdb)]];
      [now rewrite Hdb|now rewrite Hdb|].
    rewrite Hdb. unfold noDuplicateWaiting. cbn [setWaitlists waitlists].
    assert (Hnew : forall j e2,
      s.(world).(db).(waitlists) !! j = Some e2 ->
      Waitlist.isWaiting e2.(Waitlist.status) = true ->
      e2.(Waitlist.userId) = user.(id) ->
      e2.(Waitlist.serviceId) = sid ->
      sameDay requestedDate e2.(Waitlist.date) = false).
    { intros j e2 Hj Hwait Hu2 Hs2.
      pose proof (List.find_none _ _ Hfind (j, e2)) as Hnone.
      cbn [snd] in Hnone. unfold waitingFor, waitingOn in Hnone.
      rewrite Hu2, Hs2, !Z.eqb_refl, Hwait in Hnone.
      cbn [andb] in Hnone. rewrite andb_true_r in Hnone.
      apply Hnone. now apply list_elem_of_In, elem_of_map_to_list. }
    intros i j e1 e2 Hij H1 H2 Hw1 Hw2 Hsu Hss.
    destruct (Z.eq_dec i (mintedId (minted s))) as [->|Hi],
             (Z.eq_dec j (mintedId (minted s))) as [->|Hj].
    + contradiction.
    + rewrite lookup_insert_eq in H1. injection H1 as <-.
      rewrite lookup_insert_ne in H2 by congruence.
      rewrite Hd. apply (Hnew j e2 H2 Hw2); congruence.
    + rewrite lookup_insert_eq in H2. injection H2 as <-.
      rewrite lookup_insert_ne in H1 by congruence.
      destruct (sameDay (Waitlist.date e1) (Waitlist.date e)) eqn:Hday;
        [|reflexivity].
      apply sameDay_sym in Hday. rewrite Hd in Hday.
      rewrite (Hnew i e1 H1 Hw1) in Hday; [discriminate|congruence|congruence].
    + rewrite lookup_insert_ne in H1 by congruence.
      rewrite lookup_insert_ne in H2 by congruence.
      exact (Hinv i j e1 e2 Hij H1 H2 Hw1 Hw2 Hsu Hss).
  - destruct (updateWaitlistForDate_frame clock twilio date s.(world))
      as (_ & _ & _ & Hframe).
    intros i j e1 e2 Hij H1 H2 Hw1 Hw2 Hsu Hss.
    destruct (Hframe i) as [Hi|(_ & e & e' & _ & Hi & Ht)].
    2:{ rewrite Hi in H1. injection H1 as <-.
        rewrite (touched_not_waiting _ _ Ht) in Hw1. discriminate. }
    destruct (Hframe j) as [Hj|(_ & e & e' & _ & Hj & Ht)].
    2:{ rewrite Hj in H2. injection H2 as <-.
        rewrite (touched_not_waiting _ _ Ht) in Hw2. discriminate. }
    rewrite Hi in H1. rewrite Hj in H2.
    exact (Hinv i j e1 e2 Hij H1 H2 Hw1 Hw2 Hsu Hss).
Qed.


(** *** The routes and the waitlist *)

Lemma cancel_world (user : ReqUser) (i : Z) (a : Appointment.t)
      (s s' : Server) (r : Response) :
  s.(world).(db).(appointments) !! i = Some a ->
  cancelAppointment clock twilio errorMessage user (AnId i) s = (r, s') ->
  r.(status) = 200 ->
  s'.(world)
  = snd (updateWaitlistForDate clock twilio a.(Appointment.date)
           {| db := setAppointments
                      (<[i := setStatus Appointment.cancelled a]>
                         s.(world).(db).(appointments))
                      s.(world).(db);
              ticks := S (S (S s.(world).(ticks)));
              events := s.(world).(events) |}).
Proof.
  unfold cancelAppointment, handle. intros Hst Hrun H200. step Hrun.
  cbn [findById] in Hrun. rewrite Hst in Hrun. cbn [option_map] in Hrun.
  destruct (notAuthorized user a).
  { injection Hrun as <- <-. discriminate H200. }
  step Hrun. rewrite readClock_run in Hrun.
  destruct (Appointment.date a <? clock (ticks (world s))).
  { injection Hrun as <- <-. discriminate H200. }
  step Hrun.
  match type of Hrun with context [touchAndSave clock ?i ?a ?e ?s0] =>
    destruct (touchAndSave_world i a e s0) as (s1 & Hsave & Hw1) end.
  rewrite Hsave in Hrun. step Hrun. rewrite liftW_pass in Hrun.
  injection Hrun as <- <-. cbn [world setWorld]. rewrite Hw1. reflexivity.
Qed.

(** X25. A cancellation settles the waitlist of the day: after
    [DELETE /:id] answered 200, when the references of the day resolve,
    every entry that waited for the date of the cancelled appointment is
    notified if its service has an open slot against the bookings left,
    and is stored as before if it has none. *)
Theorem cancellation_notifies_the_waitlist
        (user : ReqUser) (i : Z) (a : Appointment.t) (s s' : Server)
        (r : Response) :
  let saved := setAppointments (<[i := setStatus Appointment.cancelled a]>
                                  s.(world).(db).(appointments))
                               s.(world).(db) in
  s.(world).(db).(appointments) !! i = Some a ->
  cancelAppointment clock twilio errorMessage user (AnId i) s = (r, s') ->
  r.(status) = 200 ->
  referencesResolve saved a.(Appointment.date) ->
  exists fmt,
    (forall w, mapM formatAppointment
                    (findAppointments saved a.(Appointment.date)) w
               = (Ok fmt, w))
    /\ forall id e service,
        s.(world).(db).(waitlists) !! id = Some e ->
        waitingOn a.(Appointment.date) e = true ->
        s.(world).(db).(services) !! e.(Waitlist.serviceId) = Some service ->
        match getAvailableTimeSlots a.(Appointment.date) fmt
                                    service.(Service.duration) with
        | [] => s'.(world).(db).(waitlists) !! id = Some e
        | _ :: _ => notifiedIn s'.(world) id
        end.
Proof.
  intros saved Hst Hrun H200 [Happs Hentries].
  destruct (mapM_formatAppointment_resolved _ Happs) as [fmt Hfmt].
  exists fmt. split; [exact Hfmt|].
  intros id e service He Hwait Hsvc.
  rewrite (cancel_world _ _ _ _ _ _ Hst Hrun H200).
  match goal with |- context [updateWaitlistForDate clock twilio ?d ?w] =>
    destruct (pass_settles clock twilio d w fmt Hfmt Hentries) as [_ Hall] end.
  exact (Hall id e service He Hwait Hsvc).
Qed.

(** X26. A booking settles the waitlist of its day as well: after
    [POST /] answered 200, when the references of the day resolve, every
    entry that waited for the date of the new appointment is notified if
    its service still has an open slot against the bookings including the
    new one, and is stored as before if it has none. *)
Theorem booking_notifies_the_waitlist
        (user : ReqUser) (body : CreateBody.t) (s s' : Server)
        (id : Z) (requested : Appointment.t) :
  let saved := setAppointments (<[id := requested]>
                                  s.(world).(db).(appointments))
                               s.(world).(db) in
  createAppointment clock twilio DateParse trim errorMessage mintedId
                    user body s
  = ({| status := 200; body := AppointmentJson id requested |}, s') ->
  referencesResolve saved requested.(Appointment.date) ->
  exists fmt,
    (forall w, mapM formatAppointment
                    (findAppointments saved requested.(Appointment.date)) w
               = (Ok fmt, w))
    /\ forall waiting e service,
        s.(world).(db).(waitlists) !! waiting = Some e ->
        waitingOn requested.(Appointment.date) e = true ->
        s.(world).(db).(services) !! e.(Waitlist.serviceId) = Some service ->
        match getAvailableTimeSlots requested.(Appointment.date) fmt
                                    service.(Service.duration) with
        | [] => s'.(world).(db).(waitlists) !! waiting = Some e
        | _ :: _ => notifiedIn s'.(world) waiting
        end.
Proof.
  intros saved Hrun [Happs Hentries].
  destruct (mapM_formatAppointment_resolved _ Happs) as [fmt Hfmt].
  exists fmt. split; [exact Hfmt|].
  intros waiting e service He Hwait Hsvc.
  destruct (create_cases _ _ _ _ _ Hrun)
    as [[Hrej _]|[[H500 _]|(sid & sv & date & fmt0 & slot & u & _ & _ & _ & _ & _
                            & _ & _ & _ & _ & _ & [[Hr Hw]|[H500 _]])]];
    try discriminate H500.
  { now destruct Hrej as [H|[H|H]]. }
  injection Hr as -> ->. rewrite Hw. cbn [Appointment.date] in *.
  match goal with |- context [updateWaitlistForDate clock twilio ?d ?w] =>
    destruct (pass_settles clock twilio d w fmt Hfmt Hentries) as [_ Hall] end.
  exact (Hall waiting e service He Hwait Hsvc).
Qed.

End RouteFacts.

Section Router.

Import Routes.

(** X24. The routes [GET /available] and [GET /waitlist] are registered
    after [GET /:id], which matches every path of one segment: no request
    is dispatched to them, and a request for either path is dispatched to
    the handler of [GET /:id], with the segment as the id. *)
Theorem literal_routes_after_id_are_shadowed :
  (forall m path, dispatch m path <> Some GetAvailable
                  /\ dispatch m path <> Some GetWaitlist)
  /\ (forall segment,
         matchesSegment (Lit "available") segment = true
         \/ matchesSegment (Lit "waitlist") segment = true ->
         dispatch GET [segment] = Some GetOne)
  /\ In (GET, [Lit "available"], GetAvailable) table
  /\ In (GET, [Lit "waitlist"], GetWaitlist) table.
Proof.
  split; [|split; [|split]].
  - intros m path. unfold dispatch, table.
    destruct m, path as [|segment [|segment' rest]];
      cbn [List.find fst snd sameMethod matchesPath andb option_map];
      repeat match goal with
             | |- context [matchesSegment ?p ?x] =>
                 destruct (matchesSegment p x) eqn:?
             end;
      cbn [List.find fst snd sameMethod matchesPath andb option_map];
      try (split; discriminate);
      repeat match goal with
             | H : matchesSegment (Param _) _ = false |- _ =>
                 cbn [matchesSegment] in H;
                 apply negb_false_iff, String.eqb_eq in H; subst
             end;
      try discriminate;
      destruct rest; cbn; split; discriminate.
  - intros segment Hmatch. unfold dispatch, table.
    cbn [List.find fst snd sameMethod matchesPath matchesSegment andb option_map].
    rewrite !andb_true_r.
    assert (Hne : String.eqb segment "" = false).
    { destruct segment; [|reflexivity]. destruct Hmatch as [H|H]; discriminate H. }
    assert (Huser : String.eqb (lower "user") (lower segment) = false).
    { cbn [matchesSegment] in Hmatch.
      destruct Hmatch as [H|H]; apply String.eqb_eq in H; rewrite <- H;
        reflexivity. }
    now rewrite Huser, Hne.
  - cbn. tauto.
  - cbn. tauto.
Qed.

End Router.

Section RouteWitnesses.

Import Routes.



Lemma noDuplicateWaiting_one (apps : gmap Z Appointment.t) (i : Z)
      (e : Waitlist.t) :
  noDuplicateWaiting (RouteSample.server (<[i := e]> ∅) apps).(world).(db).
Proof.
  intros j k x y Hjk Hx Hy.
  cbn [RouteSample.server world db waitlists] in Hx, Hy.
  apply lookup_insert_Some in Hx as [[<- _]|[_ Hx]];
    [|rewrite lookup_empty in Hx; discriminate].
  apply lookup_insert_Some in Hy as [[<- _]|[_ Hy]];
    [contradiction|rewrite lookup_empty in Hy; discriminate].
Qed.

Lemma formatted_by_evaluation (l : list (Appointment.t * option Service.t))
      (fmt : list FormattedAppointment) :
  fst (mapM formatAppointment l Sample.nobody) = Ok fmt ->
  forall w, mapM formatAppointment l w = (Ok fmt, w).
Proof.
  intros Hfst w. destruct (mapM_formatAppointment_pure l) as [r Hr].
  rewrite Hr in Hfst. rewrite Hr. cbn [fst] in Hfst. now subst r.
Qed.


Lemma rejected_requests_change_nothing_witness :
  storeUnchanged RouteSample.oneBooking
    (snd (cancelAppointment Sample.clock Sample.delivers RouteSample.message
                            RouteSample.alice BadId RouteSample.oneBooking)).
Proof.
  apply (proj1 (proj2 (proj2 (proj2
           (rejected_requests_change_nothing
              Sample.clock Sample.delivers RouteSample.parse RouteSample.noTrim
              RouteSample.message RouteSample.mint RouteSample.alice
              RouteSample.oneBooking _
              {| status := 404; body := Message "Appointment not found" |}
              ltac:(right; right; reflexivity))))) BadId).
  reflexivity.
Defined.

Lemma only_own_appointments_change_witness :
  (snd (cancelAppointment Sample.clock Sample.delivers RouteSample.message
          RouteSample.bob (AnId 1) RouteSample.oneBooking))
    .(world).(db).(appointments) !! 1 = Some RouteSample.cut
  <-> RouteSample.oneBooking.(world).(db).(appointments) !! 1
      = Some RouteSample.cut.
Proof.
  apply (proj2 (proj2 (proj2
           (only_own_appointments_change
              Sample.clock Sample.delivers RouteSample.parse RouteSample.noTrim
              RouteSample.message RouteSample.mint RouteSample.bob
              RouteSample.oneBooking 1 RouteSample.cut
              eq_refl ltac:(vm_compute; reflexivity)
              ltac:(vm_compute; discriminate))))).
Defined.


Lemma status_update_may_double_book_witness :
  let run := updateAppointment Sample.clock Sample.delivers RouteSample.noTrim
               RouteSample.message RouteSample.alice (AnId 1)
               RouteSample.confirmIt RouteSample.overlapping in
  (fst run).(status) = 200 /\ ~ noDoubleBooking (snd run).(world).(db).
Proof.
  apply (status_update_may_double_book
           Sample.clock Sample.delivers RouteSample.noTrim RouteSample.message
           RouteSample.alice 1 2
           (RouteSample.booked 1 RouteSample.tuesday "10:00" Appointment.cancelled)
           (RouteSample.booked 2 RouteSample.tuesday "09:30" Appointment.confirmed)
           Appointment.confirmed RouteSample.confirmIt 600 630 570 630
           RouteSample.overlapping).
  - vm_compute; reflexivity.
  - vm_compute; reflexivity.
  - discriminate.
  - reflexivity.
  - reflexivity.
  - reflexivity.
  - reflexivity.
  - vm_compute; reflexivity.
  - vm_compute; reflexivity.
  - vm_compute; reflexivity.
  - lia.
  - lia.
  - apply surjective_pairing.
Defined.

Lemma update_cancels_what_delete_refuses_witness :
  (let (r, s') := cancelAppointment Sample.clock Sample.delivers
                    RouteSample.message RouteSample.alice (AnId 1)
                    RouteSample.past in
   r.(status) = 400 /\ storeUnchanged RouteSample.past s')
  /\ (let (r, s') := updateAppointment Sample.clock Sample.delivers
                       RouteSample.noTrim RouteSample.message RouteSample.alice
                       (AnId 1) RouteSample.cancelIt RouteSample.past in
      r.(status) = 200
      /\ s'.(world).(db).(appointments) !! 1
         = Some (setStatus Appointment.cancelled
                   (RouteSample.booked 1 Sample.monday "09:00"
                                       Appointment.confirmed))).
Proof.
  apply (update_cancels_what_delete_refuses
           Sample.clock Sample.delivers RouteSample.noTrim RouteSample.message
           RouteSample.alice 1
           (RouteSample.booked 1 Sample.monday "09:00" Appointment.confirmed)
           RouteSample.cancelIt RouteSample.past).
  - vm_compute; reflexivity.
  - reflexivity.
  - vm_compute; reflexivity.
  - reflexivity.
Defined.

Lemma booking_written_before_the_error_witness :
  let run := createAppointment Sample.clock Sample.delivers RouteSample.parse
               RouteSample.noTrim RouteSample.message RouteSample.mint
               RouteSample.ghost (RouteSample.haircutOnTuesday "11:00")
               RouteSample.oneBooking in
  (fst run).(status) = 500
  /\ (snd run).(world).(db).(appointments) !! 100
     = Some {| Appointment.userId := 7;
               Appointment.serviceId := 1;
               Appointment.date := RouteSample.tuesday;
               Appointment.timeSlot := "11:00";
               Appointment.status := Appointment.confirmed |}.
Proof.
  apply (booking_written_before_the_error
           Sample.clock Sample.delivers RouteSample.parse RouteSample.noTrim
           RouteSample.message RouteSample.mint RouteSample.ghost
           (RouteSample.haircutOnTuesday "11:00") RouteSample.oneBooking _ _
           1 Sample.haircut RouteSample.tuesday
           [{| timeSlot := "10:00"; serviceDuration := 30 |}] "11:00").
  - reflexivity.
  - vm_compute; reflexivity.
  - reflexivity.
  - reflexivity.
  - reflexivity.
  - vm_compute; discriminate.
  - apply formatted_by_evaluation. vm_compute; reflexivity.
  - reflexivity.
  - discriminate.
  - vm_compute; reflexivity.
  - vm_compute; reflexivity.
  - apply surjective_pairing.
Defined.

Lemma offered_slot_is_accepted_witness :
  let s1 := snd (getAvailable Sample.clock RouteSample.parse RouteSample.message
                   RouteSample.haircutsOnTuesday RouteSample.oneBooking) in
  let run := createAppointment Sample.clock Sample.delivers RouteSample.parse
               RouteSample.noTrim RouteSample.message RouteSample.mint
               RouteSample.alice (RouteSample.haircutOnTuesday "09:00") s1 in
  (fst run).(status) = 200
  /\ exists a,
      (snd run).(world).(db).(appointments) !! RouteSample.mint s1.(minted)
      = Some a
      /\ a.(Appointment.userId) = 1
      /\ a.(Appointment.date) = RouteSample.tuesday
      /\ a.(Appointment.timeSlot) = "09:00"
      /\ Appointment.active a.(Appointment.status) = true.
Proof.
  apply (offered_slot_is_accepted
           Sample.clock Sample.delivers RouteSample.parse RouteSample.noTrim
           RouteSample.message RouteSample.mint RouteSample.alice
           RouteSample.haircutsOnTuesday (RouteSample.haircutOnTuesday "09:00")
           "09:00"
           (getAvailableTimeSlots RouteSample.tuesday
              [{| timeSlot := "10:00"; serviceDuration := 30 |}] 30)
           RouteSample.tuesday RouteSample.oneBooking).
  - vm_compute; reflexivity.
  - vm_compute. left. reflexivity.
  - reflexivity.
  - reflexivity.
  - reflexivity.
  - reflexivity.
  - vm_compute. eexists; reflexivity.
  - reflexivity.
  - vm_compute; discriminate.
  - apply surjective_pairing.
Defined.

Lemma nobody_waits_twice_witness :
  noDuplicateWaiting
    (snd (joinWaitlist Sample.clock RouteSample.parse RouteSample.message
            RouteSample.mint RouteSample.alice
            {| WaitlistBody.date := Some "2026-01-06";
               WaitlistBody.serviceId := AnId 1;
               WaitlistBody.preferredTimeSlots := None |}
            RouteSample.quietDay)).(world).(db)
  /\ noDuplicateWaiting
       (snd (updateWaitlistForDate Sample.clock Sample.delivers
               RouteSample.tuesday RouteSample.quietDay.(world))).(db).
Proof.
  apply (nobody_waits_twice
           Sample.clock Sample.delivers RouteSample.parse RouteSample.message
           RouteSample.mint RouteSample.alice _ RouteSample.tuesday
           RouteSample.quietDay).
  apply (noDuplicateWaiting_one _ 5).
Defined.

Lemma fullDay_cancelled_resolves :
  referencesResolve
    (setAppointments
       (<[1 := setStatus Appointment.cancelled
                 (RouteSample.booked 1 RouteSample.tuesday "17:30"
                                     Appointment.confirmed)]>
          RouteSample.fullDay.(world).(db).(appointments))
       RouteSample.fullDay.(world).(db))
    RouteSample.tuesday.
Proof.
  split.
  - intros x Hx. vm_compute in Hx.
    destruct Hx as [<-|[<-|[]]]; eexists; reflexivity.
  - intros entry Hentry. vm_compute in Hentry.
    destruct Hentry as [<-|[]]. split; eexists; reflexivity.
Qed.

Lemma cancellation_notifies_the_waitlist_witness :
  let run := cancelAppointment Sample.clock Sample.delivers RouteSample.message
               RouteSample.alice (AnId 1) RouteSample.fullDay in
  exists fmt,
    (forall w, mapM formatAppointment
                 (findAppointments
                    (setAppointments
                       (<[1 := setStatus Appointment.cancelled
                                 (RouteSample.booked 1 RouteSample.tuesday "17:30"
                                                     Appointment.confirmed)]>
                          RouteSample.fullDay.(world).(db).(appointments))
                       RouteSample.fullDay.(world).(db))
                    RouteSample.tuesday) w
               = (Ok fmt, w))
    /\ forall id e service,
        RouteSample.fullDay.(world).(db).(waitlists) !! id = Some e ->
        waitingOn RouteSample.tuesday e = true ->
        RouteSample.fullDay.(world).(db).(services) !! e.(Waitlist.serviceId)
        = Some service ->
        match getAvailableTimeSlots RouteSample.tuesday fmt
                                    service.(Service.duration) with
        | [] => (snd run).(world).(db).(waitlists) !! id = Some e
        | _ :: _ => notifiedIn (snd run).(world) id
        end.
Proof.
  apply (cancellation_notifies_the_waitlist
           Sample.clock Sample.delivers RouteSample.message RouteSample.alice 1
           (RouteSample.booked 1 RouteSample.tuesday "17:30" Appointment.confirmed)
           RouteSample.fullDay _
           (fst (cancelAppointment Sample.clock Sample.delivers
                   RouteSample.message RouteSample.alice (AnId 1)
                   RouteSample.fullDay))).
  - vm_compute; reflexivity.
  - apply surjective_pairing.
  - vm_compute; reflexivity.
  - exact fullDay_cancelled_resolves.
Defined.

Lemma quietDay_booked_resolves :
  referencesResolve
    (setAppointments
       (<[100 := {| Appointment.userId := 1; Appointment.serviceId := 1;
                    Appointment.date := RouteSample.tuesday;
                    Appointment.timeSlot := "11:00";
                    Appointment.status := Appointment.confirmed |}]>
          RouteSample.quietDay.(world).(db).(appointments))
       RouteSample.quietDay.(world).(db))
    RouteSample.tuesday.
Proof.
  split.
  - intros x Hx. vm_compute in Hx.
    destruct Hx as [<-|[<-|[]]]; eexists; reflexivity.
  - intros entry Hentry. vm_compute in Hentry.
    destruct Hentry as [<-|[]]. split; eexists; reflexivity.
Qed.

Lemma booking_notifies_the_waitlist_witness :
  let run := createAppointment Sample.clock Sample.delivers RouteSample.parse
               RouteSample.noTrim RouteSample.message RouteSample.mint
               RouteSample.alice (RouteSample.haircutOnTuesday "11:00")
               RouteSample.quietDay in
  let requested :=
    {| Appointment.userId := 1; Appointment.serviceId := 1;
       Appointment.date := RouteSample.tuesday;
       Appointment.timeSlot := "11:00";
       Appointment.status := Appointment.confirmed |} in
  exists fmt,
    (forall w, mapM formatAppointment
                 (findAppointments
                    (setAppointments
                       (<[100 := requested]>
                          RouteSample.quietDay.(world).(db).(appointments))
                       RouteSample.quietDay.(world).(db))
                    requested.(Appointment.date)) w
               = (Ok fmt, w))
    /\ forall waiting e service,
        RouteSample.quietDay.(world).(db).(waitlists) !! waiting = Some e ->
        waitingOn requested.(Appointment.date) e = true ->
        RouteSample.quietDay.(world).(db).(services) !! e.(Waitlist.serviceId)
        = Some service ->
        match getAvailableTimeSlots requested.(Appointment.date) fmt
                                    service.(Service.duration) with
        | [] => (snd run).(world).(db).(waitlists) !! waiting = Some e
        | _ :: _ => notifiedIn (snd run).(world) waiting
        end.
Proof.
  apply (booking_notifies_the_waitlist
           Sample.clock Sample.delivers RouteSample.parse RouteSample.noTrim
           RouteSample.message RouteSample.mint RouteSample.alice
           (RouteSample.haircutOnTuesday "11:00") RouteSample.quietDay _
           100
           {| Appointment.userId := 1; Appointment.serviceId := 1;
              Appointment.date := RouteSample.tuesday;
              Appointment.timeSlot := "11:00";
              Appointment.status := Appointment.confirmed |}).
  - vm_compute; reflexivity.
  - exact quietDay_booked_resolves.
Defined.

Lemma literal_routes_after_id_are_shadowed_witness :
  dispatch GET ["available"] = Some GetOne
  /\ dispatch GET ["Waitlist"] = Some GetOne.
Proof.
  split.
  - apply (proj1 (proj2 literal_routes_after_id_are_shadowed) "available").
    left. reflexivity.
  - apply (proj1 (proj2 literal_routes_after_id_are_shadowed) "Waitlist").
    right. reflexivity.
Defined.

End RouteWitnesses.
